(** * Tofu: the research task pipeline

    A shallow embedding of the Tofu Forge application's research pipeline:
    the Exa research client ([backend/exa/client.ts]), the Confluence page
    helpers ([backend/confluence/pages.ts]), the asynchronous consumer
    ([backend/consumers/deepResearchConsumer.ts]), the Rovo actions
    ([backend/actions/deepResearch.ts], [searchPeople.ts],
    [searchCompanies.ts]) and the issue deep-research resolver
    ([performDeepResearch]); further the dashboard resolver
    ([backend/resolver.ts]), the title and labels of [addToBoard], the
    choice of the issue type ([backend/jira/issues.ts]) and the Q&A store
    of the Q&A creator ([qandaUtil.js]).

    Conventions of the embedding.
    - A JavaScript string is a [string] that holds the UTF-8 bytes of the
      text. The text functions are exact on ASCII text; [trim] and the
      white space class also know the white space that is not ASCII, while
      [toLowerCase] and [hashString] go byte by byte. The non-ASCII
      literals of the source are kept byte for byte as the files have them.
    - A request is named by the route the source writes, with the
      parameters as they are given to the [route] tag.
    - An [async] function is a computation in the monad [M]: it threads the
      [World] (key-value store, queue, trace of outbound calls, clock) and
      either returns a value or throws.
    - The collaborators (Exa, Confluence, Jira, clock, random source) answer
      through the oracle [Env]; the key-value store and the queue follow
      their fixed contract (get/set and push always answer). Within one
      [Env] a search and a Confluence query are answered by the request
      alone; a statement about two runs that may be answered differently
      takes one [Env] per run. Jira answers with an issue of the declared
      type; the resolver is also given over unchecked bodies
      ([performDeepResearchOn]).
    - [console.log] and friends have no effect on the program and are
      dropped. *)

From Stdlib Require Import Ascii QArith Qminmax Qpower Lqa.
From stdpp Require Import gmap strings list pretty.

(* ===================================================================== *)
(** * JavaScript values *)
(* ===================================================================== *)

(** A thrown value: an [Error] object with its message, or anything else. *)
Inductive thrown : Type :=
| JsError (message : string)
| JsOther.

(** How a call ends. *)
Inductive outcome (A : Type) : Type :=
| Returned (a : A)
| Thrown (e : thrown).
Arguments Returned {A} a.
Arguments Thrown {A} e.

(** [error instanceof Error ? error.message : "Unknown error"] *)
Definition errorMessage (e : thrown) : string :=
  match e with
  | JsError m => m
  | JsOther => "Unknown error"
  end.

(** Truthiness of a string: every string but the empty one. *)
Definition truthy (s : string) : bool :=
  match s with
  | "" => false
  | _ => true
  end.

(** Truthiness of an optional string field ([undefined] is falsy). *)
Definition truthyOpt (o : option string) : bool :=
  match o with
  | Some s => truthy s
  | None => false
  end.

(** [o || d] for an optional string [o]. *)
Definition orElse (o : option string) (d : string) : string :=
  match o with
  | Some s => if truthy s then s else d
  | None => d
  end.

(** [l || []] for an optional array. *)
Definition orEmpty {A} (o : option (list A)) : list A :=
  match o with
  | Some l => l
  | None => []
  end.

Definition nl : string := String "010"%char "".

Inductive EntityType : Type := person | company.

Global Instance EntityType_eq_dec : EqDecision EntityType.
Proof. solve_decision. Defined.

(* ===================================================================== *)
(** * Types of the Exa API ([types/index.ts], [exa/client.ts]) *)
(* ===================================================================== *)

Record ExaSearchResult : Type := {
  esr_id : string;
  esr_title : string;
  esr_url : string;
  esr_text : option string;
  esr_highlights : option (list string);
}.

Record ExaSearchResponse : Type := {
  results : option (list ExaSearchResult);
}.

Inductive ResearchStatus : Type :=
| st_pending | st_running | st_completed | st_canceled | st_failed.

Record ExaResearchCreateResponse : Type := {
  cr_researchId : string;
  cr_status : ResearchStatus;
}.

Record ExaSource : Type := {
  src_url : string;
  src_title : string;
  src_snippet : option string;
}.

Record ExaResearchGetResponse : Type := {
  gr_status : ResearchStatus;
  gr_output : option string;
  gr_sources : option (list ExaSource);
  gr_error : option string;
}.

Record ExaSearchRequest : Type := {
  rq_query : string;
  rq_numResults : nat;
  rq_category : string;
  rq_maxCharacters : nat;
  rq_numSentences : nat;
  rq_highlightsPerUrl : nat;
}.

Record ExaResearchRequest : Type := {
  rr_instructions : string;
  rr_model : string;
}.

(** What [fetch] / [requestConfluence] / [requestJira] gives back: a
    response with [ok] and its parsed body, a response that is not [ok]
    with its status and text, or a rejected promise. *)
Inductive http (J : Type) : Type :=
| HttpOk (json : J)
| HttpNotOk (status : nat) (text : string)
| HttpReject (e : thrown).
Arguments HttpOk {J} json.
Arguments HttpNotOk {J} status text.
Arguments HttpReject {J} e.

(* ===================================================================== *)
(** * Types of Confluence and Jira ([confluence/pages.ts], the resolver) *)
(* ===================================================================== *)

Record ConfluenceSpace : Type := {
  sp_id : string;
  sp_key : string;
  sp_name : string;
}.

Record SpacesResponse : Type := {
  spaces_results : option (list ConfluenceSpace);
  spaces_base : option string;
}.

Record ConfluencePageResponse : Type := {
  pg_id : string;
  pg_title : string;
  pg_webui : string;
}.

Record PagePayload : Type := {
  pp_spaceId : string;
  pp_title : string;
  pp_body : string;
  pp_format : string;
}.

Record PageResult : Type := {
  pageId : string;
  pageUrl : string;
  title : string;
}.

Record JiraIssueDetails : Type := {
  iss_summary : option string;
  iss_labels : option (list string);
}.

(* ===================================================================== *)
(** * Stored values ([types/index.ts] and the records the code writes) *)
(* ===================================================================== *)

Inductive LeadStatus : Type := ls_pending | ls_accepted | ls_rejected | ls_contacted.

Record PersonLead : Type := {
  pl_id : string;
  pl_name : string;
  profileUrl : option string;
  pl_summary : option string;
  pl_foundAt : string;
  pl_source : string;
  pl_status : LeadStatus;
}.

Record CompanyLead : Type := {
  cl_id : string;
  cl_name : string;
  website : option string;
  cl_summary : option string;
  cl_foundAt : string;
  cl_source : string;
  cl_status : LeadStatus;
}.

Inductive SearchType : Type := people | companies.

Record SearchHistoryItem : Type := {
  sh_id : string;
  sh_query : string;
  sh_searchType : SearchType;
  sh_timestamp : string;
  sh_resultCount : nat;
}.

Record TofuConfig : Type := {
  defaultConfluenceSpace : option string;
  confluenceSpaceKey : option string;
}.

Inductive JobStatus : Type := js_queued | js_completed | js_failed.

(** The object stored under [research-job-<id>]; a field the writer leaves
    out is [None]. *)
Record JobRecord : Type := {
  job_query : string;
  job_entityType : EntityType;
  job_userId : string;
  job_cloudId : string;
  job_jobId : option string;
  job_status : JobStatus;
  job_createdAt : option string;
  job_pageUrl : option string;
  job_pageTitle : option string;
  job_error : option string;
  job_completedAt : option string;
}.

(** The object stored under [research-result-<id>]. *)
Record ResearchResult : Type := {
  rr_jobId : string;
  rr_success : bool;
  rr_query : string;
  rr_entityType : EntityType;
  rr_pageUrl : option string;
  rr_pageTitle : option string;
  rr_error : option string;
  rr_completedAt : string;
}.

Inductive KvsValue : Type :=
| VJob (j : JobRecord)
| VResult (r : ResearchResult)
| VConfig (c : TofuConfig)
| VPersonLeads (l : list PersonLead)
| VCompanyLeads (l : list CompanyLead)
| VHistory (l : list SearchHistoryItem).

(** The body of a message on [deep-research-queue]. *)
Record DeepResearchEventPayload : Type := {
  ev_query : string;
  ev_entityType : EntityType;
  ev_userId : string;
  ev_cloudId : string;
  ev_spaceKey : option string;
  ev_researchId : string;
}.

(* ===================================================================== *)
(** * The world and the monad of asynchronous functions *)
(* ===================================================================== *)

Inductive Service : Type := Exa | ConfluenceAsApp | ConfluenceAsUser | JiraAsUser.

Global Instance Service_eq_dec : EqDecision Service.
Proof. solve_decision. Defined.

(** One outbound effect, as the collaborators see it. *)
Inductive Event : Type :=
| EvSleep (ms : Q)
| EvRequest (to : Service) (method : string) (path : string).

Record World : Type := {
  kvs : gmap string KvsValue;
  queue : list DeepResearchEventPayload;
  trace : list Event;          (* most recent first *)
  ticks : nat;                 (* clock and random draws taken so far *)
}.

Definition M (A : Type) : Type := World → outcome A * World.

Global Instance M_ret : MRet M := λ A a w, (Returned a, w).
Global Instance M_bind : MBind M := λ A B f m w,
  match m w with
  | (Returned a, w') => f a w'
  | (Thrown e, w') => (Thrown e, w')
  end.

Definition throw {A} (e : thrown) : M A := λ w, (Thrown e, w).

(** [try { body } catch (error) { handler }] *)
Definition try_catch {A} (body : M A) (handler : thrown → M A) : M A := λ w,
  match body w with
  | (Returned a, w') => (Returned a, w')
  | (Thrown e, w') => handler e w'
  end.

Definition emit (e : Event) : M unit := λ w,
  (Returned (), {| kvs := kvs w; queue := queue w;
                   trace := e :: trace w; ticks := ticks w |}).

Definition tick : M nat := λ w,
  (Returned (ticks w), {| kvs := kvs w; queue := queue w;
                          trace := trace w; ticks := S (ticks w) |}).

Definition kvs_get (key : string) : M (option KvsValue) := λ w,
  (Returned (kvs w !! key), w).

Definition kvs_set (key : string) (v : KvsValue) : M unit := λ w,
  (Returned (), {| kvs := <[key := v]> (kvs w); queue := queue w;
                   trace := trace w; ticks := ticks w |}).

(** A status poll: a [GET] request to Exa. *)
Definition isPoll (e : Event) : bool :=
  match e with
  | EvRequest Exa method _ => String.eqb method "GET"
  | _ => false
  end.

(** Number of status polls a trace holds. *)
Definition pollCount (t : list Event) : nat := length (List.filter isPoll t).

(** The delays slept, oldest first. *)
Definition sleeps (t : list Event) : list Q :=
  omap (λ e, match e with EvSleep ms => Some ms | _ => None end) (reverse t).

(** The world after the events [es] (most recent first) happened. *)
Definition logged (es : list Event) (w : World) : World :=
  {| kvs := kvs w; queue := queue w; trace := es ++ trace w; ticks := ticks w |}.

(** The collaborators. A status poll is answered by its rank among the polls
    made so far; the clock and the random source by the number of draws; a
    Confluence space query by who asks and the path asked. *)
Record Env : Type := {
  exaApiKey : option string;
  exaCreate : ExaResearchRequest → http ExaResearchCreateResponse;
  exaGet : nat → string → http ExaResearchGetResponse;
  exaSearch : ExaSearchRequest → http ExaSearchResponse;
  confluenceSpaces : Service → string → http SpacesResponse;
  confluenceCreatePage : Service → PagePayload → http ConfluencePageResponse;
  jiraIssue : string → http JiraIssueDetails;
  jiraComment : string → http unit;
  queuePush : DeepResearchEventPayload → string;
  dateNow : nat → N;
  toISOString : N → string;
  toLocaleDateString : N → string;
  randomBase36 : nat → string;
}.

(* ===================================================================== *)
(** * The Exa client ([backend/exa/client.ts]) *)
(* ===================================================================== *)

Module ExaClient.
Section WithEnv.
Context (env : Env).

Definition EXA_API_BASE_URL : string := "https://api.exa.ai".

Definition getApiKey : M string :=
  if truthyOpt (exaApiKey env)
  then mret (orElse (exaApiKey env) "")
  else throw (JsError "Exa API key not configured. Please set the exaApiKey variable using `forge variables set exaApiKey <your-key>`").

(** The part of [makeExaRequest] and [makeExaGetRequest] after [fetch]. *)
Definition readResponse {J} (response : http J) : M J :=
  match response with
  | HttpReject e => throw e
  | HttpNotOk status text =>
      throw (JsError ("Exa API error: " +:+ pretty status +:+ " - " +:+ text))
  | HttpOk data => mret data
  end.

Definition makeExaRequest {J} (endpoint : string) (response : http J) : M J :=
  _ ← getApiKey;
  emit (EvRequest Exa "POST" endpoint);;
  readResponse response.

Definition pollsSoFar : M nat := λ w, (Returned (pollCount (trace w)), w).

Definition makeExaGetRequest {J} (endpoint : string) (response : nat → http J) : M J :=
  _ ← getApiKey;
  n ← pollsSoFar;
  emit (EvRequest Exa "GET" endpoint);;
  readResponse (response n).

Definition sleep (ms : Q) : M unit := emit (EvSleep ms).

Definition instructions (query : string) (entityType : EntityType) : string :=
  match entityType with
  | person =>
"Research and provide a comprehensive profile of " +:+ query +:+ ". Include:
- Professional background and current role
- Career history and notable achievements
- Education and qualifications
- Skills and areas of expertise
- Any public presence (LinkedIn, Twitter, publications)
- Recent news or mentions
Provide specific details with citations where available."
  | company =>
"Research and provide a comprehensive overview of the company " +:+ query +:+ ". Include:
- Company overview and what they do
- Founding date, headquarters, and key leadership
- Products or services offered
- Industry and market position
- Funding history and financial status (if available)
- Recent news, partnerships, or notable developments
- Company culture and employee count (if available)
Provide specific details with citations where available."
  end.

Definition maxAttempts : nat := 30.
Definition initialDelay : Q := 2000.
Definition maxDelay : Q := 30000.

(** One line of the source list: [`${index + 1}. [${title}](${url})\n`]. *)
Definition sourceLine (index : nat) (source : ExaSource) : string :=
  pretty (index + 1) +:+ ". [" +:+ src_title source +:+ "](" +:+ src_url source +:+ ")" +:+ nl.

(** What the loop returns on [status === "completed"]. *)
Definition completedResult (statusResponse : ExaResearchGetResponse) : string :=
  let result := orElse (gr_output statusResponse) "No research output available." in
  match gr_sources statusResponse with
  | Some ((_ :: _) as sources) =>
      foldl String.app (result +:+ nl +:+ nl +:+ "**Sources:**" +:+ nl)
            (imap sourceLine sources)
  | _ => result
  end.

(** The [for (attempt = 1; attempt <= maxAttempts; attempt++)] loop followed
    by the time-out [throw]; [remaining] is [maxAttempts - attempt + 1]. *)
Fixpoint pollLoop (researchId : string) (remaining : nat) (delay : Q) : M string :=
  match remaining with
  | O => throw (JsError "Research timed out. The request is taking longer than expected.")
  | S remaining' =>
      sleep delay;;
      statusResponse ← makeExaGetRequest ("/research/v1/" +:+ researchId)
                                         (λ n, exaGet env n researchId);
      match gr_status statusResponse with
      | st_completed => mret (completedResult statusResponse)
      | st_failed =>
          throw (JsError ("Research failed: " +:+
                          orElse (gr_error statusResponse) "Unknown error"))
      | st_canceled => throw (JsError "Research task was canceled")
      | st_pending | st_running =>
          pollLoop researchId remaining' (Qmin (delay * 1.5) maxDelay)
      end
  end.

(** The body of the [try] block of [deepResearch]. *)
Definition research (query : string) (entityType : EntityType) : M string :=
  createResponse ← makeExaRequest "/research/v1"
    (exaCreate env {| rr_instructions := instructions query entityType;
                      rr_model := "exa-research-fast" |});
  pollLoop (cr_researchId createResponse) maxAttempts initialDelay.

Definition fallbackRequest (query : string) (entityType : EntityType) : ExaSearchRequest :=
  {| rq_query :=
       match entityType with
       | person => "Detailed profile and background information about " +:+ query
       | company => "Company profile, overview, and detailed information about " +:+ query
       end;
     rq_numResults := 5;
     rq_category := match entityType with person => "people" | company => "company" end;
     rq_maxCharacters := 3000;
     rq_numSentences := 5;
     rq_highlightsPerUrl := 5 |}.

(** One iteration of [results.forEach] in [fallbackDeepSearch]. *)
Definition fallbackEntry (index : nat) (result : ExaSearchResult) : string :=
  "**" +:+ pretty (index + 1) +:+ ". " +:+
    (if truthy (esr_title result) then esr_title result else "Unknown") +:+ "**" +:+ nl +:+
  (if truthy (esr_url result) then "Source: " +:+ esr_url result +:+ nl else "") +:+
  (if truthyOpt (esr_text result)
   then nl +:+ String.substring 0 1500 (orElse (esr_text result) "") +:+ nl else "") +:+
  (match esr_highlights result with
   | Some ((_ :: _) as highlights) =>
       nl +:+ "Key points:" +:+ nl +:+
       String.concat "" ((λ highlight, "â€¢ " +:+ highlight +:+ nl) <$> take 3 highlights)
   | _ => ""
   end) +:+
  nl +:+ "---" +:+ nl +:+ nl.

Definition fallbackDeepSearch (query : string) (entityType : EntityType) : M string :=
  response ← makeExaRequest "/search" (exaSearch env (fallbackRequest query entityType));
  let results := orEmpty (results response) in
  match results with
  | [] => mret ("No detailed information found for " +:+ query +:+ ".")
  | _ =>
      mret (foldl String.app ("**Research Results for " +:+ query +:+ "**" +:+ nl +:+ nl)
                  (imap fallbackEntry results))
  end.

Definition deepResearch (query : string) (entityType : EntityType) : M string :=
  try_catch (research query entityType)
            (λ _, fallbackDeepSearch query entityType).

End WithEnv.
End ExaClient.

(* ===================================================================== *)
(** * String operations of the JavaScript library *)
(* ===================================================================== *)

Module Js.

Definition dq : string := String "034"%char "".

(** [LineTerminator] of the regular expressions ([.], [^] and [$] with the
    [m] flag): line feed and carriage return. *)
Definition isLineTerminator (c : ascii) : bool :=
  match c with
  | "010"%char | "013"%char => true
  | _ => false
  end.

Definition isDigit (c : ascii) : bool :=
  match c with
  | "0"%char | "1"%char | "2"%char | "3"%char | "4"%char
  | "5"%char | "6"%char | "7"%char | "8"%char | "9"%char => true
  | _ => false
  end.

Definition isChar (c d : ascii) : bool := bool_decide (c = d).

(** The longest prefix whose characters satisfy [p], and the rest. *)
Fixpoint span (p : ascii → bool) (s : string) : string * string :=
  match s with
  | String c s' =>
      if p c then let '(a, b) := span p s' in (String c a, b) else ("", s)
  | "" => ("", "")
  end.

(** [Some rest] when [s = prefix ++ rest]. *)
Fixpoint stripPrefix (prefix s : string) : option string :=
  match prefix, s with
  | "", _ => Some s
  | String a prefix', String b s' =>
      if isChar a b then stripPrefix prefix' s' else None
  | String _ _, "" => None
  end.

(** [s.startsWith(prefix)] *)
Definition startsWith (prefix s : string) : bool :=
  match stripPrefix prefix s with Some _ => true | None => false end.

(** [s.includes(needle)] *)
Fixpoint includes (needle s : string) : bool :=
  startsWith needle s ||
  match s with
  | String _ s' => includes needle s'
  | "" => false
  end.

(** The white space of [trim] and of the class [\s] that is not ASCII, in
    the UTF-8 bytes strings are held in: U+00A0 on two bytes; U+1680,
    U+2000 to U+200A, U+2028, U+2029, U+202F, U+205F, U+3000 and U+FEFF on
    three. *)
Definition isSpace2 (a b : ascii) : bool :=
  (nat_of_ascii a =? 194)%nat && (nat_of_ascii b =? 160)%nat.

Definition isSpace3 (a b c : ascii) : bool :=
  let '(a, b, c) := (nat_of_ascii a, nat_of_ascii b, nat_of_ascii c) in
  ((a =? 225) && (b =? 154) && (c =? 128))
  || ((a =? 226) && (b =? 128)
      && (((128 <=? c) && (c <=? 138)) || (c =? 168) || (c =? 169) || (c =? 175)))
  || ((a =? 226) && (b =? 129) && (c =? 159))
  || ((a =? 227) && (b =? 128) && (c =? 128))
  || ((a =? 239) && (b =? 187) && (c =? 191)).

(** Drops the white space a string starts with; [two] and [three] tell the
    characters of two and of three bytes. *)
Fixpoint dropSpaces (two : ascii → ascii → bool) (three : ascii → ascii → ascii → bool)
    (s : string) : string :=
  match s with
  | String c1 s1 =>
      if Ascii.is_space c1 then dropSpaces two three s1
      else
        match s1 with
        | String c2 s2 =>
            if two c1 c2 then dropSpaces two three s2
            else
              match s2 with
              | String c3 s3 => if three c1 c2 c3 then dropSpaces two three s3 else s
              | "" => s
              end
        | "" => s
        end
  | "" => ""
  end.

Definition trimStart (s : string) : string := dropSpaces isSpace2 isSpace3 s.

(** From the end the bytes of a character come last byte first. *)
Definition trimEnd (s : string) : string :=
  String.rev (dropSpaces (λ b a, isSpace2 a b) (λ c b a, isSpace3 a b c) (String.rev s)).

(** [s.trim()] *)
Definition trim (s : string) : string := trimEnd (trimStart s).

(** [s.split("\n")] *)
Fixpoint splitLines (cur : string) (s : string) : list string :=
  match s with
  | "" => [String.rev cur]
  | String c s' =>
      if isChar c "010" then String.rev cur :: splitLines "" s'
      else splitLines (String c cur) s'
  end.

(** [s.split(/\n\n+/)]: cut at every run of two or more line feeds. *)
Fixpoint splitBlocks (inSeparator : bool) (cur : string) (s : string) : list string :=
  match s with
  | "" => [String.rev cur]
  | String c s' =>
      if isChar c "010" then
        if inSeparator then splitBlocks true cur s'
        else if startsWith nl s' then String.rev cur :: splitBlocks true "" s'
        else splitBlocks false (String c cur) s'
      else splitBlocks false (String c cur) s'
  end.

(** [s.replace(/c/g, by)] for a single character [c]. *)
Fixpoint replaceChar (c : ascii) (by_ : string) (s : string) : string :=
  match s with
  | "" => ""
  | String d s' =>
      if isChar d c then by_ +:+ replaceChar c by_ s'
      else String d (replaceChar c by_ s')
  end.

(** ASCII part of [s.toLowerCase()]. *)
Definition lowerChar (c : ascii) : ascii :=
  let n := nat_of_ascii c in
  if (65 <=? n)%nat && (n <=? 90)%nat then ascii_of_nat (n + 32) else c.

Fixpoint toLowerCase (s : string) : string :=
  match s with
  | "" => ""
  | String c s' => String (lowerChar c) (toLowerCase s')
  end.

(** [s.replace(re, ...)] with the [g] flag. The matcher [m] stands for the
    regular expression: given the character before the position ([None] at
    the start of the input) and the input from the position on, it answers
    the replacement text and the length of the match. Every expression of
    this program matches at least one character; after a match the scan
    goes on behind it. *)
Fixpoint replaceFrom (m : option ascii → string → option (string * nat))
    (skip : nat) (prev : option ascii) (s : string) : string :=
  match s with
  | "" => ""
  | String c s' =>
      match skip with
      | S k => replaceFrom m k (Some c) s'
      | O =>
          match m prev s with
          | Some (replacement, n) => replacement +:+ replaceFrom m (pred n) (Some c) s'
          | None => String c (replaceFrom m 0 (Some c) s')
          end
      end
  end.

Definition replaceAll (m : option ascii → string → option (string * nat))
    (s : string) : string :=
  replaceFrom m 0 None s.

(** [^] with the [m] flag. *)
Definition atLineStart (prev : option ascii) : bool :=
  match prev with
  | None => true
  | Some c => isLineTerminator c
  end.

(** [$] with the [m] flag. *)
Definition atLineEnd (s : string) : bool :=
  match s with
  | "" => true
  | String c _ => isLineTerminator c
  end.

End Js.

(* ===================================================================== *)
(** * Confluence pages ([backend/confluence/pages.ts]) *)
(* ===================================================================== *)

Module ConfluencePages.
Import Js.

(** [escapeHtml] *)
Definition escapeHtml (text : string) : string :=
  replaceChar "'" "&#039;"
    (replaceChar "034" "&quot;"
      (replaceChar ">" "&gt;"
        (replaceChar "<" "&lt;"
          (replaceChar "&" "&amp;" text)))).

Definition notStar (c : ascii) : bool := negb (isChar c "*").
Definition notLineTerminator (c : ascii) : bool := negb (isLineTerminator c).

(** [/\*\*([^*]+)\*\*/] replaced by ["<strong>$1</strong>"] *)
Definition bold (_ : option ascii) (s : string) : option (string * nat) :=
  rest ← stripPrefix "**" s;
  let '(inner, after) := span notStar rest in
  if truthy inner && startsWith "**" after
  then Some ("<strong>" +:+ inner +:+ "</strong>", 2 + String.length inner + 2)
  else None.

(** The italic expression replaced by ["<em>$1</em>"]: a star with no star
    before it (lookbehind), one or more characters other than a star, and a
    star with no star behind it (lookahead). *)
Definition italic (prev : option ascii) (s : string) : option (string * nat) :=
  if bool_decide (prev = Some "*"%char) then None else
  rest ← stripPrefix "*" s;
  let '(inner, after) := span notStar rest in
  after' ← stripPrefix "*" after;
  if truthy inner && negb (startsWith "*" after')
  then Some ("<em>" +:+ inner +:+ "</em>", 1 + String.length inner + 1)
  else None.

(** [/^<marker> (.+)$/m] replaced by ["<tag>$1</tag>"] *)
Definition heading (marker tag : string) (prev : option ascii) (s : string)
    : option (string * nat) :=
  if atLineStart prev then
    rest ← stripPrefix (marker +:+ " ") s;
    let '(line, _) := span notLineTerminator rest in
    if truthy line
    then Some ("<" +:+ tag +:+ ">" +:+ line +:+ "</" +:+ tag +:+ ">",
               String.length marker + 1 + String.length line)
    else None
  else None.

(** The characters of the class the bullet expressions start with, as the
    file has them: the hyphen, U+201A, U+00C4 and U+00A2. *)
Definition bulletMarkers : list string := ["-"; "‚"; "Ä"; "¢"].

(** [Some rest] when [s] is one of the markers, a space and [rest]. *)
Fixpoint markerPrefix (markers : list string) (s : string) : option string :=
  match markers with
  | [] => None
  | marker :: markers' =>
      match stripPrefix (marker +:+ " ") s with
      | Some rest => Some rest
      | None => markerPrefix markers' s
      end
  end.

(** The class of the four markers followed by a space, at the start of
    [s]: the rest of the line behind a bullet marker. *)
Definition bulletPrefix (s : string) : option string := markerPrefix bulletMarkers s.

(** [/^\d+\. /]: the rest of the line behind a number marker. *)
Definition numberPrefix (s : string) : option string :=
  let '(digits, after) := span isDigit s in
  if truthy digits then stripPrefix ". " after else None.

(** Length of the match of [(?:^<prefix>.+$\n?)+] at a line start: the items
    go on as long as each one ends in a line feed and the next line has the
    marker and at least one more character. *)
Fixpoint listRun (prefix : string → option string) (fuel : nat) (s : string) : nat :=
  match fuel with
  | O => 0
  | S fuel' =>
      match prefix s with
      | None => 0
      | Some rest =>
          let '(line, after) := span notLineTerminator rest in
          if truthy line then
            let n := (String.length s - String.length after)%nat in
            match stripPrefix nl after with
            | Some after' => (n + 1 + listRun prefix fuel' after')%nat
            | None => n
            end
          else 0
      end
  end.

(** The callback of the two list replacements. *)
Definition listItems (prefix : string → option string) (matched : string) : string :=
  String.concat nl
    ((λ line, "<li>" +:+ trim (default line (prefix line)) +:+ "</li>")
       <$> filter (λ line, truthy (trim line) = true) (splitLines "" matched)).

Definition listBlock (prefix : string → option string) (tag : string)
    (prev : option ascii) (s : string) : option (string * nat) :=
  if atLineStart prev then
    match listRun prefix (String.length s) s with
    | O => None
    | n =>
        Some ("<" +:+ tag +:+ ">" +:+ nl +:+
              listItems prefix (String.substring 0 n s) +:+ nl +:+
              "</" +:+ tag +:+ ">" +:+ nl, n)
    end
  else None.

Definition notCloseBracket (c : ascii) : bool := negb (isChar c "]").
Definition notCloseParen (c : ascii) : bool := negb (isChar c ")").

(** [/\[([^\]]+)\]\(([^)]+)\)/] replaced by ['<a href="$2">$1</a>'] *)
Definition link (_ : option ascii) (s : string) : option (string * nat) :=
  rest ← stripPrefix "[" s;
  let '(text, after) := span notCloseBracket rest in
  rest2 ← stripPrefix "](" after;
  let '(url, after2) := span notCloseParen rest2 in
  if truthy text && truthy url && startsWith ")" after2
  then Some ("<a href=" +:+ dq +:+ url +:+ dq +:+ ">" +:+ text +:+ "</a>",
             1 + String.length text + 2 + String.length url + 1)
  else None.

(** [/^---+$/m] replaced by ["<hr/>"] *)
Definition rule (prev : option ascii) (s : string) : option (string * nat) :=
  if atLineStart prev then
    let '(dashes, after) := span (λ c, isChar c "-") s in
    if (3 <=? String.length dashes)%nat && atLineEnd after
    then Some ("<hr/>", String.length dashes)
    else None
  else None.

(** The callback of [paragraphs.map]. *)
Definition paragraph (p : string) : string :=
  let trimmed := trim p in
  if startsWith "<h" trimmed || startsWith "<ul" trimmed || startsWith "<ol" trimmed
     || startsWith "<hr" trimmed || startsWith "<p" trimmed
  then trimmed
  else if truthy trimmed
       then "<p>" +:+ replaceChar "010" "<br/>" trimmed +:+ "</p>"
       else "".

(** The conversion of the report text, from [let content = markdownStr] to
    [html += content]. *)
Definition convertContent (markdownStr : string) : string :=
  let content := markdownStr in
  let content := replaceAll bold content in
  let content := replaceAll italic content in
  let content := replaceAll (heading "###" "h3") content in
  let content := replaceAll (heading "##" "h2") content in
  let content := replaceAll (heading "#" "h1") content in
  let content := replaceAll (listBlock bulletPrefix "ul") content in
  let content := replaceAll (listBlock numberPrefix "ol") content in
  let content := replaceAll link content in
  let content := replaceAll rule content in
  let paragraphs := splitBlocks false "" content in
  String.concat (nl +:+ nl)
    (filter (λ p, truthy p = true) (paragraph <$> paragraphs)).

(** The emoji of the actions and of the resolver. *)
Definition personEmoji : string := "👤".
Definition companyEmoji : string := "🏢".

(** The two literals of [convertResearchToStorageFormat], as the file has
    them: U+F8FF, U+00FC and two more characters each. *)
Definition personBanner : string := "üë§".
Definition companyBanner : string := "üè¢".

(** [convertResearchToStorageFormat]; [today] is
    [new Date().toLocaleDateString()]. Every caller passes a string for
    [markdown]. *)
Definition convertResearchToStorageFormat (today : string)
    (markdown leadName : string) (entityType : EntityType) : string :=
  let emoji := match entityType with person => personBanner | company => companyBanner end in
  let typeLabel := match entityType with person => "Person" | company => "Company" end in
  let html := nl +:+
"<ac:structured-macro ac:name=" +:+ dq +:+ "info" +:+ dq +:+ ">
  <ac:rich-text-body>
    <p><strong>" +:+ emoji +:+ " " +:+ typeLabel +:+ " Lead Research</strong></p>
    <p>This page contains AI-generated research about <strong>" +:+ escapeHtml leadName +:+ "</strong>.</p>
    <p><em>Generated by Tofu on " +:+ today +:+ "</em></p>
  </ac:rich-text-body>
</ac:structured-macro>

<h1>Research: " +:+ escapeHtml leadName +:+ "</h1>
" in
  let html := html +:+ convertContent markdown in
  html +:+ nl +:+
"<hr/>
<ac:structured-macro ac:name=" +:+ dq +:+ "note" +:+ dq +:+ ">
  <ac:rich-text-body>
    <p><strong>About this research</strong></p>
    <p>This research was generated using Exa AI's research capabilities. 
    The information should be verified before taking action.</p>
  </ac:rich-text-body>
</ac:structured-macro>
".

Section WithEnv.
Context (env : Env).

(** [new Date()] read as milliseconds. *)
Definition newDate : M N := t ← tick; mret (dateNow env t).

(** The body shared by [getSpaces] and [getSpacesAsApp]: every failure of
    the request ends in the empty list. *)
Definition getSpacesAs (who : Service) : M (list ConfluenceSpace) :=
  let path := "/wiki/api/v2/spaces?limit=25&sort=name" in
  emit (EvRequest who "GET" path);;
  match confluenceSpaces env who path with
  | HttpOk data => mret (orEmpty (spaces_results data))
  | _ => mret []
  end.

Definition getSpaces : M (list ConfluenceSpace) := getSpacesAs ConfluenceAsUser.
Definition getSpacesAsApp : M (list ConfluenceSpace) := getSpacesAs ConfluenceAsApp.

Definition firstSpaceKey (spaces : list ConfluenceSpace) : option string :=
  match spaces with
  | space :: _ => Some (sp_key space)
  | [] => None
  end.

Definition getDefaultSpaceKey : M (option string) :=
  spaces ← getSpaces; mret (firstSpaceKey spaces).

Definition getDefaultSpaceKeyAsApp : M (option string) :=
  spaces ← getSpacesAsApp; mret (firstSpaceKey spaces).

(** [getConfluenceBaseUrl] *)
Definition getConfluenceBaseUrl : M string :=
  let path := "/wiki/api/v2/spaces?limit=1" in
  emit (EvRequest ConfluenceAsUser "GET" path);;
  match confluenceSpaces env ConfluenceAsUser path with
  | HttpOk data => mret (orElse (spaces_base data) "")
  | _ => mret ""
  end.

Record CreatePageOptions : Type := {
  opt_spaceKey : string;
  opt_title : string;
  opt_body : string;
  opt_format : string;
}.

(** The part shared by [createPage] and [createPageAsApp]: look the space
    up by its key, post the page; [None] is the source's [null]. *)
Definition postPage (who : Service) (options : CreatePageOptions)
    : M (option ConfluencePageResponse) :=
  let path := "/wiki/api/v2/spaces?keys=" +:+ opt_spaceKey options +:+ "&limit=1" in
  emit (EvRequest who "GET" path);;
  match confluenceSpaces env who path with
  | HttpOk spaceData =>
      match orEmpty (spaces_results spaceData) with
      | [] => mret None
      | space :: _ =>
          if truthy (sp_id space) then
            let pagePayload := {| pp_spaceId := sp_id space;
                                  pp_title := opt_title options;
                                  pp_body := opt_body options;
                                  pp_format := opt_format options |} in
            emit (EvRequest who "POST" "/wiki/api/v2/pages");;
            match confluenceCreatePage env who pagePayload with
            | HttpOk page => mret (Some page)
            | _ => mret None
            end
          else mret None
      end
  | _ => mret None
  end.

Definition createPage (options : CreatePageOptions) : M (option PageResult) :=
  page ← postPage ConfluenceAsUser options;
  match page with
  | None => mret None
  | Some page =>
      baseUrl ← getConfluenceBaseUrl;
      mret (Some {| pageId := pg_id page;
                    pageUrl := if truthy baseUrl
                               then baseUrl +:+ "/wiki" +:+ pg_webui page
                               else pg_webui page;
                    title := pg_title page |})
  end.

Definition createPageAsApp (options : CreatePageOptions) : M (option PageResult) :=
  page ← postPage ConfluenceAsApp options;
  match page with
  | None => mret None
  | Some page =>
      mret (Some {| pageId := pg_id page; pageUrl := pg_webui page;
                    title := pg_title page |})
  end.

End WithEnv.

End ConfluencePages.

(* ===================================================================== *)
(** * The asynchronous consumer ([backend/consumers/deepResearchConsumer.ts]) *)
(* ===================================================================== *)

Module Consumer.
Import ConfluencePages.
Section WithEnv.
Context (env : Env).

Definition resultKey (researchId : string) : string := "research-result-" +:+ researchId.
Definition jobKey (researchId : string) : string := "research-job-" +:+ researchId.

(** [new Date().toISOString()] *)
Definition nowISO : M string := d ← newDate env; mret (toISOString env d).

(** The space the page goes to: the configured one, else the default one,
    else the first one listed. *)
Definition targetSpace (spaceKey : option string) : M string :=
  if truthyOpt spaceKey then mret (orElse spaceKey "")
  else
    defaultSpace ← getDefaultSpaceKeyAsApp env;
    if truthyOpt defaultSpace then mret (orElse defaultSpace "")
    else
      spaces ← getSpacesAsApp env;
      match spaces with
      | space :: _ => mret (sp_key space)
      | [] => throw (JsError "No Confluence spaces available. Please create a space first.")
      end.

(** The [try] block of [handler]. *)
Definition process (payload : DeepResearchEventPayload) : M PageResult :=
  let query := ev_query payload in
  let entityType := ev_entityType payload in
  let researchId := ev_researchId payload in
  researchOutput ← ExaClient.deepResearch env query entityType;
  targetSpaceKey ← targetSpace (ev_spaceKey payload);
  let pageTitle := "Research: " +:+ query in
  today ← newDate env;
  let htmlBody := convertResearchToStorageFormat (toLocaleDateString env today)
                    researchOutput query entityType in
  pageResult ← createPageAsApp env {| opt_spaceKey := targetSpaceKey;
                                      opt_title := pageTitle;
                                      opt_body := htmlBody;
                                      opt_format := "storage" |};
  match pageResult with
  | None => throw (JsError "Failed to create Confluence page")
  | Some pageResult =>
      completedAt ← nowISO;
      kvs_set (resultKey researchId)
        (VResult {| rr_jobId := researchId; rr_success := true;
                    rr_query := query; rr_entityType := entityType;
                    rr_pageUrl := Some (pageUrl pageResult);
                    rr_pageTitle := Some (title pageResult);
                    rr_error := None; rr_completedAt := completedAt |});;
      completedAt ← nowISO;
      kvs_set (jobKey researchId)
        (VJob {| job_query := query; job_entityType := entityType;
                 job_userId := ev_userId payload; job_cloudId := ev_cloudId payload;
                 job_jobId := None; job_status := js_completed;
                 job_createdAt := None;
                 job_pageUrl := Some (pageUrl pageResult);
                 job_pageTitle := Some (title pageResult);
                 job_error := None; job_completedAt := Some completedAt |});;
      mret pageResult
  end.

(** The [catch] block of [handler]. *)
Definition recordFailure (payload : DeepResearchEventPayload) (error : thrown) : M unit :=
  let query := ev_query payload in
  let entityType := ev_entityType payload in
  let researchId := ev_researchId payload in
  completedAt ← nowISO;
  kvs_set (resultKey researchId)
    (VResult {| rr_jobId := researchId; rr_success := false;
                rr_query := query; rr_entityType := entityType;
                rr_pageUrl := None; rr_pageTitle := None;
                rr_error := Some (errorMessage error);
                rr_completedAt := completedAt |});;
  completedAt ← nowISO;
  kvs_set (jobKey researchId)
    (VJob {| job_query := query; job_entityType := entityType;
             job_userId := ev_userId payload; job_cloudId := ev_cloudId payload;
             job_jobId := None; job_status := js_failed;
             job_createdAt := None; job_pageUrl := None; job_pageTitle := None;
             job_error := Some (errorMessage error);
             job_completedAt := Some completedAt |}).

(** [handler]; [payload] is [event.body]. *)
Definition handler (payload : DeepResearchEventPayload) : M unit :=
  try_catch (process payload;; mret ()) (recordFailure payload).

End WithEnv.

(** The job record stored for a research identifier, if any. *)
Definition storedJob (w : World) (researchId : string) : option JobRecord :=
  match kvs w !! jobKey researchId with
  | Some (VJob j) => Some j
  | _ => None
  end.

Definition isTerminal (s : JobStatus) : bool :=
  match s with
  | js_completed | js_failed => true
  | js_queued => false
  end.

End Consumer.

(* ===================================================================== *)
(** * The Rovo actions ([backend/actions/deepResearch.ts]) *)
(* ===================================================================== *)

(** The payload as the agent sends it: nothing is checked yet. *)
Record DeepResearchPayload : Type := {
  p_query : option string;
  p_entityType : option string;
  p_cloudId : option string;
}.

Definition parseEntityType (s : option string) : option EntityType :=
  match s with
  | Some "person" => Some person
  | Some "company" => Some company
  | _ => None
  end.

Definition emojiOf (entityType : EntityType) : string :=
  match entityType with
  | person => ConfluencePages.personEmoji
  | company => ConfluencePages.companyEmoji
  end.

(** The synchronous deep-research action. *)
Module DeepResearchAction.
Section WithEnv.
Context (env : Env).

Definition provideName : string :=
  "Please provide the name of the person or company you want to research.".
Definition specifyType : string :=
  "Please specify whether you want to research a " +:+ Js.dq +:+ "person" +:+ Js.dq +:+
  " or a " +:+ Js.dq +:+ "company" +:+ Js.dq +:+ ".".

Definition notFound (entityType : EntityType) : string :=
  let entityLabel := match entityType with
                     | person => "this person" | company => "this company" end in
  "I couldn't find detailed information about " +:+ entityLabel +:+
  ". Here are some suggestions:" +:+ nl +:+ nl +:+
  "• Try using the full name" +:+ nl +:+
  "• Include additional context (company name for people, industry for companies)" +:+ nl +:+
  "• Check for spelling variations".

Definition followUp (entityType : EntityType) : string :=
  match entityType with
  | person =>
      nl +:+ nl +:+ "💡 **Next steps:**" +:+ nl +:+
      "• Say " +:+ Js.dq +:+ "add this person to board" +:+ Js.dq +:+ " to track them in Jira" +:+ nl +:+
      "• Ask me to search for similar people" +:+ nl +:+
      "• Ask about their company for more context"
  | company =>
      nl +:+ nl +:+ "💡 **Next steps:**" +:+ nl +:+
      "• Say " +:+ Js.dq +:+ "add this company to board" +:+ Js.dq +:+ " to track them in Jira" +:+ nl +:+
      "• Ask me to find people at this company" +:+ nl +:+
      "• Search for similar companies in the same space"
  end.

Definition deepResearch (payload : DeepResearchPayload) : M string :=
  let query := orElse (p_query payload) "" in
  if negb (truthy (Js.trim query)) then mret provideName else
  match parseEntityType (p_entityType payload) with
  | None => mret specifyType
  | Some entityType =>
      try_catch
        (researchOutput ← ExaClient.deepResearch env query entityType;
         if negb (truthy researchOutput)
            || Js.includes "No detailed information found" researchOutput
         then mret (notFound entityType)
         else
           let header := emojiOf entityType +:+ " **Deep Research: " +:+ query +:+ "**"
                         +:+ nl +:+ nl in
           mret (header +:+ researchOutput +:+ followUp entityType))
        (λ error,
           mret ("Sorry, I encountered an error while researching: " +:+
                 errorMessage error +:+ nl +:+ nl +:+
                 "Please try again with a different query."))
  end.

End WithEnv.
End DeepResearchAction.

(** The asynchronous deep-research action: it only queues the work. *)
Module DeepResearchQueueAction.
Section WithEnv.
Context (env : Env).

(** [`research-${Date.now()}-${Math.random().toString(36).substr(2, 9)}`];
    [suffix] is the base-36 text the random draw gives. *)
Definition makeResearchId (now : N) (suffix : string) : string :=
  "research-" +:+ pretty now +:+ "-" +:+ suffix.

Definition configuredSpace (w : World) : option string :=
  match kvs w !! "tofu-config" with
  | Some (VConfig config) => defaultConfluenceSpace config
  | _ => None
  end.

(** [queue.push({ body })]: the message joins the queue and the queue
    answers with the identifier of its job. *)
Definition queue_push (body : DeepResearchEventPayload) : M string := λ w,
  (Returned (queuePush env body),
   {| kvs := kvs w; queue := queue w ++ [body]; trace := trace w; ticks := ticks w |}).

Definition queuedMessage (entityType : EntityType) (query : string)
    (defaultSpaceKey : option string) (researchId : string) : string :=
  emojiOf entityType +:+ " **Deep Research Queued**" +:+ nl +:+ nl +:+
  "I've started researching **" +:+ query +:+ "**. This may take 30-60 seconds." +:+ nl +:+ nl +:+
  "The research results will be saved to a Confluence page" +:+
  (if truthyOpt defaultSpaceKey
   then " in the " +:+ orElse defaultSpaceKey "" +:+ " space" else "") +:+
  " and you'll be notified when it's complete." +:+ nl +:+ nl +:+
  "💡 **What happens next:**" +:+ nl +:+
  "• Research is being performed in the background" +:+ nl +:+
  "• A Confluence page will be created with comprehensive findings" +:+ nl +:+
  "• You'll receive a notification when it's ready" +:+ nl +:+ nl +:+
  "You can continue using Tofu while the research completes. The research ID is: `" +:+
  researchId +:+ "` (you can use this to check status).".

Definition deepResearch (payload : DeepResearchPayload) : M string :=
  let query := orElse (p_query payload) "" in
  if negb (truthy (Js.trim query)) then mret DeepResearchAction.provideName else
  match parseEntityType (p_entityType payload) with
  | None => mret DeepResearchAction.specifyType
  | Some entityType =>
      try_catch
        (let cloudId := orElse (p_cloudId payload) "unknown" in
         let userId := cloudId in
         config ← kvs_get "tofu-config";
         let defaultSpaceKey := match config with
                                | Some (VConfig config) => defaultConfluenceSpace config
                                | _ => None
                                end in
         now ← ConfluencePages.newDate env;
         draw ← tick;
         let researchId := makeResearchId now (randomBase36 env draw) in
         jobId ← queue_push {| ev_query := query; ev_entityType := entityType;
                               ev_userId := userId; ev_cloudId := cloudId;
                               ev_spaceKey := defaultSpaceKey;
                               ev_researchId := researchId |};
         createdAt ← Consumer.nowISO env;
         kvs_set (Consumer.jobKey researchId)
           (VJob {| job_query := query; job_entityType := entityType;
                    job_userId := userId; job_cloudId := cloudId;
                    job_jobId := Some jobId; job_status := js_queued;
                    job_createdAt := Some createdAt;
                    job_pageUrl := None; job_pageTitle := None;
                    job_error := None; job_completedAt := None |});;
         mret (queuedMessage entityType query defaultSpaceKey researchId))
        (λ error,
           mret ("Sorry, I encountered an error while queueing the research: " +:+
                 errorMessage error +:+ nl +:+ nl +:+
                 "Please try again with a different query."))
  end.

End WithEnv.
End DeepResearchQueueAction.

(* ===================================================================== *)
(** * Search history and leads ([backend/actions/searchPeople.ts],
      [backend/actions/searchCompanies.ts]) *)
(* ===================================================================== *)

Module Persistence.
Section WithEnv.
Context (env : Env).

Definition historyCap : nat := 50.
Definition leadCap : nat := 200.

Definition storedHistory (w : World) : list SearchHistoryItem :=
  match kvs w !! "search-history" with
  | Some (VHistory history) => history
  | _ => []
  end.

Definition storedPersonLeads (w : World) : list PersonLead :=
  match kvs w !! "pending-leads" with
  | Some (VPersonLeads leads) => leads
  | _ => []
  end.

Definition storedCompanyLeads (w : World) : list CompanyLead :=
  match kvs w !! "pending-company-leads" with
  | Some (VCompanyLeads leads) => leads
  | _ => []
  end.

(** [[historyItem, ...history].slice(0, 50)] *)
Definition pushHistory (historyItem : SearchHistoryItem)
    (history : list SearchHistoryItem) : list SearchHistoryItem :=
  take historyCap (historyItem :: history).

(** [saveSearchToHistory] of the two search actions; they differ in the
    [searchType] they record. *)
Definition saveSearchToHistory (searchType : SearchType) (query : string)
    (resultCount : nat) : M unit :=
  try_catch
    (history ← (λ w, (Returned (storedHistory w), w));
     now ← ConfluencePages.newDate env;
     timestamp ← Consumer.nowISO env;
     let historyItem := {| sh_id := "search-" +:+ pretty now; sh_query := query;
                           sh_searchType := searchType; sh_timestamp := timestamp;
                           sh_resultCount := resultCount |} in
     kvs_set "search-history" (VHistory (pushHistory historyItem history)))
    (λ _, mret ()).

(** The list [saveLeadsToStorage] writes back: the incoming leads whose key
    is not among the stored ones, then the stored ones, cut at 200. *)
Definition mergeLeads {L} (key : L → option string) (leads existingLeads : list L) : list L :=
  let existingUrls : gset (option string) := list_to_set (key <$> existingLeads) in
  let newLeads := filter (λ l, key l ∉ existingUrls) leads in
  take leadCap (newLeads ++ existingLeads).

(** [saveLeadsToStorage] of [searchPeople.ts] *)
Definition savePersonLeadsToStorage (leads : list PersonLead) : M unit :=
  try_catch
    (existingLeads ← (λ w, (Returned (storedPersonLeads w), w));
     kvs_set "pending-leads" (VPersonLeads (mergeLeads profileUrl leads existingLeads)))
    (λ _, mret ()).

(** [saveLeadsToStorage] of [searchCompanies.ts] *)
Definition saveCompanyLeadsToStorage (leads : list CompanyLead) : M unit :=
  try_catch
    (existingLeads ← (λ w, (Returned (storedCompanyLeads w), w));
     kvs_set "pending-company-leads"
             (VCompanyLeads (mergeLeads website leads existingLeads)))
    (λ _, mret ()).

End WithEnv.
End Persistence.

(* ===================================================================== *)
(** * The issue deep-research resolver ([performDeepResearch]) *)
(* ===================================================================== *)

Module IssueDeepResearch.
Import ConfluencePages.
Section WithEnv.
Context (env : Env).

Record Response : Type := {
  success : bool;
  message : string;
  res_pageUrl : option string;
  res_pageTitle : option string;
}.

Definition failure (message : string) : Response :=
  {| success := false; message := message; res_pageUrl := None; res_pageTitle := None |}.

(** [getIssueDetails]: [None] is the source's [null]. *)
Definition getIssueDetails (issueKey : string) : M (option JiraIssueDetails) :=
  emit (EvRequest JiraAsUser "GET"
          ("/rest/api/3/issue/" +:+ issueKey +:+ "?fields=summary,description,labels,issuetype"));;
  match jiraIssue env issueKey with
  | HttpOk issue => mret (Some issue)
  | _ => mret None
  end.

(** [addResearchLinkComment] *)
Definition addResearchLinkComment (issueKey : string) : M bool :=
  emit (EvRequest JiraAsUser "POST" ("/rest/api/3/issue/" +:+ issueKey +:+ "/comment"));;
  match jiraComment env issueKey with
  | HttpOk _ => mret true
  | _ => mret false
  end.

(** [s.replace(/^<prefix>\s*/i, "")] for a prefix of letters and brackets. *)
Definition dropPrefixIgnoringCase (prefix s : string) : string :=
  if Js.startsWith (Js.toLowerCase prefix) (Js.toLowerCase s)
  then Js.trimStart (String.substring (String.length prefix)
                                      (String.length s - String.length prefix) s)
  else s.

(** [extractLeadName] *)
Definition extractLeadName (summary : string) : string :=
  let name := Js.trim (dropPrefixIgnoringCase "[Person Lead]"
                        (dropPrefixIgnoringCase "[Company Lead]"
                          (dropPrefixIgnoringCase "[Lead]" summary))) in
  if truthy name then name else summary.

Definition hasLabel (label : string) (labels : list string) : bool :=
  bool_decide (label ∈ labels).

(** [determineEntityType] *)
Definition determineEntityType (labels : list string) : option EntityType :=
  if hasLabel "person" labels then Some person
  else if hasLabel "company" labels then Some company
  else if existsb (λ l, Js.includes "person" (Js.toLowerCase l)) labels then Some person
  else if existsb (λ l, Js.includes "company" (Js.toLowerCase l)) labels then Some company
  else None.

(** [getSpaceKey] *)
Definition getSpaceKey : M (option string) :=
  config ← kvs_get "tofu-config";
  match config with
  | Some (VConfig config) =>
      if truthyOpt (confluenceSpaceKey config) then mret (confluenceSpaceKey config)
      else getDefaultSpaceKey env
  | _ => getDefaultSpaceKey env
  end.

(** The handler registered as [performDeepResearch], from the reading of
    [issue.fields] on. *)
Definition researchLead (issueKey : string) (issue : JiraIssueDetails) : M Response :=
  let labels := orEmpty (iss_labels issue) in
  let summary := orElse (iss_summary issue) "" in
  if negb (hasLabel "tofu-lead" labels)
  then mret (failure ("This issue is not a Tofu lead. Deep research is only available for issues with the "
                      +:+ Js.dq +:+ "tofu-lead" +:+ Js.dq +:+ " label."))
  else
  match determineEntityType labels with
  | None =>
      mret (failure ("Could not determine if this is a person or company lead. Please ensure the issue has a "
                     +:+ Js.dq +:+ "person" +:+ Js.dq +:+ " or " +:+ Js.dq +:+ "company"
                     +:+ Js.dq +:+ " label."))
  | Some entityType =>
      let leadName := extractLeadName summary in
      research ← try_catch
        (researchOutput ← ExaClient.deepResearch env leadName entityType;
         mret (inl researchOutput))
        (λ error,
           mret (inr (failure ("Research failed: " +:+ errorMessage error +:+
                               ". Please try again."))));
      match research with
      | inr response => mret response
      | inl researchOutput =>
         if negb (truthy researchOutput)
            || Js.includes "No detailed information found" researchOutput
         then mret (failure ("Could not find detailed information about " +:+ Js.dq +:+
                             leadName +:+ Js.dq +:+
                             ". The research may require more specific details."))
         else
           spaceKey ← getSpaceKey;
           if negb (truthyOpt spaceKey)
           then mret (failure "No Confluence space available. Please ensure you have access to at least one Confluence space.")
           else
           let spaceKey := orElse spaceKey "" in
           let pageTitle := "Research: " +:+ leadName +:+ " (" +:+
                            match entityType with
                            | person => "Person" | company => "Company" end +:+ ")" in
           today ← newDate env;
           let pageBody := convertResearchToStorageFormat (toLocaleDateString env today)
                             researchOutput leadName entityType in
           pageResult ← createPage env {| opt_spaceKey := spaceKey;
                                          opt_title := pageTitle;
                                          opt_body := pageBody;
                                          opt_format := "storage" |};
           match pageResult with
           | None =>
               mret (failure ("Failed to create Confluence page in space " +:+ Js.dq +:+
                              spaceKey +:+ Js.dq +:+ ". Please check your permissions."))
           | Some pageResult =>
               _ ← addResearchLinkComment issueKey;
               mret {| success := true;
                       message := emojiOf entityType +:+
                         " Deep research complete! A Confluence page has been created with comprehensive information about "
                         +:+ leadName +:+ ".";
                       res_pageUrl := Some (pageUrl pageResult);
                       res_pageTitle := Some pageTitle |}
           end
      end
  end.

(** The handler registered as [performDeepResearch], for an issue of the
    declared type. *)
Definition performDeepResearch (issueKey : option string) : M Response :=
  if negb (truthyOpt issueKey)
  then mret (failure "Could not determine which issue to research. Please try again.")
  else
  let issueKey := orElse issueKey "" in
  issue ← getIssueDetails issueKey;
  match issue with
  | None =>
      mret (failure ("Could not fetch issue details for " +:+ issueKey +:+
                     ". Please check your permissions."))
  | Some issue => researchLead issueKey issue
  end.

(** [response.json()] is cast to [JiraIssueDetails], not checked: the body
    of an ok answer may be anything. [issue.fields] of a body that has no
    such property is [undefined]; it can also be [null]. *)
Inductive MissingFields : Type := fieldsUndefined | fieldsNull.

(** The body of an ok answer: a falsy value ([null]; a body that is not
    JSON also ends as [null], in the [catch] of [getIssueDetails]), a
    truthy value without a [fields] object, or an issue with its fields. A
    [fields] object that is there is taken to have the declared types. *)
Inductive JiraIssueBody : Type :=
  | BodyFalsy
  | BodyWithoutFields (how : MissingFields)
  | BodyWithFields (fields : JiraIssueDetails).

(** The [TypeError] of [issue.fields.labels] when [issue.fields] is
    [undefined] or [null]. *)
Definition missingFields (how : MissingFields) : thrown :=
  JsError ("Cannot read properties of " +:+
           match how with fieldsUndefined => "undefined" | fieldsNull => "null" end +:+
           " (reading 'labels')").

(** [getIssueDetails] over the bodies Jira may answer with. *)
Definition getIssueBody (jiraBody : string → http JiraIssueBody) (issueKey : string)
    : M (option JiraIssueBody) :=
  emit (EvRequest JiraAsUser "GET"
          ("/rest/api/3/issue/" +:+ issueKey +:+ "?fields=summary,description,labels,issuetype"));;
  match jiraBody issueKey with
  | HttpOk BodyFalsy => mret None
  | HttpOk body => mret (Some body)
  | _ => mret None
  end.

(** The handler registered as [performDeepResearch], over the bodies Jira
    may answer with: [issue.fields.labels] is read outside any [try]. *)
Definition performDeepResearchOn (jiraBody : string → http JiraIssueBody)
    (issueKey : option string) : M Response :=
  if negb (truthyOpt issueKey)
  then mret (failure "Could not determine which issue to research. Please try again.")
  else
  let issueKey := orElse issueKey "" in
  issue ← getIssueBody jiraBody issueKey;
  match issue with
  | None | Some BodyFalsy =>
      mret (failure ("Could not fetch issue details for " +:+ issueKey +:+
                     ". Please check your permissions."))
  | Some (BodyWithoutFields how) => throw (missingFields how)
  | Some (BodyWithFields issue) => researchLead issueKey issue
  end.

End WithEnv.
End IssueDeepResearch.

(* ===================================================================== *)
(** * Vocabulary of the statements and sample collaborators *)
(* ===================================================================== *)

Definition pollPath (rid : string) : string := "/research/v1/" +:+ rid.

(** A status that keeps the loop going. *)
Definition keepsPolling (s : ResearchStatus) : bool :=
  match s with
  | st_pending | st_running => true
  | _ => false
  end.

(** The sources of a completed answer as the numbered list of links that
    follows the report: nothing when there is no source. *)
Definition numberedSourceList (sources : list ExaSource) : string :=
  match sources with
  | [] => ""
  | _ =>
      nl +:+ nl +:+ "**Sources:**" +:+ nl +:+
      String.concat ""
        (imap (λ i source, pretty (i + 1) +:+ ". [" +:+ src_title source +:+ "](" +:+
                           src_url source +:+ ")" +:+ nl) sources)
  end.

(** The delays of [n] successive attempts when the first one is [d]. *)
Fixpoint backoff (d : Q) (n : nat) : list Q :=
  match n with
  | O => []
  | S n' => d :: backoff (Qmin (d * 1.5) ExaClient.maxDelay) n'
  end.

Definition timedOut : thrown :=
  JsError "Research timed out. The request is taking longer than expected.".

Definition emptyWorld : World := {| kvs := ∅; queue := []; trace := []; ticks := 0 |}.

Definition running : ExaResearchGetResponse :=
  {| gr_status := st_running; gr_output := None; gr_sources := None; gr_error := None |}.

(** Collaborators that are all down: no API key, every request refused. *)
Definition envDown : Env := {|
  exaApiKey := None;
  exaCreate := λ _, HttpNotOk 500 "down";
  exaGet := λ _ _, HttpNotOk 500 "down";
  exaSearch := λ _, HttpNotOk 500 "down";
  confluenceSpaces := λ _ _, HttpNotOk 500 "down";
  confluenceCreatePage := λ _ _, HttpNotOk 500 "down";
  jiraIssue := λ _, HttpNotOk 500 "down";
  jiraComment := λ _, HttpNotOk 500 "down";
  queuePush := λ _, "job-1";
  dateNow := λ n, (1700000000000 + N.of_nat n)%N;
  toISOString := λ ms, pretty ms;
  toLocaleDateString := λ ms, pretty ms;
  randomBase36 := λ _, "k3j9x0a2b";
|}.

(** Exa accepts the task and answers the polls with [answers] in turn, then
    keeps saying running; its search finds nothing. *)
Definition envExa (answers : list ExaResearchGetResponse) : Env := {|
  exaApiKey := Some "key";
  exaCreate := λ _, HttpOk {| cr_researchId := "r1"; cr_status := st_pending |};
  exaGet := λ n _, HttpOk (default running (answers !! n));
  exaSearch := λ _, HttpOk {| results := Some [] |};
  confluenceSpaces := confluenceSpaces envDown;
  confluenceCreatePage := confluenceCreatePage envDown;
  jiraIssue := jiraIssue envDown;
  jiraComment := jiraComment envDown;
  queuePush := queuePush envDown;
  dateNow := dateNow envDown;
  toISOString := toISOString envDown;
  toLocaleDateString := toLocaleDateString envDown;
  randomBase36 := randomBase36 envDown;
|}.

Definition acmeAnswer : ExaResearchGetResponse :=
  {| gr_status := st_completed;
     gr_output := Some "Acme is a robotics company.";
     gr_sources := Some [ {| src_url := "https://acme.example"; src_title := "Acme";
                             src_snippet := None |};
                          {| src_url := "https://news.example/acme"; src_title := "News";
                             src_snippet := None |} ];
     gr_error := None |}.

(** One call after the other. *)
Fixpoint runAll (calls : list (M unit)) : M unit :=
  match calls with
  | [] => mret ()
  | call :: rest => call;; runAll rest
  end.

(** The history item [saveSearchToHistory] builds when the clock has been
    read [t] times before. *)
Definition historyItemAt (env : Env) (t : nat) (call : SearchType * string * nat)
    : SearchHistoryItem :=
  {| sh_id := "search-" +:+ pretty (dateNow env t);
     sh_query := call.1.2;
     sh_searchType := call.1.1;
     sh_timestamp := toISOString env (dateNow env (S t));
     sh_resultCount := call.2 |}.

Definition saveSearches (env : Env) (calls : list (SearchType * string * nat)) : M unit :=
  runAll ((λ call, Persistence.saveSearchToHistory env call.1.1 call.1.2 call.2) <$> calls).

Definition savePersonBatches (batches : list (list PersonLead)) : M unit :=
  runAll (Persistence.savePersonLeadsToStorage <$> batches).

Definition saveCompanyBatches (batches : list (list CompanyLead)) : M unit :=
  runAll (Persistence.saveCompanyLeadsToStorage <$> batches).

Definition samplePerson (i : nat) : PersonLead :=
  {| pl_id := "lead-" +:+ pretty i; pl_name := "Person " +:+ pretty i;
     profileUrl := Some ("https://people.example/" +:+ pretty i);
     pl_summary := None; pl_foundAt := "2025-01-01T00:00:00.000Z";
     pl_source := "Exa Search"; pl_status := ls_pending |}.

Definition sampleCompany (i : nat) : CompanyLead :=
  {| cl_id := "lead-" +:+ pretty i; cl_name := "Company " +:+ pretty i;
     website := Some ("https://companies.example/" +:+ pretty i);
     cl_summary := None; cl_foundAt := "2025-01-01T00:00:00.000Z";
     cl_source := "Exa Search"; cl_status := ls_pending |}.

(** Two leads found under the same profile URL, and two companies under the
    same website. *)
Definition janeFirst : PersonLead :=
  {| pl_id := "exa-1"; pl_name := "Jane Doe";
     profileUrl := Some "https://linkedin.example/in/jane-doe";
     pl_summary := None; pl_foundAt := "2025-01-01T00:00:00.000Z";
     pl_source := "https://linkedin.example/in/jane-doe"; pl_status := ls_pending |}.

Definition janeAgain : PersonLead :=
  {| pl_id := "exa-2"; pl_name := "Jane Doe - Engineer";
     profileUrl := Some "https://linkedin.example/in/jane-doe";
     pl_summary := None; pl_foundAt := "2025-01-01T00:00:00.000Z";
     pl_source := "https://linkedin.example/in/jane-doe"; pl_status := ls_pending |}.

Definition acmeFirst : CompanyLead :=
  {| cl_id := "exa-3"; cl_name := "Acme Corp";
     website := Some "https://acme.example";
     cl_summary := None; cl_foundAt := "2025-01-01T00:00:00.000Z";
     cl_source := "https://acme.example"; cl_status := ls_pending |}.

Definition acmeAgain : CompanyLead :=
  {| cl_id := "exa-4"; cl_name := "Acme Corporation";
     website := Some "https://acme.example";
     cl_summary := None; cl_foundAt := "2025-01-01T00:00:00.000Z";
     cl_source := "https://acme.example"; cl_status := ls_pending |}.

(** A report with characters that mean something in XHTML. *)
Definition attReport : string := "AT&T grew <10% in Q3".

(** The job record the consumer writes after a page was created. *)
Definition completedJob (payload : DeepResearchEventPayload) (page : PageResult)
    (completedAt : string) : JobRecord :=
  {| job_query := ev_query payload; job_entityType := ev_entityType payload;
     job_userId := ev_userId payload; job_cloudId := ev_cloudId payload;
     job_jobId := None; job_status := js_completed; job_createdAt := None;
     job_pageUrl := Some (pageUrl page); job_pageTitle := Some (title page);
     job_error := None; job_completedAt := Some completedAt |}.

(** The job record the consumer writes after an exception. *)
Definition failedJob (payload : DeepResearchEventPayload) (error : thrown)
    (completedAt : string) : JobRecord :=
  {| job_query := ev_query payload; job_entityType := ev_entityType payload;
     job_userId := ev_userId payload; job_cloudId := ev_cloudId payload;
     job_jobId := None; job_status := js_failed; job_createdAt := None;
     job_pageUrl := None; job_pageTitle := None;
     job_error := Some (errorMessage error); job_completedAt := Some completedAt |}.

(** The job record the dispatch action writes. *)
Definition queuedJob (query : string) (entityType : EntityType) (cloudId jobId createdAt : string)
    : JobRecord :=
  {| job_query := query; job_entityType := entityType;
     job_userId := cloudId; job_cloudId := cloudId;
     job_jobId := Some jobId; job_status := js_queued; job_createdAt := Some createdAt;
     job_pageUrl := None; job_pageTitle := None;
     job_error := None; job_completedAt := None |}.

Definition salesSpace : ConfluenceSpace :=
  {| sp_id := "65537"; sp_key := "SALES"; sp_name := "Sales" |}.

(** Collaborators that all work: Exa answers the polls with [answers] in
    turn, Confluence has one space and creates the page it is sent, the
    issue is a company lead. *)
Definition envUp (answers : list ExaResearchGetResponse) : Env := {|
  exaApiKey := Some "key";
  exaCreate := λ _, HttpOk {| cr_researchId := "r1"; cr_status := st_pending |};
  exaGet := λ n _, HttpOk (default running (answers !! n));
  exaSearch := λ _, HttpOk {| results := Some [] |};
  confluenceSpaces := λ _ _, HttpOk {| spaces_results := Some [salesSpace];
                                       spaces_base := None |};
  confluenceCreatePage := λ _ payload,
    HttpOk {| pg_id := "98765"; pg_title := pp_title payload;
              pg_webui := "/spaces/SALES/pages/98765" |};
  jiraIssue := λ _, HttpOk {| iss_summary := Some "[Lead] Acme Corp";
                              iss_labels := Some ["tofu-lead"; "company"] |};
  jiraComment := λ _, HttpOk ();
  queuePush := queuePush envDown;
  dateNow := dateNow envDown;
  toISOString := toISOString envDown;
  toLocaleDateString := toLocaleDateString envDown;
  randomBase36 := randomBase36 envDown;
|}.

(** The message of one research job. *)
Definition delivery : DeepResearchEventPayload :=
  {| ev_query := "Acme Corp"; ev_entityType := company;
     ev_userId := "cloud-1"; ev_cloudId := "cloud-1";
     ev_spaceKey := None; ev_researchId := "research-1700000000000-k3j9x0a2b" |}.

(** A report that quotes the sentinel phrase. *)
Definition quotingAnswer : ExaResearchGetResponse :=
  {| gr_status := st_completed;
     gr_output := Some "Acme Corp is a robotics company. Its auditors wrote: No detailed information found on offshore accounts.";
     gr_sources := None;
     gr_error := None |}.

(** The world after a first delivery that went well, and after the same
    message was delivered again while the collaborators were down. *)
Definition afterFirstDelivery : World :=
  (Consumer.handler (envUp [acmeAnswer]) delivery emptyWorld).2.

Definition afterRedelivery : World :=
  (Consumer.handler envDown delivery afterFirstDelivery).2.

Definition noApiKey : thrown :=
  JsError "Exa API key not configured. Please set the exaApiKey variable using `forge variables set exaApiKey <your-key>`".

(** A payload whose query is a single space. *)
Definition blankPayload : DeepResearchPayload :=
  {| p_query := Some " "; p_entityType := Some "person"; p_cloudId := Some "cloud-1" |}.

Definition acmePayload : DeepResearchPayload :=
  {| p_query := Some "Acme Corp"; p_entityType := Some "company"; p_cloudId := Some "cloud-1" |}.

Fixpoint allDigits (s : string) : bool :=
  match s with
  | "" => true
  | String c s' => Js.isDigit c && allDigits s'
  end.

(* ===================================================================== *)
(** * The search functions of the Exa client ([backend/exa/client.ts]) *)
(* ===================================================================== *)

Module ExaSearch.
Section WithEnv.
Context (env : Env).

(** The request body of [searchPeople] and [searchCompanies]. *)
Definition searchRequest (category query : string) (numResults : nat) : ExaSearchRequest :=
  {| rq_query := query; rq_numResults := numResults; rq_category := category;
     rq_maxCharacters := 2000; rq_numSentences := 3; rq_highlightsPerUrl := 3 |}.

Definition searchPeople (query : string) (numResults : nat) : M (list ExaSearchResult) :=
  response ← ExaClient.makeExaRequest env "/search"
                (exaSearch env (searchRequest "people" query numResults));
  mret (orEmpty (results response)).

Definition searchCompanies (query : string) (numResults : nat) : M (list ExaSearchResult) :=
  response ← ExaClient.makeExaRequest env "/search"
                (exaSearch env (searchRequest "company" query numResults));
  mret (orEmpty (results response)).

End WithEnv.

Section Format.
(** The records of the results do not carry [publishedDate]; the formatter
    reads it through this function. The literals of the formatters and of
    the follow-up texts of the search actions are written character by
    character as [client.ts], [searchPeople.ts] and [searchCompanies.ts]
    have them. *)
Context (publishedDate : ExaSearchResult → option string).

(** [text.length > 200 ? text.substring(0, 200) + "..." : text] *)
Definition truncatedText (text : string) : string :=
  if (200 <? String.length text)%nat
  then String.substring 0 200 text +:+ "..."
  else text.

(** The callback of [results.map] in [formatResultsForAgent]. *)
Definition formatResult (emoji : string) (index : nat) (result : ExaSearchResult) : string :=
  String.concat nl
    ([emoji +:+ " **" +:+ pretty (index + 1) +:+ ". " +:+
      (if truthy (esr_title result) then esr_title result else "Unknown") +:+ "**"]
     ++ (if truthy (esr_url result) then ["   ðŸ”— " +:+ esr_url result] else [])
     ++ (if truthyOpt (esr_text result)
         then ["   ðŸ“ " +:+ truncatedText (orElse (esr_text result) "")] else [])
     ++ (if truthyOpt (publishedDate result)
         then ["   ðŸ“… " +:+ orElse (publishedDate result) ""] else [])).

Definition formatResultsForAgent (results : list ExaSearchResult) (entityType : EntityType)
    : string :=
  match results with
  | [] =>
      "No " +:+ match entityType with person => "people" | company => "companies" end
      +:+ " found matching your search criteria."
  | _ =>
      let emoji := match entityType with person => "ðŸ‘¤" | company => "ðŸ¢" end in
      let header :=
        "Found " +:+ pretty (length results) +:+
        match entityType with
        | person => " people matching your search:"
        | company => " companies matching your search:"
        end in
      header +:+ nl +:+ nl +:+
      String.concat (nl +:+ nl) (imap (formatResult emoji) results)
  end.

End Format.

(** What one result adds to [insights] in [formatDeepResearchForAgent]. *)
Definition insightsOf (result : ExaSearchResult) : list string :=
  (if truthyOpt (esr_text result) then [orElse (esr_text result) ""] else [])
  ++ orEmpty (esr_highlights result).

Definition formatDeepResearchForAgent (results : list ExaSearchResult) (entityName : string)
    (entityType : EntityType) : string :=
  match results with
  | [] => "No detailed information found for " +:+ entityName +:+ "."
  | _ =>
      let emoji := match entityType with person => "ðŸ‘¤" | company => "ðŸ¢" end in
      let header := emoji +:+ " **Deep Research: " +:+ entityName +:+ "**" +:+ nl in
      let sources :=
        imap (λ index result,
                pretty (index + 1) +:+ ". " +:+
                (if truthy (esr_title result) then esr_title result else esr_url result))
             results in
      let insights := results ≫= insightsOf in
      String.concat nl
        [ header;
          "**Sources:**";
          String.concat nl ((λ s, "â€¢ " +:+ s) <$> sources);
          "";
          "**Key Information:**";
          String.concat (nl +:+ nl)
            ((λ i, "â€¢ " +:+ String.substring 0 500 i) <$> take 3 insights) ]
  end.

End ExaSearch.

(* ===================================================================== *)
(** * The search actions ([backend/actions/searchPeople.ts],
      [backend/actions/searchCompanies.ts]) *)
(* ===================================================================== *)

Record SearchPayload : Type := {
  s_query : option string;
  s_numResults : option nat;
}.

(** [results.map(f)] for an asynchronous-free [f] that reads the clock. *)
Fixpoint mapM {A B} (f : A → M B) (l : list A) : M (list B) :=
  match l with
  | [] => mret []
  | x :: rest => y ← f x; ys ← mapM f rest; mret (y :: ys)
  end.

Module SearchActions.
Section WithEnv.
Context (env : Env) (publishedDate : ExaSearchResult → option string).

(** [result.id || `lead-${Date.now()}-${Math.random().toString(36).substr(2, 9)}`] *)
Definition leadId (result : ExaSearchResult) : M string :=
  if truthy (esr_id result) then mret (esr_id result)
  else
    now ← ConfluencePages.newDate env;
    draw ← tick;
    mret ("lead-" +:+ pretty now +:+ "-" +:+ randomBase36 env draw).

Definition resultToPersonLead (result : ExaSearchResult) : M PersonLead :=
  id ← leadId result;
  foundAt ← Consumer.nowISO env;
  mret {| pl_id := id;
          pl_name := if truthy (esr_title result) then esr_title result else "Unknown";
          profileUrl := Some (esr_url result);
          pl_summary := String.substring 0 500 <$> esr_text result;
          pl_foundAt := foundAt;
          pl_source := if truthy (esr_url result) then esr_url result else "Exa Search";
          pl_status := ls_pending |}.

Definition resultToCompanyLead (result : ExaSearchResult) : M CompanyLead :=
  id ← leadId result;
  foundAt ← Consumer.nowISO env;
  mret {| cl_id := id;
          cl_name := if truthy (esr_title result) then esr_title result else "Unknown";
          website := Some (esr_url result);
          cl_summary := String.substring 0 500 <$> esr_text result;
          cl_foundAt := foundAt;
          cl_source := if truthy (esr_url result) then esr_url result else "Exa Search";
          cl_status := ls_pending |}.

Definition peoplePrompt : string :=
  "Please provide a search query describing the type of people you want to find. For example: "
  +:+ Js.dq +:+ "Senior React developers in San Francisco" +:+ Js.dq +:+ " or " +:+ Js.dq +:+
  "Marketing executives at Fortune 500 companies" +:+ Js.dq.

Definition companiesPrompt : string :=
  "Please provide a search query describing the type of companies you want to find. For example: "
  +:+ Js.dq +:+ "AI startups with Series B funding" +:+ Js.dq +:+ " or " +:+ Js.dq +:+
  "Healthcare SaaS companies in Europe" +:+ Js.dq.

Definition peopleFollowUp (found : bool) : string :=
  if found then
    nl +:+ nl +:+ "ðŸ’¡ **Next steps:**" +:+ nl +:+
    "â€¢ Ask me to research any specific person for more details" +:+ nl +:+
    "â€¢ Say " +:+ Js.dq +:+ "add [name] to board" +:+ Js.dq +:+ " to create a Jira issue for tracking"
  else
    nl +:+ nl +:+ "ðŸ’¡ **Tips:**" +:+ nl +:+
    "â€¢ Try a more specific query with skills, location, or company" +:+ nl +:+
    "â€¢ Use different keywords to broaden your search".

Definition companiesFollowUp (found : bool) : string :=
  if found then
    nl +:+ nl +:+ "ðŸ’¡ **Next steps:**" +:+ nl +:+
    "â€¢ Ask me to research any specific company for more details" +:+ nl +:+
    "â€¢ Say " +:+ Js.dq +:+ "add [company name] to board" +:+ Js.dq +:+ " to create a Jira issue for tracking"
  else
    nl +:+ nl +:+ "ðŸ’¡ **Tips:**" +:+ nl +:+
    "â€¢ Try a more specific query with industry, funding stage, or location" +:+ nl +:+
    "â€¢ Use different keywords to broaden your search".

Definition nonEmpty {A} (l : list A) : bool :=
  match l with [] => false | _ => true end.

(** The [try] block of [searchPeople]. *)
Definition searchAndSavePeople (query : string) (numResults : nat) : M string :=
  results ← ExaSearch.searchPeople env query numResults;
  Persistence.saveSearchToHistory env people query (length results);;
  (if nonEmpty results
   then leads ← mapM resultToPersonLead results;
        Persistence.savePersonLeadsToStorage leads
   else mret ());;
  mret (ExaSearch.formatResultsForAgent publishedDate results person
        +:+ peopleFollowUp (nonEmpty results)).

Definition searchPeople (payload : SearchPayload) : M string :=
  let query := orElse (s_query payload) "" in
  let numResults := default 10%nat (s_numResults payload) in
  if negb (truthy (Js.trim query)) then mret peoplePrompt
  else
    try_catch (searchAndSavePeople query numResults)
      (λ error,
         mret ("Sorry, I encountered an error while searching for people: " +:+
               errorMessage error +:+ nl +:+ nl +:+
               "Please try again or rephrase your search query.")).

(** The [try] block of [searchCompanies]. *)
Definition searchAndSaveCompanies (query : string) (numResults : nat) : M string :=
  results ← ExaSearch.searchCompanies env query numResults;
  Persistence.saveSearchToHistory env companies query (length results);;
  (if nonEmpty results
   then leads ← mapM resultToCompanyLead results;
        Persistence.saveCompanyLeadsToStorage leads
   else mret ());;
  mret (ExaSearch.formatResultsForAgent publishedDate results company
        +:+ companiesFollowUp (nonEmpty results)).

Definition searchCompanies (payload : SearchPayload) : M string :=
  let query := orElse (s_query payload) "" in
  let numResults := default 10%nat (s_numResults payload) in
  if negb (truthy (Js.trim query)) then mret companiesPrompt
  else
    try_catch (searchAndSaveCompanies query numResults)
      (λ error,
         mret ("Sorry, I encountered an error while searching for companies: " +:+
               errorMessage error +:+ nl +:+ nl +:+
               "Please try again or rephrase your search query.")).

End WithEnv.
End SearchActions.

(* ===================================================================== *)
(** * The global page resolver ([backend/resolver.ts]) *)
(* ===================================================================== *)

(** [Lead = PersonLead | CompanyLead] *)
Definition Lead : Type := PersonLead + CompanyLead.

Definition statusName (s : LeadStatus) : string :=
  match s with
  | ls_pending => "pending"
  | ls_accepted => "accepted"
  | ls_rejected => "rejected"
  | ls_contacted => "contacted"
  end.

Module GlobalPage.

(** [(await kvs.get(key)) || []] for the three collections. *)
Definition loadHistory : M (list SearchHistoryItem) :=
  λ w, (Returned (Persistence.storedHistory w), w).
Definition loadPersonLeads : M (list PersonLead) :=
  λ w, (Returned (Persistence.storedPersonLeads w), w).
Definition loadCompanyLeads : M (list CompanyLead) :=
  λ w, (Returned (Persistence.storedCompanyLeads w), w).

Definition lead_id (l : Lead) : string :=
  match l with inl p => pl_id p | inr c => cl_id c end.
Definition lead_status (l : Lead) : LeadStatus :=
  match l with inl p => pl_status p | inr c => cl_status c end.
Definition lead_foundAt (l : Lead) : string :=
  match l with inl p => pl_foundAt p | inr c => cl_foundAt c end.

(** [{ ...lead, status: newStatus }] *)
Definition withPersonStatus (newStatus : LeadStatus) (lead : PersonLead) : PersonLead :=
  {| pl_id := pl_id lead; pl_name := pl_name lead; profileUrl := profileUrl lead;
     pl_summary := pl_summary lead; pl_foundAt := pl_foundAt lead;
     pl_source := pl_source lead; pl_status := newStatus |}.

Definition withCompanyStatus (newStatus : LeadStatus) (lead : CompanyLead) : CompanyLead :=
  {| cl_id := cl_id lead; cl_name := cl_name lead; website := website lead;
     cl_summary := cl_summary lead; cl_foundAt := cl_foundAt lead;
     cl_source := cl_source lead; cl_status := newStatus |}.

(** [l.slice(offset, offset + limit)] for natural numbers. *)
Definition slice {A} (offset limit : nat) (l : list A) : list A :=
  take limit (drop offset l).

Record Page (A : Type) : Type := { items : list A; total : nat }.
Arguments items {A} _.
Arguments total {A} _.

(** [getSearchHistory]; a missing [offset] is 0, a missing [limit] 20. *)
Definition getSearchHistory (offset limit : option nat) : M (Page SearchHistoryItem) :=
  let offset := default 0%nat offset in
  let limit := default 20%nat limit in
  try_catch
    (history ← loadHistory;
     mret {| items := slice offset limit history; total := length history |})
    (λ _, mret {| items := []; total := 0%nat |}).

(** [clearSearchHistory] *)
Definition clearSearchHistory : M bool :=
  try_catch (kvs_set "search-history" (VHistory []);; mret true) (λ _, mret false).

(** The callback of [leads.map] in [updateLeadStatus]. *)
Definition updatePerson (leadId : string) (newStatus : LeadStatus) (lead : PersonLead)
    : PersonLead :=
  if bool_decide (pl_id lead = leadId) then withPersonStatus newStatus lead else lead.

Definition updateCompany (leadId : string) (newStatus : LeadStatus) (lead : CompanyLead)
    : CompanyLead :=
  if bool_decide (cl_id lead = leadId) then withCompanyStatus newStatus lead else lead.

(** [updateLeadStatus]; the dashboard sends one of the four statuses as
    [newStatus]. *)
Definition updateLeadStatus (leadId leadType : option string) (newStatus : option LeadStatus)
    : M bool :=
  match newStatus with
  | Some newStatus =>
      if truthyOpt leadId && truthyOpt leadType then
        let leadId := orElse leadId "" in
        try_catch
          (if bool_decide (leadType = Some "person") then
             leads ← loadPersonLeads;
             kvs_set "pending-leads" (VPersonLeads (updatePerson leadId newStatus <$> leads));;
             mret true
           else
             leads ← loadCompanyLeads;
             kvs_set "pending-company-leads"
                     (VCompanyLeads (updateCompany leadId newStatus <$> leads));;
             mret true)
          (λ _, mret false)
      else mret false
  | None => mret false
  end.

(** [deleteLead] *)
Definition deleteLead (leadId leadType : option string) : M bool :=
  if truthyOpt leadId && truthyOpt leadType then
    let leadId := orElse leadId "" in
    try_catch
      (if bool_decide (leadType = Some "person") then
         leads ← loadPersonLeads;
         kvs_set "pending-leads" (VPersonLeads (filter (λ lead, pl_id lead ≠ leadId) leads));;
         mret true
       else
         leads ← loadCompanyLeads;
         kvs_set "pending-company-leads"
                 (VCompanyLeads (filter (λ lead, cl_id lead ≠ leadId) leads));;
         mret true)
      (λ _, mret false)
  else mret false.

Section SavedLeads.
(** [new Date(foundAt).getTime()]; every [foundAt] the program writes is
    an ISO date, for which this is a number. *)
Context (getTime : string → Z).

(** [Array.prototype.sort] is stable: with the comparator
    [(a, b) => time(b) - time(a)] a lead moves behind the leads after it
    only when they are strictly more recent. *)
Fixpoint insertByRecency (lead : Lead) (sorted : list Lead) : list Lead :=
  match sorted with
  | [] => [lead]
  | other :: rest =>
      if (getTime (lead_foundAt lead) <? getTime (lead_foundAt other))%Z
      then other :: insertByRecency lead rest
      else lead :: sorted
  end.

Definition sortByRecency (leads : list Lead) : list Lead :=
  foldr insertByRecency [] leads.

(** [getSavedLeads] *)
Definition getSavedLeads (type status : option string) (offset limit : option nat)
    : M (Page Lead) :=
  let offset := default 0%nat offset in
  let limit := default 20%nat limit in
  try_catch
    (peopleLeads ← loadPersonLeads;
     companyLeads ← loadCompanyLeads;
     let allLeads : list Lead :=
       if bool_decide (type = Some "person") then inl <$> peopleLeads
       else if bool_decide (type = Some "company") then inr <$> companyLeads
       else (inl <$> peopleLeads) ++ (inr <$> companyLeads) in
     let allLeads :=
       if truthyOpt status && negb (bool_decide (status = Some "all"))
       then filter (λ l, Some (statusName (lead_status l)) = status) allLeads
       else allLeads in
     let allLeads := sortByRecency allLeads in
     mret {| items := slice offset limit allLeads; total := length allLeads |})
    (λ _, mret {| items := []; total := 0%nat |}).

End SavedLeads.

End GlobalPage.

(* ===================================================================== *)
(** * The add-to-board action and the Jira helper
      ([backend/actions/addToBoard.ts], [backend/jira/issues.ts]) *)
(* ===================================================================== *)

Module AddToBoard.

(** The summary [addToBoard] gives the issue it creates. *)
Definition issueTitle (entityType : EntityType) (name : string) : string :=
  match entityType with
  | person => "[Lead] " +:+ name
  | company => "[Company Lead] " +:+ name
  end.

(** The labels [addToBoard] gives the issue: [["tofu-lead", entityType]]. *)
Definition issueLabels (entityType : EntityType) : list string :=
  [ "tofu-lead"; match entityType with person => "person" | company => "company" end ].

End AddToBoard.

Module JiraIssues.

Record JiraIssueType : Type := {
  it_id : string;
  it_name : string;
  it_subtask : bool;
}.

(** The choice [getIssueTypeId] makes among the issue types of the project:
    the standard type with the preferred name ("Task" by default) if there
    is one, else the first standard type; [None] is the source's [null]. *)
Definition chooseIssueTypeId (issueTypes : option (list JiraIssueType))
    (preferredType : option string) : option string :=
  let issueTypes := orEmpty issueTypes in
  let standardTypes := List.filter (λ t, negb (it_subtask t)) issueTypes in
  match standardTypes with
  | [] => None
  | fallbackType :: _ =>
      let preferred := orElse preferredType "Task" in
      match List.find (λ t, String.eqb (Js.toLowerCase (it_name t))
                                       (Js.toLowerCase preferred)) standardTypes with
      | Some preferredMatch => Some (it_id preferredMatch)
      | None => Some (it_id fallbackType)
      end
  end.

End JiraIssues.

(* ===================================================================== *)
(** * The Q&A store of the Q&A creator ([qandaUtil.js]) *)
(* ===================================================================== *)

Module Qanda.

Definition propertKeyPrefix : string := "qanda-".

(** [ToInt32]: the signed 32-bit integer a number wraps to. *)
Definition toInt32 (z : Z) : Z := ((z + 2 ^ 31) `mod` 2 ^ 32 - 2 ^ 31)%Z.

(** One turn of the loop of [hashString]:
    [hash = ((hash << 5) - hash) + chr; hash |= 0]. *)
Definition hashStep (hash : Z) (c : ascii) : Z :=
  let chr := Z.of_nat (nat_of_ascii c) in
  let hash := (toInt32 (Z.shiftl hash 5) - hash + chr)%Z in
  Z.lor (toInt32 hash) 0.

Fixpoint hashFrom (hash : Z) (text : string) : Z :=
  match text with
  | "" => hash
  | String c rest => hashFrom (hashStep hash c) rest
  end.

Definition hashString (text : string) : Z := hashFrom 0 text.

Definition propertyKeyFromQuestion (question : string) : string :=
  propertKeyPrefix +:+ pretty (hashString question).

(** What [JSON.parse] finds in a property value. *)
Record QandA : Type := {
  question : option string;
  answer : option string;
}.

Record ContentProperty : Type := {
  cp_id : string;
  cp_key : string;
  cp_value : string;
  cp_version : nat;
}.

(** The call [storeQanda] makes to one of the two writers of
    [confluenceUtil.js]. *)
Inductive PropertyWrite : Type :=
| UpdateContentProperty (contentId contentType propertyId key value : string) (version : nat)
| CreateContentProperty (contentId contentType key value : string).

Section Json.
(** [JSON.parse] (it throws on text that is no JSON), [JSON.stringify] and
    the mapping of [confluenceUtil.js] from resource types to content
    types. *)
Context (parse : string → outcome QandA)
        (stringify : QandA → string)
        (resourceTypeToContentType : string → string).

Fixpoint findContentPropertyByQuestion (question_ : string)
    (contentProperties : list ContentProperty) : outcome (option ContentProperty) :=
  match contentProperties with
  | [] => Returned None
  | contentProperty :: rest =>
      if Js.startsWith propertKeyPrefix (cp_key contentProperty) then
        match parse (cp_value contentProperty) with
        | Thrown e => Thrown e
        | Returned value =>
            if bool_decide (question value = Some question_)
            then Returned (Some contentProperty)
            else findContentPropertyByQuestion question_ rest
        end
      else findContentPropertyByQuestion question_ rest
  end.

(** [retrieveQandas], from the properties [getContentProperties] gave. *)
Fixpoint retrieveQandas (contentProperties : list ContentProperty) : outcome (list QandA) :=
  match contentProperties with
  | [] => Returned []
  | contentProperty :: rest =>
      if Js.startsWith propertKeyPrefix (cp_key contentProperty) then
        match parse (cp_value contentProperty) with
        | Thrown e => Thrown e
        | Returned value =>
            match retrieveQandas rest with
            | Thrown e => Thrown e
            | Returned qandas => Returned (value :: qandas)
            end
        end
      else retrieveQandas rest
  end.

(** [storeQanda], from the properties [getContentProperties] gave: the
    write it makes, if any. *)
Definition storeQanda (contentId resourceType question_ answer_ : string)
    (contentProperties : list ContentProperty) : outcome (option PropertyWrite) :=
  let contentType := resourceTypeToContentType resourceType in
  if bool_decide (resourceType = "page") || bool_decide (resourceType = "blog") then
    let key := propertyKeyFromQuestion question_ in
    let value := stringify {| question := Some question_; answer := Some answer_ |} in
    match findContentPropertyByQuestion question_ contentProperties with
    | Thrown e => Thrown e
    | Returned (Some existingContentProperty) =>
        Returned (Some (UpdateContentProperty contentId contentType
                          (cp_id existingContentProperty) key value
                          (cp_version existingContentProperty + 1)))
    | Returned None =>
        Returned (Some (CreateContentProperty contentId contentType key value))
    end
  else Returned None.

End Json.

End Qanda.

(** How the loop ends on an answer that says completed, failed or
    canceled. *)
Definition terminalOutcome (r : ExaResearchGetResponse) : outcome string :=
  match gr_status r with
  | st_failed =>
      Thrown (JsError ("Research failed: " +:+ orElse (gr_error r) "Unknown error"))
  | st_canceled => Thrown (JsError "Research task was canceled")
  | _ => Returned (ExaClient.completedResult r)
  end.

(** What an answer to a poll decides: nothing while the task is pending or
    running, else how the loop ends. *)
Definition decides (answer : http ExaResearchGetResponse) : option (outcome string) :=
  match answer with
  | HttpOk r => if keepsPolling (gr_status r) then None else Some (terminalOutcome r)
  | HttpNotOk status text =>
      Some (Thrown (JsError ("Exa API error: " +:+ pretty status +:+ " - " +:+ text)))
  | HttpReject e => Some (Thrown e)
  end.

(** Sum of the delays, in milliseconds. *)
Definition totalDelay (delays : list Q) : Q := foldr Qplus 0%Q delays.

Definition requestCount (t : list Event) : nat :=
  length (List.filter (λ e, match e with EvRequest _ _ _ => true | EvSleep _ => false end) t).

Definition failedAnswer : ExaResearchGetResponse :=
  {| gr_status := st_failed; gr_output := None; gr_sources := None;
     gr_error := Some "quota exceeded" |}.

(** Whether the character occurs in the string. *)
Fixpoint hasChar (c : ascii) (s : string) : bool :=
  match s with
  | "" => false
  | String d s' => Js.isChar d c || hasChar c s'
  end.

Fixpoint allChars (p : ascii → bool) (s : string) : bool :=
  match s with
  | "" => true
  | String c s' => p c && allChars p s'
  end.

Definition isLetter (c : ascii) : bool :=
  let n := nat_of_ascii c in
  ((65 <=? n)%nat && (n <=? 90)%nat) || ((97 <=? n)%nat && (n <=? 122)%nat).

(** Letters, digits, blanks, full stops and commas: characters that mean
    nothing to the conversion of the report. *)
Definition isProse (c : ascii) : bool :=
  isLetter c || Js.isDigit c || Js.isChar c " " || Js.isChar c "." || Js.isChar c ",".

Definition startsWithLetter (s : string) : bool :=
  match s with
  | String c _ => isLetter c
  | "" => false
  end.

(** The two requests of [createPageAsApp]. *)
Definition spaceLookup (spaceKey : string) : Event :=
  EvRequest ConfluenceAsApp "GET" ("/wiki/api/v2/spaces?keys=" +:+ spaceKey +:+ "&limit=1").

Definition pagePost : Event := EvRequest ConfluenceAsApp "POST" "/wiki/api/v2/pages".

(** The record stored under [research-result-<id>], if any. *)
Definition storedResult (w : World) (researchId : string) : option ResearchResult :=
  match kvs w !! Consumer.resultKey researchId with
  | Some (VResult r) => Some r
  | _ => None
  end.

(** The second world has the store and the queue of the first. *)
Definition sameStore (w w' : World) : Prop := kvs w' = kvs w ∧ queue w' = queue w.

(** A computation that leaves store and queue alone, however it ends. *)
Definition keepsStore {A} (m : M A) : Prop := ∀ w, sameStore w (m w).2.

(** A computation that always returns. *)
Definition neverThrows {A} (m : M A) : Prop := ∀ w, ∃ a w', m w = (Returned a, w').

(** The result record the consumer writes after a page was created, and
    after an exception. *)
Definition completedResultRecord (payload : DeepResearchEventPayload) (page : PageResult)
    (completedAt : string) : ResearchResult :=
  {| rr_jobId := ev_researchId payload; rr_success := true;
     rr_query := ev_query payload; rr_entityType := ev_entityType payload;
     rr_pageUrl := Some (pageUrl page); rr_pageTitle := Some (title page);
     rr_error := None; rr_completedAt := completedAt |}.

Definition failedResultRecord (payload : DeepResearchEventPayload) (error : thrown)
    (completedAt : string) : ResearchResult :=
  {| rr_jobId := ev_researchId payload; rr_success := false;
     rr_query := ev_query payload; rr_entityType := ev_entityType payload;
     rr_pageUrl := None; rr_pageTitle := None;
     rr_error := Some (errorMessage error); rr_completedAt := completedAt |}.


(** The two records the consumer writes tell the same story. *)
Definition sameOutcome (res : ResearchResult) (job : JobRecord) : Prop :=
  rr_query res = job_query job
  ∧ rr_entityType res = job_entityType job
  ∧ rr_success res = match job_status job with js_completed => true | _ => false end
  ∧ rr_pageUrl res = job_pageUrl job
  ∧ rr_pageTitle res = job_pageTitle job
  ∧ rr_error res = job_error job
  ∧ (rr_success res = true ↔ rr_error res = None)
  ∧ (rr_success res = true ↔ is_Some (rr_pageUrl res)).


(** Every value the computation returns satisfies [P]. *)
Definition returns {A} (P : A → Prop) (m : M A) : Prop :=
  ∀ w a w', m w = (Returned a, w') → P a.

(** A response of the issue resolver is a success exactly when it carries
    a page. *)
Definition coherent (response : IssueDeepResearch.Response) : Prop :=
  (IssueDeepResearch.success response = true ↔ is_Some (IssueDeepResearch.res_pageUrl response))
  ∧ (IssueDeepResearch.success response = true ↔ is_Some (IssueDeepResearch.res_pageTitle response)).

(** The query of a payload is not blank. *)
Definition hasQuery (query : option string) : Prop :=
  truthy (Js.trim (orElse query "")) = true.

(** The request [getIssueDetails] sends. *)
Definition issueLookup (issueKey : string) : Event :=
  EvRequest JiraAsUser "GET"
    ("/rest/api/3/issue/" +:+ issueKey +:+ "?fields=summary,description,labels,issuetype").


(** A payload the research actions reject: a blank query, or an entity
    type that is neither "person" nor "company". *)
Definition invalidResearch (payload : DeepResearchPayload) : Prop :=
  ¬ hasQuery (p_query payload) ∨ parseEntityType (p_entityType payload) = None.

Definition personOfNoName : DeepResearchPayload :=
  {| p_query := None; p_entityType := Some "person"; p_cloudId := None |}.

Definition acmeThePlace : DeepResearchPayload :=
  {| p_query := Some "Acme Corp"; p_entityType := Some "place"; p_cloudId := None |}.


(** What the search actions take from a result into the lead they store. *)
Definition personLeadOf (result : ExaSearchResult) (lead : PersonLead) : Prop :=
  profileUrl lead = Some (esr_url result)
  ∧ pl_status lead = ls_pending
  ∧ pl_name lead = (if truthy (esr_title result) then esr_title result else "Unknown")
  ∧ pl_summary lead = (String.substring 0 500 <$> esr_text result)
  ∧ (truthy (esr_id result) = true → pl_id lead = esr_id result).

Definition companyLeadOf (result : ExaSearchResult) (lead : CompanyLead) : Prop :=
  website lead = Some (esr_url result)
  ∧ cl_status lead = ls_pending
  ∧ cl_name lead = (if truthy (esr_title result) then esr_title result else "Unknown")
  ∧ cl_summary lead = (String.substring 0 500 <$> esr_text result)
  ∧ (truthy (esr_id result) = true → cl_id lead = esr_id result).

(** The text a search action answers with after an exception. *)
Definition searchApology (whom : string) (error : thrown) : string :=
  "Sorry, I encountered an error while searching for " +:+ whom +:+ ": " +:+
  errorMessage error +:+ nl +:+ nl +:+
  "Please try again or rephrase your search query.".

(** An Exa that answers every search with the same two results, the
    second without an identifier and without a title. *)
Definition twoResults : list ExaSearchResult :=
  [ {| esr_id := "exa-1"; esr_title := "Jane Doe";
       esr_url := "https://linkedin.example/in/jane-doe";
       esr_text := Some "Staff engineer"; esr_highlights := None |};
    {| esr_id := ""; esr_title := "";
       esr_url := "https://linkedin.example/in/john-roe";
       esr_text := None; esr_highlights := None |} ].

Definition envSearch : Env :=
  {| exaApiKey := exaApiKey (envUp []);
     exaCreate := exaCreate (envUp []);
     exaGet := exaGet (envUp []);
     exaSearch := λ _, HttpOk {| results := Some twoResults |};
     confluenceSpaces := confluenceSpaces (envUp []);
     confluenceCreatePage := confluenceCreatePage (envUp []);
     jiraIssue := jiraIssue (envUp []);
     jiraComment := jiraComment (envUp []);
     queuePush := queuePush (envUp []);
     dateNow := dateNow (envUp []);
     toISOString := toISOString (envUp []);
     toLocaleDateString := toLocaleDateString (envUp []);
     randomBase36 := randomBase36 (envUp []) |}.

Definition engineersPayload : SearchPayload :=
  {| s_query := Some "staff engineers"; s_numResults := None |}.

Definition noDate : ExaSearchResult → option string := λ _, None.


(** The second lead is the first with (possibly) another status. *)
Definition personButStatus (old new : PersonLead) : Prop :=
  pl_id new = pl_id old ∧ pl_name new = pl_name old ∧ profileUrl new = profileUrl old
  ∧ pl_summary new = pl_summary old ∧ pl_foundAt new = pl_foundAt old
  ∧ pl_source new = pl_source old.

Definition companyButStatus (old new : CompanyLead) : Prop :=
  cl_id new = cl_id old ∧ cl_name new = cl_name old ∧ website new = website old
  ∧ cl_summary new = cl_summary old ∧ cl_foundAt new = cl_foundAt old
  ∧ cl_source new = cl_source old.

(** The leads the dashboard asks [getSavedLeads] for: of the type asked
    for (both types unless it is "person" or "company") and of the status
    asked for (every status when it is missing, empty or "all"). *)
Definition wantedType (type : option string) (l : Lead) : bool :=
  if bool_decide (type = Some "person") then match l with inl _ => true | inr _ => false end
  else if bool_decide (type = Some "company")
       then match l with inl _ => false | inr _ => true end
       else true.

Definition wantedStatus (status : option string) (l : Lead) : bool :=
  if truthyOpt status && negb (bool_decide (status = Some "all"))
  then bool_decide (Some (statusName (GlobalPage.lead_status l)) = status)
  else true.

Definition allStoredLeads (w : World) : list Lead :=
  (inl <$> Persistence.storedPersonLeads w) ++ (inr <$> Persistence.storedCompanyLeads w).

(** More recent first. *)
Definition notOlder (getTime : string → Z) (a b : Lead) : Prop :=
  (getTime (GlobalPage.lead_foundAt b) ≤ getTime (GlobalPage.lead_foundAt a))%Z.

Fixpoint recentFirst (getTime : string → Z) (leads : list Lead) : Prop :=
  match leads with
  | [] => True
  | lead :: rest => Forall (notOlder getTime lead) rest ∧ recentFirst getTime rest
  end.

(** A store with three people leads, found in this order, and a clock that
    reads the day of the month. *)
Definition leadFoundOn (id day : string) (status : LeadStatus) : PersonLead :=
  {| pl_id := id; pl_name := "Lead " +:+ id;
     profileUrl := Some ("https://people.example/" +:+ id);
     pl_summary := None; pl_foundAt := "2025-01-" +:+ day;
     pl_source := "Exa Search"; pl_status := status |}.

Definition threeLeads : World :=
  {| kvs := {[ "pending-leads" :=
                 VPersonLeads [ leadFoundOn "a" "05" ls_pending;
                                leadFoundOn "b" "09" ls_accepted;
                                leadFoundOn "c" "07" ls_pending ] ]};
     queue := []; trace := []; ticks := 0 |}.

Definition dayOfMonth (foundAt : string) : Z :=
  match foundAt with
  | String _ (String _ (String _ (String _ (String _ (String _ (String _ (String _
      (String d1 (String d2 _))))))))) =>
      (Z.of_nat (nat_of_ascii d1) - 48) * 10 + (Z.of_nat (nat_of_ascii d2) - 48)
  | _ => 0
  end%Z.


(** The polynomial hash of a text in base 31 over its character codes,
    by Horner's rule, as an unbounded integer. *)
Fixpoint polynomial31 (acc : Z) (text : string) : Z :=
  match text with
  | "" => acc
  | String c rest => polynomial31 (31 * acc + Z.of_nat (nat_of_ascii c)) rest
  end.

(** The content property [createContentProperty] is asked to make. *)
Definition writtenAs (key value : string) (p : Qanda.ContentProperty) : Prop :=
  Qanda.cp_key p = key ∧ Qanda.cp_value p = value.

(** A JSON codec for the Q&A records of one page. *)
Definition quizParse (text : string) : outcome Qanda.QandA :=
  match String.index 0 "|" text with
  | Some n => Returned {| Qanda.question := Some (String.substring 0 n text);
                          Qanda.answer := Some (String.substring (S n)
                                                  (String.length text - S n) text) |}
  | None => Thrown (JsError "Unexpected token")
  end.

Definition quizStringify (qanda : Qanda.QandA) : string :=
  orElse (Qanda.question qanda) "" +:+ "|" +:+ orElse (Qanda.answer qanda) "".

Definition issueTypesOfProject : list JiraIssues.JiraIssueType :=
  [ {| JiraIssues.it_id := "10003"; JiraIssues.it_name := "Sub-task";
       JiraIssues.it_subtask := true |};
    {| JiraIssues.it_id := "10001"; JiraIssues.it_name := "Story";
       JiraIssues.it_subtask := false |};
    {| JiraIssues.it_id := "10002"; JiraIssues.it_name := "TASK";
       JiraIssues.it_subtask := false |} ].


(** The collaborators of [env] with another answer to the comment. *)
Definition withComment (env : Env) (comment : string → http unit) : Env :=
  {| exaApiKey := exaApiKey env;
     exaCreate := exaCreate env;
     exaGet := exaGet env;
     exaSearch := exaSearch env;
     confluenceSpaces := confluenceSpaces env;
     confluenceCreatePage := confluenceCreatePage env;
     jiraIssue := jiraIssue env;
     jiraComment := comment;
     queuePush := queuePush env;
     dateNow := dateNow env;
     toISOString := toISOString env;
     toLocaleDateString := toLocaleDateString env;
     randomBase36 := randomBase36 env |}.

(** The spaces the app sees, in the order Confluence lists them. *)
Definition listedSpaces (env : Env) : list ConfluenceSpace :=
  match confluenceSpaces env ConfluenceAsApp "/wiki/api/v2/spaces?limit=25&sort=name" with
  | HttpOk data => orEmpty (spaces_results data)
  | _ => []
  end.

Definition listSpaces : Event :=
  EvRequest ConfluenceAsApp "GET" "/wiki/api/v2/spaces?limit=25&sort=name".


(** A request the app makes to Confluence in its own name. *)
Definition toConfluenceAsApp (e : Event) : bool :=
  match e with
  | EvRequest ConfluenceAsApp _ _ => true
  | _ => false
  end.

(** The events of the attempts that sleep the given delays, oldest first:
    each attempt waits its delay and then sends its status poll. *)
Definition pollSchedule (rid : string) (delays : list Q) : list Event :=
  delays ≫= λ ms, [EvSleep ms; EvRequest Exa "GET" (pollPath rid)].

(** The identifier of the research dispatched last. *)
Definition lastResearchId (w : World) : option string :=
  ev_researchId <$> last (queue w).

(** Working collaborators seen within one millisecond: the clock gives the
    same reading every time, and the random source the same draw. *)
Definition envFrozen : Env := {|
  exaApiKey := exaApiKey (envUp []);
  exaCreate := exaCreate (envUp []);
  exaGet := exaGet (envUp []);
  exaSearch := exaSearch (envUp []);
  confluenceSpaces := confluenceSpaces (envUp []);
  confluenceCreatePage := confluenceCreatePage (envUp []);
  jiraIssue := jiraIssue (envUp []);
  jiraComment := jiraComment (envUp []);
  queuePush := queuePush (envUp []);
  dateNow := λ _, 1700000000000%N;
  toISOString := toISOString (envUp []);
  toLocaleDateString := toLocaleDateString (envUp []);
  randomBase36 := λ _, "k3j9x0a2b";
|}.

Definition janePayload : DeepResearchPayload :=
  {| p_query := Some "Jane Doe"; p_entityType := Some "person"; p_cloudId := Some "cloud-1" |}.

(** Two dispatches in a row, of a company and then of a person. *)
Definition afterTwoDispatches : World :=
  (DeepResearchQueueAction.deepResearch envFrozen janePayload
     (DeepResearchQueueAction.deepResearch envFrozen acmePayload emptyWorld).2).2.

(** Two worlds that differ in the store at most. *)
Definition alike (w1 w2 : World) : Prop :=
  queue w1 = queue w2 ∧ trace w1 = trace w2 ∧ ticks w1 = ticks w2.

(** A computation that never looks at the store: from two worlds that
    differ in the store at most it ends the same way, in two worlds that
    differ in the store at most. *)
Definition ignoresStore {A} (m : M A) : Prop :=
  ∀ w1 w2, alike w1 w2 → (m w1).1 = (m w2).1 ∧ alike (m w1).2 (m w2).2.

(** The two records a delivery leaves when its [try] block ended with
    [outcome] and the clock had been read [readings] times. *)
Definition jobRecordOf (env : Env) (payload : DeepResearchEventPayload)
    (outcome : outcome PageResult) (readings : nat) : JobRecord :=
  match outcome with
  | Returned page =>
      completedJob payload page (toISOString env (dateNow env (readings - 1)))
  | Thrown error =>
      failedJob payload error (toISOString env (dateNow env (readings - 1)))
  end.

Definition resultRecordOf (env : Env) (payload : DeepResearchEventPayload)
    (outcome : outcome PageResult) (readings : nat) : ResearchResult :=
  match outcome with
  | Returned page =>
      completedResultRecord payload page (toISOString env (dateNow env (readings - 2)))
  | Thrown error =>
      failedResultRecord payload error (toISOString env (dateNow env (readings - 2)))
  end.

(** The page options the consumer builds from the report, the space and the
    date. *)
Definition pageOptions (env : Env) (payload : DeepResearchEventPayload)
    (researchOutput targetSpaceKey : string) (today : N) : ConfluencePages.CreatePageOptions :=
  {| ConfluencePages.opt_spaceKey := targetSpaceKey;
     ConfluencePages.opt_title := "Research: " +:+ ev_query payload;
     ConfluencePages.opt_body :=
       ConfluencePages.convertResearchToStorageFormat
         (toLocaleDateString env today)
         researchOutput (ev_query payload) (ev_entityType payload);
     ConfluencePages.opt_format := "storage" |}.

(** The three steps of a delivery, run from [w]: the research, the space
    lookup and the page creation, with what each one gave. *)
Definition stepsSucceed (env : Env) (payload : DeepResearchEventPayload) (w : World)
    (page : PageResult) : Prop :=
  ∃ researchOutput w1 targetSpaceKey w2 w3,
    ExaClient.deepResearch env (ev_query payload) (ev_entityType payload) w
      = (Returned researchOutput, w1)
    ∧ Consumer.targetSpace env (ev_spaceKey payload) w1 = (Returned targetSpaceKey, w2)
    ∧ ConfluencePages.createPageAsApp env
        (pageOptions env payload researchOutput targetSpaceKey (dateNow env (ticks w2)))
        (ConfluencePages.newDate env w2).2 = (Returned (Some page), w3).

Definition stepFails (env : Env) (payload : DeepResearchEventPayload) (w : World)
    (error : thrown) : Prop :=
  (∃ w1, ExaClient.deepResearch env (ev_query payload) (ev_entityType payload) w
           = (Thrown error, w1))
  ∨ (∃ researchOutput w1 w2,
       ExaClient.deepResearch env (ev_query payload) (ev_entityType payload) w
         = (Returned researchOutput, w1)
       ∧ Consumer.targetSpace env (ev_spaceKey payload) w1 = (Thrown error, w2))
  ∨ (∃ researchOutput w1 targetSpaceKey w2 w3,
       ExaClient.deepResearch env (ev_query payload) (ev_entityType payload) w
         = (Returned researchOutput, w1)
       ∧ Consumer.targetSpace env (ev_spaceKey payload) w1 = (Returned targetSpaceKey, w2)
       ∧ ConfluencePages.createPageAsApp env
           (pageOptions env payload researchOutput targetSpaceKey (dateNow env (ticks w2)))
           (ConfluencePages.newDate env w2).2 = (Returned None, w3)
       ∧ error = JsError "Failed to create Confluence page").

(** A fresh world whose store is the one the first delivery left: the job
    is stored as completed. *)
Definition storedCompleted : World :=
  {| kvs := kvs afterFirstDelivery; queue := []; trace := []; ticks := 0 |}.

(** The URLs of search results, as the keys of the leads made of them. *)
Definition urlsOf (found : list ExaSearchResult) : list (option string) :=
  (λ result, Some (esr_url result)) <$> found.

(** An Exa whose search has one result, at an address of its own. *)
Definition maryResult : ExaSearchResult :=
  {| esr_id := "exa-3"; esr_title := "Mary Major";
     esr_url := "https://linkedin.example/in/mary-major";
     esr_text := None; esr_highlights := None |}.

Definition envSearchLater : Env :=
  {| exaApiKey := exaApiKey envSearch;
     exaCreate := exaCreate envSearch;
     exaGet := exaGet envSearch;
     exaSearch := λ _, HttpOk {| results := Some [maryResult] |};
     confluenceSpaces := confluenceSpaces envSearch;
     confluenceCreatePage := confluenceCreatePage envSearch;
     jiraIssue := jiraIssue envSearch;
     jiraComment := jiraComment envSearch;
     queuePush := queuePush envSearch;
     dateNow := dateNow envSearch;
     toISOString := toISOString envSearch;
     toLocaleDateString := toLocaleDateString envSearch;
     randomBase36 := randomBase36 envSearch |}.

(** The body of an issue of the declared type. *)
Definition declaredBody (answer : http JiraIssueDetails) : http IssueDeepResearch.JiraIssueBody :=
  match answer with
  | HttpOk issue => HttpOk (IssueDeepResearch.BodyWithFields issue)
  | HttpNotOk status text => HttpNotOk status text
  | HttpReject e => HttpReject e
  end.

(** A Jira that answers 200 with a body that has no [fields]. *)
Definition bodyWithoutFields : string → http IssueDeepResearch.JiraIssueBody :=
  λ _, HttpOk (IssueDeepResearch.BodyWithoutFields IssueDeepResearch.fieldsUndefined).

(* ===================================================================== *)
(** * Properties *)
(* ===================================================================== *)

(** ** Running computations *)

Lemma bind_returned {A B} (m : M A) (f : A → M B) w a w1 :
  m w = (Returned a, w1) → (m ≫= f) w = f a w1.
Proof. intros H. unfold mbind, M_bind. by rewrite H. Qed.

Lemma bind_thrown {A B} (m : M A) (f : A → M B) w e w1 :
  m w = (Thrown e, w1) → (m ≫= f) w = (Thrown e, w1).
Proof. intros H. unfold mbind, M_bind. by rewrite H. Qed.

Lemma bind_returned_inv {A B} (m : M A) (f : A → M B) w b w' :
  (m ≫= f) w = (Returned b, w') →
  ∃ a w1, m w = (Returned a, w1) ∧ f a w1 = (Returned b, w').
Proof.
  unfold mbind, M_bind. destruct (m w) as [[a|e] w1]; [eauto | discriminate].
Qed.

Lemma logged_nil w : logged [] w = w.
Proof. by destruct w. Qed.

Lemma logged_logged es1 es2 w : logged es1 (logged es2 w) = logged (es1 ++ es2) w.
Proof. unfold logged; simpl. by rewrite app_assoc. Qed.

Lemma pollCount_app t1 t2 : pollCount (t1 ++ t2) = (pollCount t1 + pollCount t2)%nat.
Proof. unfold pollCount. by rewrite List.filter_app, length_app. Qed.

Lemma sleeps_snoc_sleep es d : sleeps (es ++ [EvSleep d]) = d :: sleeps es.
Proof. unfold sleeps. by rewrite reverse_app. Qed.

Lemma sleeps_snoc_request es to method path :
  sleeps (es ++ [EvRequest to method path]) = sleeps es.
Proof. unfold sleeps. by rewrite reverse_app. Qed.

Lemma string_app_cons c (s t : string) : String c s +:+ t = String c (s +:+ t).
Proof. reflexivity. Qed.

Lemma string_app_nil_l (s : string) : "" +:+ s = s.
Proof. reflexivity. Qed.

Lemma string_app_nil_r (s : string) : s +:+ "" = s.
Proof. induction s; [done | by rewrite string_app_cons, IHs]. Qed.

Lemma string_app_assoc (s t u : string) : (s +:+ t) +:+ u = s +:+ (t +:+ u).
Proof. induction s; [done | by rewrite !string_app_cons, IHs]. Qed.

Lemma string_app_length (s t : string) :
  String.length (s +:+ t) = (String.length s + String.length t)%nat.
Proof. induction s; [done | rewrite string_app_cons; simpl; by rewrite IHs]. Qed.

Lemma foldl_append (init : string) (l : list string) :
  foldl String.app init l = init +:+ String.concat "" l.
Proof.
  revert init. induction l as [|x l IH]; intros init.
  - simpl. by rewrite string_app_nil_r.
  - change (foldl String.app init (x :: l)) with (foldl String.app (init +:+ x) l).
    rewrite IH, string_app_assoc. f_equal.
    destruct l; simpl; [by rewrite string_app_nil_r | done].
Qed.

(** ** The Exa client *)

Section ClientProperties.
Context (env : Env).
Import ExaClient.

Lemma getApiKey_ok w :
  truthyOpt (exaApiKey env) = true →
  getApiKey env w = (Returned (orElse (exaApiKey env) ""), w).
Proof. intros H. unfold getApiKey. by rewrite H. Qed.

Lemma makeExaRequest_ok {J} endpoint (data : J) w :
  truthyOpt (exaApiKey env) = true →
  makeExaRequest env endpoint (HttpOk data) w
  = (Returned data, logged [EvRequest Exa "POST" endpoint] w).
Proof.
  intros H. unfold makeExaRequest.
  erewrite bind_returned by by apply getApiKey_ok.
  reflexivity.
Qed.

Lemma poll_answered rid d r w :
  truthyOpt (exaApiKey env) = true →
  exaGet env (pollCount (trace w)) rid = HttpOk r →
  (sleep d;; makeExaGetRequest env (pollPath rid) (λ n, exaGet env n rid)) w
  = (Returned r, logged [EvRequest Exa "GET" (pollPath rid); EvSleep d] w).
Proof.
  intros Hkey Hget. unfold sleep, makeExaGetRequest.
  erewrite bind_returned by reflexivity.
  erewrite bind_returned by by apply getApiKey_ok.
  erewrite bind_returned by reflexivity.
  simpl. change (pollCount (EvSleep d :: trace w)) with (pollCount (trace w)).
  rewrite Hget. reflexivity.
Qed.

Lemma pollLoop_continue rid k d r w :
  truthyOpt (exaApiKey env) = true →
  exaGet env (pollCount (trace w)) rid = HttpOk r →
  keepsPolling (gr_status r) = true →
  pollLoop env rid (S k) d w
  = pollLoop env rid k (Qmin (d * 1.5) maxDelay)
             (logged [EvRequest Exa "GET" (pollPath rid); EvSleep d] w).
Proof.
  intros Hkey Hget Hst.
  pose proof (poll_answered rid d r w Hkey Hget) as Hpoll.
  simpl pollLoop. unfold mbind, M_bind in *. fold (pollPath rid).
  destruct (sleep d w) as [[[]|e] w1]; [|discriminate].
  rewrite Hpoll. destruct (gr_status r); done.
Qed.

Lemma pollLoop_completed rid k d r w :
  truthyOpt (exaApiKey env) = true →
  exaGet env (pollCount (trace w)) rid = HttpOk r →
  gr_status r = st_completed →
  pollLoop env rid (S k) d w
  = (Returned (completedResult r),
     logged [EvRequest Exa "GET" (pollPath rid); EvSleep d] w).
Proof.
  intros Hkey Hget Hst.
  pose proof (poll_answered rid d r w Hkey Hget) as Hpoll.
  simpl pollLoop. unfold mbind, M_bind in *. fold (pollPath rid).
  destruct (sleep d w) as [[[]|e] w1]; [|discriminate].
  rewrite Hpoll, Hst. reflexivity.
Qed.

End ClientProperties.

Lemma completedResult_spec r :
  ExaClient.completedResult r
  = orElse (gr_output r) "No research output available."
    +:+ numberedSourceList (orEmpty (gr_sources r)).
Proof.
  unfold ExaClient.completedResult, numberedSourceList.
  destruct (gr_sources r) as [[|s l]|]; simpl orEmpty; cbv iota;
    rewrite ?string_app_nil_r; try done.
  rewrite foldl_append, !string_app_assoc. reflexivity.
Qed.

(** C5: when the status endpoint answers running, running, completed, the
    client polls exactly three times and returns the completed output
    followed by its sources as a list of links numbered 1..N in the order
    of the response. *)
Theorem deepResearch_three_polls env query entityType w rid st r1 r2 fin :
  truthyOpt (exaApiKey env) = true →
  exaCreate env {| rr_instructions := ExaClient.instructions query entityType;
                   rr_model := "exa-research-fast" |}
    = HttpOk {| cr_researchId := rid; cr_status := st |} →
  exaGet env (pollCount (trace w)) rid = HttpOk r1 → gr_status r1 = st_running →
  exaGet env (S (pollCount (trace w))) rid = HttpOk r2 → gr_status r2 = st_running →
  exaGet env (S (S (pollCount (trace w)))) rid = HttpOk fin →
  gr_status fin = st_completed →
  ∃ w',
    ExaClient.deepResearch env query entityType w
    = (Returned (orElse (gr_output fin) "No research output available."
                 +:+ numberedSourceList (orEmpty (gr_sources fin))), w')
    ∧ pollCount (trace w') = (pollCount (trace w) + 3)%nat
    ∧ kvs w' = kvs w.
Proof.
  intros Hkey Hcreate H1 S1 H2 S2 H3 S3.
  eexists. split; [|split].
  - unfold ExaClient.deepResearch, try_catch, ExaClient.research.
    erewrite bind_returned; last first.
    { rewrite Hcreate. by apply makeExaRequest_ok. }
    simpl cr_researchId. unfold ExaClient.maxAttempts.
    erewrite pollLoop_continue; [|done|exact H1|by rewrite S1].
    erewrite pollLoop_continue; [|done|exact H2|by rewrite S2].
    erewrite pollLoop_completed; [|done|exact H3|exact S3].
    rewrite completedResult_spec. reflexivity.
  - simpl. unfold pollCount. simpl. lia.
  - reflexivity.
Qed.

Lemma deepResearch_three_polls_witness :
  ∃ w',
    ExaClient.deepResearch (envExa [running; running; acmeAnswer]) "Acme Corp" company emptyWorld
    = (Returned ("Acme is a robotics company." +:+ nl +:+ nl +:+ "**Sources:**" +:+ nl +:+
                 "1. [Acme](https://acme.example)" +:+ nl +:+
                 "2. [News](https://news.example/acme)" +:+ nl), w')
    ∧ pollCount (trace w') = 3%nat.
Proof.
  destruct (deepResearch_three_polls (envExa [running; running; acmeAnswer])
              "Acme Corp" company emptyWorld "r1" st_pending running running acmeAnswer)
    as (w' & Hrun & Hpolls & _); try reflexivity.
  exists w'. split; [exact Hrun | exact Hpolls].
Defined.

(** ** The poll loop: budget, delays, time-out *)

Section PollLoop.
Context (env : Env).
Import ExaClient.

(** One attempt: the sleep and the poll. Without an API key the poll is
    never sent; otherwise it is sent and answers or throws. *)
Lemma attempt_cases rid d w :
  let attempt := sleep d;; makeExaGetRequest env (pollPath rid) (λ n, exaGet env n rid) in
  (∃ e, attempt w = (Thrown e, logged [EvSleep d] w))
  ∨ (∃ o, attempt w = (o, logged [EvRequest Exa "GET" (pollPath rid); EvSleep d] w)).
Proof.
  simpl. unfold sleep, makeExaGetRequest, getApiKey.
  erewrite bind_returned by reflexivity.
  destruct (truthyOpt (exaApiKey env)).
  - right. erewrite bind_returned by reflexivity.
    erewrite bind_returned by reflexivity.
    erewrite bind_returned by reflexivity.
    unfold readResponse.
    destruct (exaGet env _ rid); eexists; reflexivity.
  - left. eexists. reflexivity.
Qed.

(** Whatever the answers are, a loop of [k] attempts leaves at most [k]
    polls behind, and the delays it slept are the first ones of [backoff]. *)
Lemma pollLoop_trace rid k d w :
  ∃ es j, (pollLoop env rid k d w).2 = logged es w
          ∧ (pollCount es ≤ k)%nat ∧ (j ≤ k)%nat ∧ sleeps es = backoff d j.
Proof.
  revert d w. induction k as [|k IH]; intros d w.
  - exists [], 0%nat. simpl. by rewrite logged_nil.
  - simpl pollLoop. fold (pollPath rid).
    destruct (attempt_cases rid d w) as [[e Hstep]|[o Hstep]]; simpl in Hstep.
    all: unfold mbind, M_bind in Hstep |- *.
    all: change (sleep d w) with (Returned (), logged [EvSleep d] w) in Hstep |- *.
    all: cbv beta iota in Hstep |- *; rewrite Hstep.
    { exists [EvSleep d], 1%nat. repeat split; try done; unfold pollCount; simpl; lia. }
    set (w1 := logged [EvRequest Exa "GET" (pollPath rid); EvSleep d] w).
    assert (Hstop : ∃ es j, w1 = logged es w ∧ (pollCount es ≤ S k)%nat
                            ∧ (j ≤ S k)%nat ∧ sleeps es = backoff d j).
    { exists [EvRequest Exa "GET" (pollPath rid); EvSleep d], 1%nat.
      repeat split; try done; unfold pollCount; simpl; lia. }
    destruct o as [r|e]; [|exact Hstop].
    destruct (IH (Qmin (d * 1.5) maxDelay) w1) as (es & j & Hw & Hp & Hj & Hs).
    destruct (gr_status r); simpl; try exact Hstop.
    all: exists (es ++ [EvRequest Exa "GET" (pollPath rid); EvSleep d]), (S j);
      rewrite Hw; unfold w1; rewrite logged_logged; repeat split.
    all: try (rewrite pollCount_app; unfold pollCount at 2; simpl; lia).
    all: try lia.
    all: change (es ++ [EvRequest Exa "GET" (pollPath rid); EvSleep d])
           with (es ++ [EvRequest Exa "GET" (pollPath rid)] ++ [EvSleep d]).
    all: rewrite app_assoc, sleeps_snoc_sleep, sleeps_snoc_request, Hs; done.
Qed.

(** While every answer says pending or running, the loop uses its whole
    budget and then throws the time-out error. *)
Lemma pollLoop_times_out rid k d w :
  truthyOpt (exaApiKey env) = true →
  (∀ i, (i < k)%nat → ∃ r, exaGet env (pollCount (trace w) + i) rid = HttpOk r
                           ∧ keepsPolling (gr_status r) = true) →
  ∃ es, pollLoop env rid k d w = (Thrown timedOut, logged es w) ∧ pollCount es = k.
Proof.
  intros Hkey. revert d w. induction k as [|k IH]; intros d w Hrun.
  - exists []. by rewrite logged_nil.
  - destruct (Hrun 0%nat) as (r & Hget & Hst); [lia|].
    rewrite Nat.add_0_r in Hget.
    rewrite (pollLoop_continue env rid k d r w Hkey Hget Hst).
    destruct (IH (Qmin (d * 1.5) maxDelay)
                 (logged [EvRequest Exa "GET" (pollPath rid); EvSleep d] w))
      as (es & Hloop & Hcount).
    { intros i Hi. destruct (Hrun (S i)) as (r' & Hget' & Hst'); [lia|].
      exists r'. split; [|done]. rewrite <- Hget'. f_equal.
      simpl. unfold pollCount. simpl. lia. }
    exists (es ++ [EvRequest Exa "GET" (pollPath rid); EvSleep d]).
    rewrite Hloop, logged_logged. split; [done|].
    rewrite pollCount_app, Hcount. unfold pollCount. simpl. lia.
Qed.

Lemma attempt_without_key rid d w :
  truthyOpt (exaApiKey env) = false →
  ∃ e, (sleep d;; makeExaGetRequest env (pollPath rid) (λ n, exaGet env n rid)) w
       = (Thrown e, logged [EvSleep d] w).
Proof.
  intros Hkey. unfold sleep, makeExaGetRequest, getApiKey.
  erewrite bind_returned by reflexivity. rewrite Hkey. eexists. reflexivity.
Qed.

Lemma attempt_with_key rid d w :
  truthyOpt (exaApiKey env) = true →
  ∃ o, (sleep d;; makeExaGetRequest env (pollPath rid) (λ n, exaGet env n rid)) w
       = (o, logged [EvRequest Exa "GET" (pollPath rid); EvSleep d] w).
Proof.
  intros Hkey. unfold sleep, makeExaGetRequest, getApiKey.
  erewrite bind_returned by reflexivity. rewrite Hkey.
  erewrite bind_returned by reflexivity.
  erewrite bind_returned by reflexivity.
  erewrite bind_returned by reflexivity.
  unfold readResponse. destruct (exaGet env _ rid); eexists; reflexivity.
Qed.

(** The loop in time order: with an API key every attempt waits its delay
    and then polls, so the events are the schedule of the attempts made;
    without one the first attempt waits and its poll is never sent. *)
Lemma pollLoop_schedule rid k d w :
  ∃ es attempts,
    (pollLoop env rid (S k) d w).2 = logged es w
    ∧ (1 ≤ attempts ≤ S k)%nat
    ∧ sleeps es = backoff d attempts
    ∧ (truthyOpt (exaApiKey env) = true →
       reverse es = pollSchedule rid (backoff d attempts) ∧ pollCount es = attempts)
    ∧ (truthyOpt (exaApiKey env) = false → reverse es = [EvSleep d]).
Proof.
  destruct (truthyOpt (exaApiKey env)) eqn:Hk.
  - revert d w. induction k as [|k IH]; intros d w.
    2: remember (S k) as k' eqn:Hk'.
    all: simpl pollLoop; fold (pollPath rid).
    all: destruct (attempt_with_key rid d w Hk) as [o Hstep].
    all: unfold mbind, M_bind in Hstep |- *.
    all: change (sleep d w) with (Returned (), logged [EvSleep d] w) in Hstep |- *.
    all: cbv beta iota in Hstep |- *; rewrite Hstep.
    all: set (w1 := logged [EvRequest Exa "GET" (pollPath rid); EvSleep d] w).
    all: assert (Hstop : ∀ n, ∃ es attempts, w1 = logged es w ∧ (1 ≤ attempts ≤ S n)%nat
           ∧ sleeps es = backoff d attempts
           ∧ (true = true → reverse es = pollSchedule rid (backoff d attempts)
                            ∧ pollCount es = attempts)
           ∧ (true = false → reverse es = [EvSleep d]))
      by (intros n; exists [EvRequest Exa "GET" (pollPath rid); EvSleep d], 1%nat;
          repeat split; try done; lia).
    + destruct o as [r|e]; [|exact (Hstop _)].
      destruct (gr_status r); exact (Hstop _).
    + destruct o as [r|e]; [|exact (Hstop _)].
      destruct (gr_status r); try exact (Hstop _).
      all: subst k'.
      all: destruct (IH (Qmin (d * 1.5) maxDelay) w1) as (es & j & Hw & Hj & Hs & Hkey' & _).
      all: destruct (Hkey' eq_refl) as [Hrev Hcount].
      all: exists (es ++ [EvRequest Exa "GET" (pollPath rid); EvSleep d]), (S j).
      all: rewrite Hw; unfold w1; rewrite logged_logged.
      all: split; [done|]; split; [lia|].
      all: change (es ++ [EvRequest Exa "GET" (pollPath rid); EvSleep d])
             with (es ++ [EvRequest Exa "GET" (pollPath rid)] ++ [EvSleep d]).
      all: rewrite app_assoc, sleeps_snoc_sleep, sleeps_snoc_request, Hs.
      all: split; [done|]; split; [|done]; intros _.
      all: rewrite <- app_assoc, reverse_app, Hrev, pollCount_app, Hcount.
      all: split; [reflexivity|unfold pollCount; simpl; lia].
  - simpl pollLoop; fold (pollPath rid).
    destruct (attempt_without_key rid d w Hk) as [e Hstep].
    unfold mbind, M_bind in Hstep |- *.
    change (sleep d w) with (Returned (), logged [EvSleep d] w) in Hstep |- *.
    cbv beta iota in Hstep |- *; rewrite Hstep.
    exists [EvSleep d], 1%nat. repeat split; try done; lia.
Qed.

End PollLoop.

Section Backoff.
Local Open Scope Q_scope.

(** The delays of the back-off in closed form. *)
Lemma backoff_closed_form j n ms :
  backoff ExaClient.initialDelay j !! n = Some ms →
  (ms == Qmin (ExaClient.initialDelay * 1.5 ^ Z.of_nat n) ExaClient.maxDelay)%Q.
Proof.
  assert (Hgen : ∀ j n d a ms, (d == Qmin a ExaClient.maxDelay)%Q → (0 < a)%Q →
            backoff d j !! n = Some ms →
            (ms == Qmin (a * 1.5 ^ Z.of_nat n) ExaClient.maxDelay)%Q).
  { clear. induction j as [|j IH]; intros n d a ms Hd Ha Hlook; [done|].
    destruct n as [|n]; simpl in Hlook.
    - injection Hlook as <-. rewrite Hd. simpl Qpower.
      unfold ExaClient.maxDelay in *.
      destruct (Q.min_spec a 30000) as [[? ->]|[? ->]],
               (Q.min_spec (a * 1) 30000) as [[? ->]|[? ->]]; lra.
    - apply (IH n _ (a * 1.5)) in Hlook.
      + rewrite Hlook.
        assert (Hpow : 1.5 ^ Z.of_nat (S n) == 1.5 * 1.5 ^ Z.of_nat n).
        { rewrite Nat2Z.inj_succ, <- Z.add_1_l, Qpower_plus by done. reflexivity. }
        rewrite Hpow.
        assert (Heq : a * 1.5 * 1.5 ^ Z.of_nat n == a * (1.5 * 1.5 ^ Z.of_nat n)) by ring.
        destruct (Q.min_spec (a * 1.5 * 1.5 ^ Z.of_nat n) ExaClient.maxDelay) as [[? ->]|[? ->]],
                 (Q.min_spec (a * (1.5 * 1.5 ^ Z.of_nat n)) ExaClient.maxDelay) as [[? ->]|[? ->]];
          lra.
      + unfold ExaClient.maxDelay in *.
        destruct (Q.min_spec (d * 1.5) 30000) as [[? ->]|[? ->]],
                 (Q.min_spec (a * 1.5) 30000) as [[? ->]|[? ->]],
                 (Q.min_spec a 30000) as [[? Hm]|[? Hm]]; rewrite Hm in Hd; lra.
      + lra. }
  intros Hlook. apply (Hgen j n ExaClient.initialDelay ExaClient.initialDelay ms); done.
Qed.

End Backoff.

Lemma backoff_length d j : length (backoff d j) = j.
Proof. revert d. induction j as [|j IH]; intros d; [done|]. simpl. by rewrite IH. Qed.

(** C6: the poll loop makes at most 30 polls whatever the answers are; the
    delay before attempt n is min(2000 * 1.5^(n-1), 30000) milliseconds; and
    when no poll within the budget brings a terminal status the loop throws
    the time-out error after its 30 polls. The loop does wait: between 1 and
    30 attempts are made, each one sleeps the delay of its rank, and with an
    API key the events of the loop are, in time order, the sleep of an
    attempt followed by its poll, attempt after attempt, and nothing else.
    Without an API key the first attempt sleeps 2000 ms and its poll is
    never sent. *)
Theorem pollLoop_budget env rid w :
  ExaClient.maxAttempts = 30%nat ∧ ExaClient.initialDelay = 2000%Q
  ∧ ExaClient.maxDelay = 30000%Q ∧
  ∃ es,
    (ExaClient.pollLoop env rid ExaClient.maxAttempts ExaClient.initialDelay w).2
    = logged es w
    ∧ (pollCount es ≤ 30)%nat
    ∧ (∀ attempt ms, (1 ≤ attempt)%nat → sleeps es !! (attempt - 1)%nat = Some ms →
         (ms == Qmin (2000 * 1.5 ^ (Z.of_nat attempt - 1)) 30000)%Q)
    ∧ (truthyOpt (exaApiKey env) = true →
       (∀ i, (i < 30)%nat →
          ∃ r, exaGet env (pollCount (trace w) + i) rid = HttpOk r
               ∧ keepsPolling (gr_status r) = true) →
       (ExaClient.pollLoop env rid ExaClient.maxAttempts ExaClient.initialDelay w).1
       = Thrown timedOut
       ∧ pollCount es = 30%nat)
    ∧ ∃ attempts,
        (1 ≤ attempts ≤ 30)%nat
        ∧ length (sleeps es) = attempts
        ∧ (∀ attempt, (1 ≤ attempt ≤ attempts)%nat →
             ∃ ms, sleeps es !! (attempt - 1)%nat = Some ms
                   ∧ (ms == Qmin (2000 * 1.5 ^ (Z.of_nat attempt - 1)) 30000)%Q)
        ∧ (truthyOpt (exaApiKey env) = true →
           reverse es = pollSchedule rid (sleeps es) ∧ pollCount es = attempts)
        ∧ (truthyOpt (exaApiKey env) = false → reverse es = [EvSleep 2000]).
Proof.
  repeat split; try reflexivity.
  destruct (pollLoop_schedule env rid 29 ExaClient.initialDelay w)
    as (es & attempts & Hw & Hattempts & Hsleeps & Hkey & Hnokey).
  change (S 29) with ExaClient.maxAttempts in Hw.
  assert (Hclosed : ∀ attempt ms, (1 ≤ attempt)%nat →
            sleeps es !! (attempt - 1)%nat = Some ms →
            (ms == Qmin (2000 * 1.5 ^ (Z.of_nat attempt - 1)) 30000)%Q).
  { intros attempt ms Hpos Hlook. rewrite Hsleeps in Hlook.
    apply backoff_closed_form in Hlook.
    replace (Z.of_nat attempt - 1)%Z with (Z.of_nat (attempt - 1)) by lia.
    exact Hlook. }
  assert (Hpolls : (pollCount es ≤ 30)%nat).
  { destruct (pollLoop_trace env rid ExaClient.maxAttempts ExaClient.initialDelay w)
      as (es' & j & Hw' & Hpolls & _). rewrite Hw in Hw'.
    apply (f_equal trace) in Hw'. simpl in Hw'. apply app_inv_tail in Hw' as ->.
    exact Hpolls. }
  exists es. split; [exact Hw|]. split; [exact Hpolls|]. split; [exact Hclosed|].
  split.
  - intros Hk Hrun.
    destruct (pollLoop_times_out env rid ExaClient.maxAttempts ExaClient.initialDelay w)
      as (es' & Hloop & Hcount); [done..|].
    rewrite Hloop. split; [reflexivity|].
    rewrite Hloop in Hw. simpl in Hw.
    assert (es' = es) as <-; [|exact Hcount].
    apply (f_equal trace) in Hw. simpl in Hw. by apply app_inv_tail in Hw.
  - exists attempts. split; [exact Hattempts|].
    split; [by rewrite Hsleeps, backoff_length|]. split; [|split].
    + intros attempt Hrange.
      destruct (lookup_lt_is_Some_2 (sleeps es) (attempt - 1)) as [ms Hms].
      { rewrite Hsleeps, backoff_length. lia. }
      exists ms. split; [exact Hms|]. apply Hclosed; [lia|exact Hms].
    + intros Hk. rewrite Hsleeps. by apply Hkey.
    + exact Hnokey.
Qed.

Lemma pollLoop_budget_witness :
  (ExaClient.pollLoop (envExa []) "r1" ExaClient.maxAttempts ExaClient.initialDelay
                      emptyWorld).1
  = Thrown timedOut.
Proof.
  destruct (pollLoop_budget (envExa []) "r1" emptyWorld)
    as (_ & _ & _ & es & _ & _ & _ & Htimeout & _).
  apply Htimeout; [reflexivity|].
  intros i _. exists running. split; reflexivity.
Defined.

(** ** The fallback *)

Lemma startsWith_app (needle rest : string) : Js.startsWith needle (needle +:+ rest) = true.
Proof.
  unfold Js.startsWith.
  assert (H : Js.stripPrefix needle (needle +:+ rest) = Some rest); [|by rewrite H].
  induction needle as [|c needle IH]; [by destruct rest|].
  rewrite string_app_cons. simpl. unfold Js.isChar. by rewrite bool_decide_eq_true_2.
Qed.

Lemma includes_prefix (needle rest : string) : Js.includes needle (needle +:+ rest) = true.
Proof.
  destruct (needle +:+ rest) eqn:E; simpl; rewrite <- E, startsWith_app; done.
Qed.

(** C2: when the research path throws (a failed request, a failed or
    canceled task, the time-out) and the fallback search answers with no
    result, [deepResearch] does not throw: it returns the sentinel
    "No detailed information found for <query>.". *)
Theorem deepResearch_fallback_sentinel env query entityType w e w1 response w2 :
  ExaClient.research env query entityType w = (Thrown e, w1) →
  ExaClient.makeExaRequest env "/search"
    (exaSearch env (ExaClient.fallbackRequest query entityType)) w1
    = (Returned response, w2) →
  orEmpty (results response) = [] →
  ExaClient.deepResearch env query entityType w
  = (Returned ("No detailed information found for " +:+ query +:+ "."), w2)
  ∧ Js.includes "No detailed information found"
                ("No detailed information found for " +:+ query +:+ ".") = true.
Proof.
  intros Hresearch Hsearch Hnone. split.
  - unfold ExaClient.deepResearch, try_catch. rewrite Hresearch.
    unfold ExaClient.fallbackDeepSearch.
    erewrite bind_returned by exact Hsearch.
    rewrite Hnone. reflexivity.
  - change ("No detailed information found for " +:+ query +:+ ".")
      with ("No detailed information found" +:+ (" for " +:+ query +:+ ".")).
    apply includes_prefix.
Qed.

Lemma deepResearch_fallback_sentinel_witness :
  (ExaClient.deepResearch (envExa []) "Acme Corp" company emptyWorld).1
  = Returned "No detailed information found for Acme Corp.".
Proof.
  pose (w1 := (ExaClient.research (envExa []) "Acme Corp" company emptyWorld).2).
  pose (w2 := logged [EvRequest Exa "POST" "/search"] w1).
  destruct (deepResearch_fallback_sentinel (envExa []) "Acme Corp" company emptyWorld
              timedOut w1 {| results := Some [] |} w2) as [Hrun _].
  - vm_compute. reflexivity.
  - vm_compute. reflexivity.
  - reflexivity.
  - rewrite Hrun. reflexivity.
Defined.

(** ** Search history and leads: retention *)

Lemma take_app_take {A} n (l k : list A) : take n (l ++ take n k) = take n (l ++ k).
Proof.
  rewrite !take_app, take_take. do 2 f_equal. lia.
Qed.

(** Pushing items one by one onto a capped list keeps the newest ones,
    newest first. *)
Lemma foldl_push_capped {A} (cap : nat) (items : list A) (h0 : list A) :
  items ≠ [] →
  foldl (λ h item, take cap (item :: h)) h0 items = take cap (reverse items ++ h0).
Proof.
  revert h0. induction items as [|x [|y rest] IH]; intros h0 Hne; [done|done|].
  change (foldl _ h0 (x :: y :: rest))
    with (foldl (λ h item, take cap (item :: h)) (take cap (x :: h0)) (y :: rest)).
  rewrite IH by done. rewrite take_app_take.
  rewrite (reverse_cons _ x), <- app_assoc. reflexivity.
Qed.

Lemma NoDup_submseteq_inv {A} (l k : list A) : l ⊆+ k → NoDup k → NoDup l.
Proof.
  intros [k' Hk]%submseteq_Permutation Hnd. rewrite Hk in Hnd.
  by apply NoDup_app in Hnd as [? _].
Qed.

Section MergeLeads.
Context {L : Type} (key : L → option string).
Import Persistence.

(** Leads whose keys are not stored yet all pass the filter. *)
Lemma mergeLeads_fresh (leads existingLeads : list L) :
  (∀ l, l ∈ leads → key l ∉ key <$> existingLeads) →
  mergeLeads key leads existingLeads = take leadCap (leads ++ existingLeads).
Proof.
  intros Hfresh. unfold mergeLeads. do 2 f_equal.
  induction leads as [|l leads IH]; [done|].
  rewrite filter_cons_True.
  - f_equal. apply IH. intros l' Hl'. apply Hfresh. by right.
  - rewrite elem_of_list_to_set. apply Hfresh. by left.
Qed.

(** A lead whose key is stored already is dropped. *)
Lemma mergeLeads_known (l : L) (existingLeads : list L) :
  key l ∈ key <$> existingLeads →
  mergeLeads key [l] existingLeads = take leadCap existingLeads.
Proof.
  intros Hin. unfold mergeLeads. rewrite filter_cons_False; [done|].
  rewrite elem_of_list_to_set. by intros H.
Qed.

Lemma mergeBatches_distinct (batches : list (list L)) (stored : list L) :
  batches ≠ [] →
  NoDup (key <$> (concat batches ++ stored)) →
  foldl (λ s batch, mergeLeads key batch s) stored batches
  = take leadCap (concat (reverse batches) ++ stored).
Proof.
  revert stored. induction batches as [|b [|b' rest] IH]; intros stored Hne Hnd; [done|..].
  - simpl in *. rewrite app_nil_r in *.
    apply mergeLeads_fresh. intros l Hl.
    rewrite fmap_app in Hnd. apply NoDup_app in Hnd as (_ & Hdisj & _).
    apply Hdisj. by apply list_elem_of_fmap_2.
  - change (foldl _ stored (b :: b' :: rest))
      with (foldl (λ s batch, mergeLeads key batch s) (mergeLeads key b stored) (b' :: rest)).
    assert (Hb : mergeLeads key b stored = take leadCap (b ++ stored)).
    { apply mergeLeads_fresh. intros l Hl.
      change (concat (b :: b' :: rest)) with (b ++ concat (b' :: rest)) in Hnd.
      rewrite !fmap_app in Hnd. apply NoDup_app in Hnd as (_ & Hdisj & _).
      intros Hin. apply (Hdisj (key l)); [|done].
      apply elem_of_app. left. by apply list_elem_of_fmap_2. }
    rewrite Hb, IH; [|done|].
    + rewrite take_app_take, (reverse_cons _ b), concat_app. simpl.
      rewrite app_nil_r, <- app_assoc. reflexivity.
    + change (concat (b :: b' :: rest)) with (b ++ concat (b' :: rest)) in Hnd.
      eapply NoDup_submseteq_inv; [|exact Hnd].
      apply fmap_submseteq.
      etrans; [apply submseteq_skips_l, submseteq_take|].
      rewrite app_assoc, (Permutation_app_comm (concat (b' :: rest)) b). done.
Qed.

End MergeLeads.

Section Retention.
Context (env : Env).
Import Persistence.

Lemma saveSearchToHistory_spec searchType query resultCount w :
  ∃ w', saveSearchToHistory env searchType query resultCount w = (Returned (), w')
        ∧ storedHistory w'
          = pushHistory (historyItemAt env (ticks w) (searchType, query, resultCount))
                        (storedHistory w)
        ∧ ticks w' = (ticks w + 2)%nat
        ∧ trace w' = trace w.
Proof.
  eexists. split; [reflexivity|]. simpl.
  split; [|split; [lia|done]].
  unfold storedHistory at 1. simpl. by rewrite lookup_insert_eq.
Qed.

Lemma saveSearches_stored calls w :
  storedHistory (saveSearches env calls w).2
  = foldl (λ h item, pushHistory item h) (storedHistory w)
          (imap (λ i call, historyItemAt env (ticks w + 2 * i) call) calls).
Proof.
  revert w. induction calls as [|[[searchType query] resultCount] calls IH]; intros w; [done|].
  destruct (saveSearchToHistory_spec searchType query resultCount w)
    as (w1 & Hrun & Hstored & Hticks & _).
  unfold saveSearches in *. rewrite fmap_cons. simpl runAll.
  erewrite bind_returned by exact Hrun.
  rewrite IH, Hstored, Hticks. simpl. rewrite Nat.add_0_r.
  f_equal. apply imap_ext. intros i call _. simpl. f_equal. lia.
Qed.

Lemma savePersonLeads_spec leads w :
  ∃ w', savePersonLeadsToStorage leads w = (Returned (), w')
        ∧ storedPersonLeads w' = mergeLeads profileUrl leads (storedPersonLeads w).
Proof.
  eexists. split; [reflexivity|].
  unfold storedPersonLeads at 1. simpl. by rewrite lookup_insert_eq.
Qed.

Lemma saveCompanyLeads_spec leads w :
  ∃ w', saveCompanyLeadsToStorage leads w = (Returned (), w')
        ∧ storedCompanyLeads w' = mergeLeads website leads (storedCompanyLeads w).
Proof.
  eexists. split; [reflexivity|].
  unfold storedCompanyLeads at 1. simpl. by rewrite lookup_insert_eq.
Qed.

Lemma savePersonBatches_stored batches w :
  storedPersonLeads (savePersonBatches batches w).2
  = foldl (λ s batch, mergeLeads profileUrl batch s) (storedPersonLeads w) batches.
Proof.
  revert w. induction batches as [|b batches IH]; intros w; [done|].
  destruct (savePersonLeads_spec b w) as (w1 & Hrun & Hstored).
  unfold savePersonBatches in *. rewrite fmap_cons. simpl runAll.
  erewrite bind_returned by exact Hrun. by rewrite IH, Hstored.
Qed.

Lemma saveCompanyBatches_stored batches w :
  storedCompanyLeads (saveCompanyBatches batches w).2
  = foldl (λ s batch, mergeLeads website batch s) (storedCompanyLeads w) batches.
Proof.
  revert w. induction batches as [|b batches IH]; intros w; [done|].
  destruct (saveCompanyLeads_spec b w) as (w1 & Hrun & Hstored).
  unfold saveCompanyBatches in *. rewrite fmap_cons. simpl runAll.
  erewrite bind_returned by exact Hrun. by rewrite IH, Hstored.
Qed.

End Retention.

Lemma length_concat_reverse {A} (l : list (list A)) :
  length (concat (reverse l)) = length (concat l).
Proof.
  induction l as [|x l IH]; [done|].
  rewrite reverse_cons, concat_app, length_app, IH. simpl. rewrite !length_app. simpl. lia.
Qed.

(** C7: once more than the cap has been inserted (50 searches; 200 leads
    with distinct keys), the stored collection holds exactly the cap: the
    most recently inserted entries, most recent first. Leads arrive in
    batches; the batches are kept most recent first, each in its own order. *)
Theorem retention_caps env :
  Persistence.historyCap = 50%nat ∧ Persistence.leadCap = 200%nat
  ∧ (∀ calls w,
       (50 ≤ length calls)%nat →
       let items := imap (λ i call, historyItemAt env (ticks w + 2 * i) call) calls in
       let w' := (saveSearches env calls w).2 in
       Persistence.storedHistory w' = take 50 (reverse items)
       ∧ length (Persistence.storedHistory w') = 50%nat)
  ∧ (∀ batches w,
       NoDup (profileUrl <$> (concat batches ++ Persistence.storedPersonLeads w)) →
       (200 ≤ length (concat batches))%nat →
       let w' := (savePersonBatches batches w).2 in
       Persistence.storedPersonLeads w' = take 200 (concat (reverse batches))
       ∧ length (Persistence.storedPersonLeads w') = 200%nat)
  ∧ (∀ batches w,
       NoDup (website <$> (concat batches ++ Persistence.storedCompanyLeads w)) →
       (200 ≤ length (concat batches))%nat →
       let w' := (saveCompanyBatches batches w).2 in
       Persistence.storedCompanyLeads w' = take 200 (concat (reverse batches))
       ∧ length (Persistence.storedCompanyLeads w') = 200%nat).
Proof.
  split; [done|]. split; [done|]. split; [|split].
  - intros calls w Hlen items w'.
    assert (Hitems : length items = length calls) by apply length_imap.
    assert (Hstored : Persistence.storedHistory w' = take 50 (reverse items)).
    { unfold w'. rewrite saveSearches_stored. fold items.
      unfold Persistence.pushHistory, Persistence.historyCap.
      rewrite foldl_push_capped.
      - apply take_app_le. rewrite length_reverse. lia.
      - intros ->. simpl in Hitems. lia. }
    split; [exact Hstored|].
    rewrite Hstored, length_take, length_reverse, Hitems. lia.
  - intros batches w Hnd Hlen w'.
    assert (Hstored : Persistence.storedPersonLeads w' = take 200 (concat (reverse batches))).
    { unfold w'. rewrite savePersonBatches_stored, mergeBatches_distinct;
        [|intros ->; simpl in Hlen; lia|done].
      apply take_app_le. rewrite length_concat_reverse. done. }
    split; [exact Hstored|].
    rewrite Hstored, length_take, length_concat_reverse. lia.
  - intros batches w Hnd Hlen w'.
    assert (Hstored : Persistence.storedCompanyLeads w' = take 200 (concat (reverse batches))).
    { unfold w'. rewrite saveCompanyBatches_stored, mergeBatches_distinct;
        [|intros ->; simpl in Hlen; lia|done].
      apply take_app_le. rewrite length_concat_reverse. done. }
    split; [exact Hstored|].
    rewrite Hstored, length_take, length_concat_reverse. lia.
Qed.

Lemma retention_caps_witness :
  length (Persistence.storedHistory
            (saveSearches envDown ((λ i, (people, "query " +:+ pretty i, i)) <$> seq 0 51)
                          emptyWorld).2) = 50%nat
  ∧ Persistence.storedPersonLeads
      (savePersonBatches ((λ i, [samplePerson i]) <$> seq 0 201) emptyWorld).2
    = take 200 (reverse (samplePerson <$> seq 0 201))
  ∧ length (Persistence.storedCompanyLeads
              (saveCompanyBatches ((λ i, [sampleCompany i]) <$> seq 0 201) emptyWorld).2)
    = 200%nat.
Proof.
  destruct (retention_caps envDown) as (_ & _ & Hhistory & Hpeople & Hcompanies).
  split; [|split].
  - apply Hhistory. vm_compute. lia.
  - destruct (Hpeople ((λ i, [samplePerson i]) <$> seq 0 201) emptyWorld) as [Hstored _].
    + refine (bool_decide_unpack _ _). vm_compute. exact I.
    + vm_compute. lia.
    + rewrite Hstored. vm_compute. reflexivity.
  - apply Hcompanies.
    + refine (bool_decide_unpack _ _). vm_compute. exact I.
    + vm_compute. lia.
Defined.

(** ** Leads: the filter against the stored keys *)

Section Dedup.
Context {L : Type} (key : L → option string).
Import Persistence.

(** Across batches the filter works: a batch without repeated keys merged
    into a store without repeated keys leaves no repeated key. *)
Lemma mergeLeads_NoDup (leads existingLeads : list L) :
  NoDup (key <$> leads) → NoDup (key <$> existingLeads) →
  NoDup (key <$> mergeLeads key leads existingLeads).
Proof.
  intros Hleads Hexisting. unfold mergeLeads.
  eapply NoDup_submseteq_inv; [apply fmap_submseteq, submseteq_take|].
  rewrite fmap_app. apply NoDup_app. split; [|split; [|done]].
  - eapply NoDup_submseteq_inv; [|exact Hleads].
    apply fmap_submseteq, sublist_submseteq, sublist_filter.
  - intros k Hk Hin.
    apply list_elem_of_fmap in Hk as (l & -> & Hl).
    apply list_elem_of_filter in Hl as [Hnew _].
    apply Hnew. by rewrite elem_of_list_to_set.
Qed.

(** A batch of leads that are all stored already changes nothing, as long
    as the store is within the cap. *)
Lemma mergeLeads_all_known (leads existingLeads : list L) :
  (∀ l, l ∈ leads → key l ∈ key <$> existingLeads) →
  (length existingLeads ≤ leadCap)%nat →
  mergeLeads key leads existingLeads = existingLeads.
Proof.
  intros Hknown Hcap. unfold mergeLeads.
  assert (Hnone : filter (λ l, key l ∉ (list_to_set (key <$> existingLeads) : gset _)) leads = []).
  { induction leads as [|l leads IH]; [done|].
    rewrite filter_cons_False.
    - apply IH. intros l' Hl'. apply Hknown. by right.
    - rewrite elem_of_list_to_set. intros Hnot. apply Hnot, Hknown. by left. }
  rewrite Hnone. simpl. by apply take_ge.
Qed.

End Dedup.

(** C3: two leads with the same key that arrive in one batch are both
    stored: the filter of [saveLeadsToStorage] compares the incoming leads
    with the stored ones only, never with each other. *)
Theorem saveLeads_keeps_duplicates_of_one_batch :
  profileUrl janeFirst = profileUrl janeAgain
  ∧ Persistence.storedPersonLeads
      (Persistence.savePersonLeadsToStorage [janeFirst; janeAgain] emptyWorld).2
    = [janeFirst; janeAgain]
  ∧ website acmeFirst = website acmeAgain
  ∧ Persistence.storedCompanyLeads
      (Persistence.saveCompanyLeadsToStorage [acmeFirst; acmeAgain] emptyWorld).2
    = [acmeFirst; acmeAgain].
Proof. repeat split; vm_compute; reflexivity. Qed.

(** ** The page body *)

(** C4: the report text reaches the page body as it is: [&] and [<] of the
    report are not escaped (only the lead name goes through [escapeHtml]). *)
Theorem convert_does_not_escape_report :
  ConfluencePages.convertContent attReport = "<p>AT&T grew <10% in Q3</p>"
  ∧ ConfluencePages.escapeHtml attReport = "AT&amp;T grew &lt;10% in Q3"
  ∧ Js.includes "<p>AT&T grew <10% in Q3</p>"
      (ConfluencePages.convertResearchToStorageFormat "1/1/2025" attReport "AT&T" company)
    = true
  ∧ Js.includes "AT&amp;T grew &lt;10% in Q3"
      (ConfluencePages.convertResearchToStorageFormat "1/1/2025" attReport "AT&T" company)
    = false
  ∧ Js.includes "<h1>Research: AT&amp;T</h1>"
      (ConfluencePages.convertResearchToStorageFormat "1/1/2025" attReport "AT&T" company)
    = true.
Proof. repeat split; vm_compute; reflexivity. Qed.

(** ** The consumer *)

Section ConsumerProperties.
Context (env : Env).
Import Consumer.

(** The two writes that end the [try] block. *)
Lemma process_returned payload w page w' :
  process env payload w = (Returned page, w') →
  ∃ completedAt,
    storedJob w' (ev_researchId payload) = Some (completedJob payload page completedAt).
Proof.
  unfold process. intros H.
  apply bind_returned_inv in H as (researchOutput & w1 & _ & H).
  apply bind_returned_inv in H as (targetSpaceKey & w2 & _ & H).
  apply bind_returned_inv in H as (today & w3 & _ & H).
  apply bind_returned_inv in H as ([pageResult|] & w4 & _ & H); [|discriminate].
  apply bind_returned_inv in H as (completedAt & w5 & _ & H).
  apply bind_returned_inv in H as ([] & w6 & _ & H).
  apply bind_returned_inv in H as (completedAt' & w7 & _ & H).
  apply bind_returned_inv in H as ([] & w8 & Hset & H).
  injection H as <- <-. injection Hset as <-.
  exists completedAt'. unfold storedJob. simpl. by rewrite lookup_insert_eq.
Qed.

(** The two writes of the [catch] block. *)
Lemma recordFailure_spec payload error w :
  ∃ w' completedAt,
    recordFailure env payload error w = (Returned (), w')
    ∧ storedJob w' (ev_researchId payload) = Some (failedJob payload error completedAt).
Proof.
  do 2 eexists. split; [reflexivity|].
  unfold storedJob. simpl. rewrite lookup_insert_eq. reflexivity.
Qed.

(** The completion time of the record is the last clock reading. *)
Lemma process_returned_at payload w page w' :
  process env payload w = (Returned page, w') →
  storedJob w' (ev_researchId payload)
  = Some (completedJob payload page (toISOString env (dateNow env (ticks w' - 1)))).
Proof.
  unfold process. intros H.
  apply bind_returned_inv in H as (researchOutput & w1 & _ & H).
  apply bind_returned_inv in H as (targetSpaceKey & w2 & _ & H).
  apply bind_returned_inv in H as (today & w3 & _ & H).
  apply bind_returned_inv in H as ([pageResult|] & w4 & _ & H); [|discriminate].
  apply bind_returned_inv in H as (completedAt & w5 & _ & H).
  apply bind_returned_inv in H as ([] & w6 & _ & H).
  apply bind_returned_inv in H as (completedAt' & w7 & Hnow & H).
  apply bind_returned_inv in H as ([] & w8 & Hset & H).
  injection H as <- <-. injection Hset as <-. injection Hnow as <- <-.
  unfold storedJob. cbn [kvs ticks]. rewrite lookup_insert_eq.
  change (S (ticks w6) - 1)%nat with (ticks w6 - 0)%nat. by rewrite Nat.sub_0_r.
Qed.

Lemma recordFailure_at payload error w :
  let w' := (recordFailure env payload error w).2 in
  (recordFailure env payload error w).1 = Returned ()
  ∧ storedJob w' (ev_researchId payload)
    = Some (failedJob payload error (toISOString env (dateNow env (ticks w' - 1)))).
Proof.
  split; [reflexivity|].
  unfold storedJob. simpl. rewrite lookup_insert_eq. reflexivity.
Qed.

(** [handler] with the completion time spelled out. *)
Lemma handler_spec_at payload w :
  let w' := (handler env payload w).2 in
  (handler env payload w).1 = Returned ()
  ∧ storedJob w' (ev_researchId payload)
    = Some (match (process env payload w).1 with
            | Returned page =>
                completedJob payload page (toISOString env (dateNow env (ticks w' - 1)))
            | Thrown error =>
                failedJob payload error (toISOString env (dateNow env (ticks w' - 1)))
            end).
Proof.
  unfold handler, try_catch.
  destruct (process env payload w) as [[page|error] w1] eqn:Hprocess.
  - erewrite bind_returned by exact Hprocess. simpl.
    split; [reflexivity|]. by apply process_returned_at in Hprocess.
  - erewrite bind_thrown by exact Hprocess. apply recordFailure_at.
Qed.

(** [handler] never throws, and the job record it leaves tells how the
    [try] block ended. *)
Lemma handler_spec payload w :
  ∃ w', handler env payload w = (Returned (), w')
    ∧ match (process env payload w).1 with
      | Returned page =>
          ∃ completedAt, storedJob w' (ev_researchId payload)
                         = Some (completedJob payload page completedAt)
      | Thrown error =>
          ∃ completedAt, storedJob w' (ev_researchId payload)
                         = Some (failedJob payload error completedAt)
      end.
Proof.
  unfold handler, try_catch.
  destruct (process env payload w) as [[page|error] w1] eqn:Hprocess.
  - erewrite bind_returned by exact Hprocess.
    eexists. split; [reflexivity|]. simpl.
    by apply process_returned in Hprocess.
  - erewrite bind_thrown by exact Hprocess.
    destruct (recordFailure_spec payload error w1) as (w' & completedAt & Hrun & Hjob).
    exists w'. split; [exact Hrun|]. simpl. by exists completedAt.
Qed.

(** A throw of the research ends the [try] block. *)
Lemma process_research_throws payload w error w1 :
  ExaClient.deepResearch env (ev_query payload) (ev_entityType payload) w = (Thrown error, w1) →
  process env payload w = (Thrown error, w1).
Proof. intros H. unfold process. by erewrite bind_thrown. Qed.

(** So does a space lookup that finds no space. *)
Lemma process_no_space payload w researchOutput w1 error w2 :
  ExaClient.deepResearch env (ev_query payload) (ev_entityType payload) w
    = (Returned researchOutput, w1) →
  targetSpace env (ev_spaceKey payload) w1 = (Thrown error, w2) →
  process env payload w = (Thrown error, w2).
Proof.
  intros H1 H2. unfold process.
  erewrite bind_returned by exact H1. by erewrite bind_thrown.
Qed.

Lemma targetSpace_none w :
  confluenceSpaces env ConfluenceAsApp "/wiki/api/v2/spaces?limit=25&sort=name"
    = HttpOk {| spaces_results := Some []; spaces_base := None |} →
  (targetSpace env None w).1
  = Thrown (JsError "No Confluence spaces available. Please create a space first.").
Proof.
  intros H. unfold targetSpace, ConfluencePages.getDefaultSpaceKeyAsApp,
    ConfluencePages.getSpacesAsApp, ConfluencePages.getSpacesAs.
  simpl. unfold mbind, M_bind. simpl. rewrite H. simpl. rewrite ?H. reflexivity.
Qed.

(** And so does a page that could not be created. *)
Lemma process_no_page payload w researchOutput w1 targetSpaceKey w2 w3 :
  ExaClient.deepResearch env (ev_query payload) (ev_entityType payload) w
    = (Returned researchOutput, w1) →
  targetSpace env (ev_spaceKey payload) w1 = (Returned targetSpaceKey, w2) →
  ConfluencePages.createPageAsApp env
    {| ConfluencePages.opt_spaceKey := targetSpaceKey;
       ConfluencePages.opt_title := "Research: " +:+ ev_query payload;
       ConfluencePages.opt_body :=
         ConfluencePages.convertResearchToStorageFormat
           (toLocaleDateString env (dateNow env (ticks w2)))
           researchOutput (ev_query payload) (ev_entityType payload);
       ConfluencePages.opt_format := "storage" |}
    (ConfluencePages.newDate env w2).2 = (Returned None, w3) →
  process env payload w = (Thrown (JsError "Failed to create Confluence page"), w3).
Proof.
  intros H1 H2 H3. unfold process.
  erewrite bind_returned by exact H1.
  erewrite bind_returned by exact H2.
  erewrite bind_returned by reflexivity.
  erewrite bind_returned by exact H3.
  reflexivity.
Qed.

(** When the research, the space lookup and the page creation succeed, the
    [try] block runs to its end. *)
Lemma process_succeeds payload w researchOutput w1 targetSpaceKey w2 page w3 :
  ExaClient.deepResearch env (ev_query payload) (ev_entityType payload) w
    = (Returned researchOutput, w1) →
  targetSpace env (ev_spaceKey payload) w1 = (Returned targetSpaceKey, w2) →
  ConfluencePages.createPageAsApp env
    {| ConfluencePages.opt_spaceKey := targetSpaceKey;
       ConfluencePages.opt_title := "Research: " +:+ ev_query payload;
       ConfluencePages.opt_body :=
         ConfluencePages.convertResearchToStorageFormat
           (toLocaleDateString env (dateNow env (ticks w2)))
           researchOutput (ev_query payload) (ev_entityType payload);
       ConfluencePages.opt_format := "storage" |}
    (ConfluencePages.newDate env w2).2 = (Returned (Some page), w3) →
  (process env payload w).1 = Returned page.
Proof.
  intros H1 H2 H3. unfold process.
  erewrite bind_returned by exact H1.
  erewrite bind_returned by exact H2.
  erewrite bind_returned by reflexivity.
  erewrite bind_returned by exact H3.
  reflexivity.
Qed.

End ConsumerProperties.

(** C8: the handler catches whatever the research, the space lookup or the
    page creation throws: it returns normally and leaves a job record with
    status failed, the message of the exception and a completion time; when
    every step succeeds it leaves a record with status completed, the URL
    and title of the page and a completion time. The records are spelled
    out field by field: after an [Error] with message [m] the stored error
    is [m] itself, after any other thrown value it is [Unknown error], and
    the completion time is the last reading of the clock. *)
Theorem handler_catches_and_records env payload w :
  ∃ w',
    Consumer.handler env payload w = (Returned (), w')
    ∧ (∀ page, (Consumer.process env payload w).1 = Returned page →
         ∃ completedAt,
           Consumer.storedJob w' (ev_researchId payload)
           = Some (completedJob payload page completedAt))
    ∧ (∀ error, (Consumer.process env payload w).1 = Thrown error →
         ∃ completedAt,
           Consumer.storedJob w' (ev_researchId payload)
           = Some (failedJob payload error completedAt))
    ∧ (∀ error w1,
         ExaClient.deepResearch env (ev_query payload) (ev_entityType payload) w
           = (Thrown error, w1) →
         (Consumer.process env payload w).1 = Thrown error)
    ∧ (∀ researchOutput w1 error w2,
         ExaClient.deepResearch env (ev_query payload) (ev_entityType payload) w
           = (Returned researchOutput, w1) →
         Consumer.targetSpace env (ev_spaceKey payload) w1 = (Thrown error, w2) →
         (Consumer.process env payload w).1 = Thrown error)
    ∧ (∀ researchOutput w1 targetSpaceKey w2 w3,
         ExaClient.deepResearch env (ev_query payload) (ev_entityType payload) w
           = (Returned researchOutput, w1) →
         Consumer.targetSpace env (ev_spaceKey payload) w1 = (Returned targetSpaceKey, w2) →
         ConfluencePages.createPageAsApp env
           {| ConfluencePages.opt_spaceKey := targetSpaceKey;
              ConfluencePages.opt_title := "Research: " +:+ ev_query payload;
              ConfluencePages.opt_body :=
                ConfluencePages.convertResearchToStorageFormat
                  (toLocaleDateString env (dateNow env (ticks w2)))
                  researchOutput (ev_query payload) (ev_entityType payload);
              ConfluencePages.opt_format := "storage" |}
           (ConfluencePages.newDate env w2).2 = (Returned None, w3) →
         (Consumer.process env payload w).1
         = Thrown (JsError "Failed to create Confluence page"))
    ∧ (∀ researchOutput w1 targetSpaceKey w2 page w3,
         ExaClient.deepResearch env (ev_query payload) (ev_entityType payload) w
           = (Returned researchOutput, w1) →
         Consumer.targetSpace env (ev_spaceKey payload) w1 = (Returned targetSpaceKey, w2) →
         ConfluencePages.createPageAsApp env
           {| ConfluencePages.opt_spaceKey := targetSpaceKey;
              ConfluencePages.opt_title := "Research: " +:+ ev_query payload;
              ConfluencePages.opt_body :=
                ConfluencePages.convertResearchToStorageFormat
                  (toLocaleDateString env (dateNow env (ticks w2)))
                  researchOutput (ev_query payload) (ev_entityType payload);
              ConfluencePages.opt_format := "storage" |}
           (ConfluencePages.newDate env w2).2 = (Returned (Some page), w3) →
         (Consumer.process env payload w).1 = Returned page)
    ∧ (∀ message, (Consumer.process env payload w).1 = Thrown (JsError message) →
         Consumer.storedJob w' (ev_researchId payload)
         = Some {| job_query := ev_query payload; job_entityType := ev_entityType payload;
                   job_userId := ev_userId payload; job_cloudId := ev_cloudId payload;
                   job_jobId := None; job_status := js_failed; job_createdAt := None;
                   job_pageUrl := None; job_pageTitle := None;
                   job_error := Some message;
                   job_completedAt :=
                     Some (toISOString env (dateNow env (ticks w' - 1))) |})
    ∧ ((Consumer.process env payload w).1 = Thrown JsOther →
         Consumer.storedJob w' (ev_researchId payload)
         = Some {| job_query := ev_query payload; job_entityType := ev_entityType payload;
                   job_userId := ev_userId payload; job_cloudId := ev_cloudId payload;
                   job_jobId := None; job_status := js_failed; job_createdAt := None;
                   job_pageUrl := None; job_pageTitle := None;
                   job_error := Some "Unknown error";
                   job_completedAt :=
                     Some (toISOString env (dateNow env (ticks w' - 1))) |})
    ∧ (∀ page, (Consumer.process env payload w).1 = Returned page →
         Consumer.storedJob w' (ev_researchId payload)
         = Some {| job_query := ev_query payload; job_entityType := ev_entityType payload;
                   job_userId := ev_userId payload; job_cloudId := ev_cloudId payload;
                   job_jobId := None; job_status := js_completed; job_createdAt := None;
                   job_pageUrl := Some (pageUrl page); job_pageTitle := Some (title page);
                   job_error := None;
                   job_completedAt :=
                     Some (toISOString env (dateNow env (ticks w' - 1))) |}).
Proof.
  destruct (handler_spec env payload w) as (w' & Hrun & Hjob).
  pose proof (handler_spec_at env payload w) as [_ Hat]. rewrite Hrun in Hat. simpl in Hat.
  exists w'. split; [exact Hrun|]. repeat split.
  - intros page Hpage. by rewrite Hpage in Hjob.
  - intros error Herror. by rewrite Herror in Hjob.
  - intros error w1 H. by erewrite process_research_throws.
  - intros researchOutput w1 error w2 H1 H2. by erewrite process_no_space.
  - intros researchOutput w1 targetSpaceKey w2 w3 H1 H2 H3. by erewrite process_no_page.
  - intros researchOutput w1 targetSpaceKey w2 page w3 H1 H2 H3.
    by eapply process_succeeds.
  - intros message Hthrown. by rewrite Hthrown in Hat.
  - intros Hthrown. by rewrite Hthrown in Hat.
  - intros page Hpage. by rewrite Hpage in Hat.
Qed.

Lemma handler_catches_and_records_witness :
  ((Consumer.handler envDown delivery emptyWorld).1 = Returned ()
   ∧ (∃ completedAt,
       Consumer.storedJob (Consumer.handler envDown delivery emptyWorld).2
                          (ev_researchId delivery)
       = Some (failedJob delivery noApiKey completedAt))
   ∧ job_error <$> Consumer.storedJob (Consumer.handler envDown delivery emptyWorld).2
                                      (ev_researchId delivery)
     = Some (Some "Exa API key not configured. Please set the exaApiKey variable using `forge variables set exaApiKey <your-key>`"))
  ∧ ∃ completedAt,
      Consumer.storedJob afterFirstDelivery (ev_researchId delivery)
      = Some (completedJob delivery
                {| pageId := "98765"; pageUrl := "/spaces/SALES/pages/98765";
                   title := "Research: Acme Corp" |} completedAt).
Proof.
  split.
  - destruct (handler_catches_and_records envDown delivery emptyWorld)
      as (w' & Hrun & _ & Hfailed & Hresearch & _ & _ & _ & Hmessage & _).
    rewrite Hrun. split; [reflexivity|]. split.
    + apply Hfailed. eapply Hresearch.
      vm_compute. reflexivity.
    + cbn [snd]. erewrite Hmessage; [reflexivity|].
      eapply Hresearch. vm_compute. reflexivity.
  - destruct (handler_catches_and_records (envUp [acmeAnswer]) delivery emptyWorld)
      as (w' & Hrun & Hcompleted & _ & _ & _ & _ & Hsteps & _).
    unfold afterFirstDelivery. rewrite Hrun.
    apply Hcompleted.
    eapply (Hsteps _ (ExaClient.deepResearch (envUp [acmeAnswer]) "Acme Corp" company
                        emptyWorld).2 "SALES"
                   (Consumer.targetSpace (envUp [acmeAnswer]) None
                      (ExaClient.deepResearch (envUp [acmeAnswer]) "Acme Corp" company
                         emptyWorld).2).2);
      vm_compute; reflexivity.
Defined.

(** The handler writes without reading: a job stored as completed becomes
    failed when the message comes again and the research cannot be done. *)
Lemma redelivery_overwrites_completed :
  job_status <$> Consumer.storedJob afterFirstDelivery (ev_researchId delivery)
    = Some js_completed
  ∧ job_status <$> Consumer.storedJob afterRedelivery (ev_researchId delivery)
    = Some js_failed.
Proof. split; vm_compute; reflexivity. Qed.

(** ** The dispatch action *)

Lemma pretty_N_go_digits (x : N) (s : string) :
  allDigits s = true → allDigits (pretty_N_go x s) = true.
Proof.
  revert s. induction (N.lt_wf_0 x) as [x _ IH]; intros s Hs.
  destruct (decide (x = 0)%N) as [->|Hx]; [by rewrite pretty_N_go_0|].
  rewrite pretty_N_go_step by lia.
  apply IH; [apply N.div_lt; lia|].
  simpl. rewrite Hs, andb_true_r.
  unfold pretty_N_char. by repeat case_match.
Qed.

Lemma pretty_N_digits (x : N) : allDigits (pretty x) = true.
Proof.
  unfold pretty, pretty_N. case_decide; [done|]. by apply pretty_N_go_digits.
Qed.

(** A run of digits followed by a dash can be read back in one way only. *)
Lemma digits_dash_inj (a b s t : string) :
  allDigits a = true → allDigits b = true →
  a +:+ "-" +:+ s = b +:+ "-" +:+ t → a = b ∧ s = t.
Proof.
  revert b. induction a as [|c a IH]; intros [|d b] Ha Hb H.
  - by injection H.
  - rewrite string_app_cons in H. injection H as <- _. simpl in Hb. done.
  - rewrite string_app_cons in H. injection H as -> _. simpl in Ha. done.
  - rewrite !string_app_cons in H. injection H as -> H.
    simpl in Ha, Hb. apply andb_true_iff in Ha as [_ Ha], Hb as [_ Hb].
    destruct (IH b Ha Hb H) as [-> ->]. done.
Qed.

Lemma makeResearchId_inj now suffix now' suffix' :
  DeepResearchQueueAction.makeResearchId now suffix
  = DeepResearchQueueAction.makeResearchId now' suffix' →
  now = now' ∧ suffix = suffix'.
Proof.
  unfold DeepResearchQueueAction.makeResearchId. intros H.
  apply (inj (String.app "research-")) in H.
  apply digits_dash_inj in H as [Hnow ->]; [|apply pretty_N_digits..].
  split; [|done]. by apply (inj pretty).
Qed.

Lemma dispatch_effect env payload query entityType w :
  p_query payload = Some query →
  truthy (Js.trim query) = true →
  parseEntityType (p_entityType payload) = Some entityType →
  let cloudId := orElse (p_cloudId payload) "unknown" in
  let researchId :=
    DeepResearchQueueAction.makeResearchId (dateNow env (ticks w))
                                           (randomBase36 env (S (ticks w))) in
  let message :=
    {| ev_query := query; ev_entityType := entityType;
       ev_userId := cloudId; ev_cloudId := cloudId;
       ev_spaceKey := DeepResearchQueueAction.configuredSpace w;
       ev_researchId := researchId |} in
  let w' := (DeepResearchQueueAction.deepResearch env payload w).2 in
  queue w' = queue w ++ [message]
  ∧ kvs w' = <[Consumer.jobKey researchId :=
                 VJob (queuedJob query entityType cloudId (queuePush env message)
                         (toISOString env (dateNow env (S (S (ticks w))))))]> (kvs w).
Proof.
  intros Hquery Hvalid Htype cloudId researchId message w'. subst w'.
  unfold DeepResearchQueueAction.deepResearch.
  assert (Hq : orElse (Some query) "" = query) by by destruct query.
  rewrite Hquery, Hq, Hvalid, Htype. simpl negb. cbv iota.
  unfold message, researchId, cloudId, DeepResearchQueueAction.configuredSpace, try_catch.
  split; simpl; destruct (kvs w !! "tofu-config") as [[]|]; reflexivity.
Qed.

(** A query of blanks passes for non-empty, yet nothing is queued for it.
    And nothing but the clock and the random draw tells two identifiers
    apart: two dispatches that read the same millisecond and draw the same
    suffix put two messages with one identifier on the queue, and the job
    record of the first is overwritten by that of the second. *)
Lemma blank_query_rejected_and_identifier_repeated :
  (p_query blankPayload = Some " "
   ∧ truthy " " = true
   ∧ parseEntityType (p_entityType blankPayload) = Some person
   ∧ DeepResearchQueueAction.deepResearch (envUp []) blankPayload emptyWorld
     = (Returned DeepResearchAction.provideName, emptyWorld))
  ∧ (ev_researchId <$> queue afterTwoDispatches
     = ["research-1700000000000-k3j9x0a2b"; "research-1700000000000-k3j9x0a2b"]
     ∧ ev_query <$> queue afterTwoDispatches = ["Acme Corp"; "Jane Doe"]
     ∧ job_query <$> Consumer.storedJob afterTwoDispatches "research-1700000000000-k3j9x0a2b"
       = Some "Jane Doe"
     ∧ size (kvs afterTwoDispatches) = 1%nat).
Proof.
  split; [repeat split|].
  split; [vm_compute; reflexivity|]. split; [vm_compute; reflexivity|].
  split; [vm_compute; reflexivity|].
  unfold afterTwoDispatches.
  destruct (dispatch_effect envFrozen acmePayload "Acme Corp" company emptyWorld)
    as [_ Hfirst]; [reflexivity..|].
  destruct (dispatch_effect envFrozen janePayload "Jane Doe" person
              (DeepResearchQueueAction.deepResearch envFrozen acmePayload emptyWorld).2)
    as [_ Hsecond]; [reflexivity..|].
  rewrite Hsecond, Hfirst.
  change (ticks (DeepResearchQueueAction.deepResearch envFrozen acmePayload emptyWorld).2)
    with 3%nat.
  cbn [dateNow randomBase36 envFrozen ticks emptyWorld kvs].
  rewrite insert_insert_eq, insert_empty. apply map_size_singleton.
Qed.

(** C9, as the code has it: for a payload whose query is not blank and
    whose entity type is person or company, the dispatch action builds the
    identifier research-<clock>-<random suffix>, pushes one message with
    query, entity type, user, site, configured space and identifier, and
    writes under research-job-<identifier> a record with status queued, the
    same query and entity type and the creation time. It sends no request
    and sleeps for nothing: the research is left to the consumer. The
    identifier is that of the message queued last; any other dispatch, from
    any state, queues this very identifier exactly when it reads the same
    clock value and draws the same suffix, and a record already stored under
    the identifier is replaced. *)
Theorem dispatch_queues_job env payload query entityType w :
  p_query payload = Some query →
  truthy (Js.trim query) = true →
  parseEntityType (p_entityType payload) = Some entityType →
  let cloudId := orElse (p_cloudId payload) "unknown" in
  let researchId :=
    DeepResearchQueueAction.makeResearchId (dateNow env (ticks w))
                                           (randomBase36 env (S (ticks w))) in
  let message :=
    {| ev_query := query; ev_entityType := entityType;
       ev_userId := cloudId; ev_cloudId := cloudId;
       ev_spaceKey := DeepResearchQueueAction.configuredSpace w;
       ev_researchId := researchId |} in
  ∃ w' text,
    DeepResearchQueueAction.deepResearch env payload w = (Returned text, w')
    ∧ queue w' = queue w ++ [message]
    ∧ kvs w' = <[Consumer.jobKey researchId :=
                   VJob (queuedJob query entityType cloudId (queuePush env message)
                           (toISOString env (dateNow env (S (S (ticks w))))))]> (kvs w)
    ∧ trace w' = trace w
    ∧ (∀ now' suffix',
         DeepResearchQueueAction.makeResearchId now' suffix' = researchId →
         now' = dateNow env (ticks w) ∧ suffix' = randomBase36 env (S (ticks w)))
    ∧ lastResearchId w' = Some researchId
    ∧ (∀ payload2 query2 entityType2 w0,
         p_query payload2 = Some query2 →
         truthy (Js.trim query2) = true →
         parseEntityType (p_entityType payload2) = Some entityType2 →
         lastResearchId (DeepResearchQueueAction.deepResearch env payload2 w0).2
           = Some researchId
         ↔ dateNow env (ticks w0) = dateNow env (ticks w)
           ∧ randomBase36 env (S (ticks w0)) = randomBase36 env (S (ticks w))).
Proof.
  intros Hquery Hvalid Htype cloudId researchId message.
  assert (Hlast : ∀ payload2 query2 entityType2 w0,
            p_query payload2 = Some query2 →
            truthy (Js.trim query2) = true →
            parseEntityType (p_entityType payload2) = Some entityType2 →
            lastResearchId (DeepResearchQueueAction.deepResearch env payload2 w0).2
            = Some (DeepResearchQueueAction.makeResearchId
                      (dateNow env (ticks w0)) (randomBase36 env (S (ticks w0))))).
  { intros payload2 query2 entityType2 w0 H1 H2 H3.
    destruct (dispatch_effect env payload2 query2 entityType2 w0 H1 H2 H3) as [Hqueue _].
    unfold lastResearchId. by rewrite Hqueue, last_snoc. }
  unfold DeepResearchQueueAction.deepResearch at 1.
  assert (Hq : orElse (Some query) "" = query) by by destruct query.
  rewrite Hquery, Hq, Hvalid, Htype. simpl negb. cbv iota.
  do 2 eexists. split; [|split; [|split; [|split; [|split; [|split]]]]].
  - unfold try_catch. reflexivity.
  - simpl. unfold message, researchId, cloudId, DeepResearchQueueAction.configuredSpace.
    destruct (kvs w !! "tofu-config") as [[]|]; reflexivity.
  - simpl. unfold message, researchId, cloudId, DeepResearchQueueAction.configuredSpace.
    destruct (kvs w !! "tofu-config") as [[]|]; reflexivity.
  - simpl. destruct (kvs w !! "tofu-config") as [[]|]; reflexivity.
  - intros now' suffix' H. by apply makeResearchId_inj in H.
  - unfold lastResearchId. simpl. by rewrite last_snoc.
  - intros payload2 query2 entityType2 w0 H1 H2 H3.
    rewrite (Hlast payload2 query2 entityType2 w0 H1 H2 H3). split.
    + intros H. apply (inj Some) in H. by apply makeResearchId_inj in H.
    + intros [-> ->]. reflexivity.
Qed.

Lemma dispatch_queues_job_witness :
  ∃ w', (DeepResearchQueueAction.deepResearch (envUp []) acmePayload emptyWorld).2 = w'
        ∧ queue w' = [delivery]
        ∧ job_status <$> Consumer.storedJob w' (ev_researchId delivery) = Some js_queued
        ∧ trace w' = []
        ∧ lastResearchId w' = Some "research-1700000000000-k3j9x0a2b".
Proof.
  destruct (dispatch_queues_job (envUp []) acmePayload "Acme Corp" company emptyWorld)
    as (w' & text & Hrun & Hqueue & Hkvs & Htrace & _ & Hlast & _); try reflexivity.
  exists w'. rewrite Hrun. split; [reflexivity|].
  split; [exact Hqueue|]. split; [|split; [exact Htrace|exact Hlast]].
  unfold Consumer.storedJob. rewrite Hkvs. vm_compute. reflexivity.
Defined.

(** ** The sentinel test of the callers *)

Section SentinelTest.
Context (env : Env).

(** Whatever report the client returns, the action keeps it only if it does
    not contain the phrase. *)
Lemma action_discards_report_with_phrase payload query entityType w report w1 :
  p_query payload = Some query →
  truthy (Js.trim query) = true →
  parseEntityType (p_entityType payload) = Some entityType →
  ExaClient.deepResearch env query entityType w = (Returned report, w1) →
  Js.includes "No detailed information found" report = true →
  DeepResearchAction.deepResearch env payload w
  = (Returned (DeepResearchAction.notFound entityType), w1).
Proof.
  intros Hquery Hvalid Htype Hresearch Hphrase.
  assert (Hq : orElse (Some query) "" = query) by by destruct query.
  unfold DeepResearchAction.deepResearch.
  rewrite Hquery, Hq, Hvalid, Htype. change (negb true) with false.
  unfold try_catch. cbv beta iota. erewrite bind_returned by exact Hresearch.
  rewrite Hphrase, orb_true_r. reflexivity.
Qed.

End SentinelTest.

(** C10: there is a run in which the research itself succeeds (the task
    completes, no fallback is taken) with a report that quotes the phrase
    "No detailed information found"; the deep-research action answers with
    its "couldn't find detailed information" suggestions instead of the
    report, and the issue resolver answers with a failure. *)
Theorem sentinel_phrase_discards_genuine_report :
  ∃ report w1,
    ExaClient.research (envUp [quotingAnswer]) "Acme Corp" company emptyWorld
      = (Returned report, w1)
    ∧ gr_output quotingAnswer = Some report
    ∧ Js.includes "No detailed information found" report = true
    ∧ (DeepResearchAction.deepResearch (envUp [quotingAnswer]) acmePayload emptyWorld).1
      = Returned (DeepResearchAction.notFound company)
    ∧ (IssueDeepResearch.performDeepResearch (envUp [quotingAnswer]) (Some "LEAD-7")
                                             emptyWorld).1
      = Returned (IssueDeepResearch.failure
                    ("Could not find detailed information about " +:+ Js.dq +:+ "Acme Corp"
                     +:+ Js.dq +:+ ". The research may require more specific details.")).
Proof.
  do 2 eexists. split; [vm_compute; reflexivity|].
  repeat split; vm_compute; reflexivity.
Qed.

(* ===================================================================== *)
(** * Further properties of the Exa client *)
(* ===================================================================== *)

Section ClientFurther.
Context (env : Env).
Import ExaClient.

(** With an API key, an attempt sleeps, sends its poll and ends as the
    answer says. *)
Lemma attempt_run rid d w :
  truthyOpt (exaApiKey env) = true →
  (sleep d;; makeExaGetRequest env (pollPath rid) (λ n, exaGet env n rid)) w
  = (match exaGet env (pollCount (trace w)) rid with
     | HttpOk r => Returned r
     | HttpNotOk status text =>
         Thrown (JsError ("Exa API error: " +:+ pretty status +:+ " - " +:+ text))
     | HttpReject e => Thrown e
     end,
     logged [EvRequest Exa "GET" (pollPath rid); EvSleep d] w).
Proof.
  intros Hkey. unfold sleep, makeExaGetRequest.
  erewrite bind_returned by reflexivity.
  erewrite bind_returned by by apply getApiKey_ok.
  erewrite bind_returned by reflexivity.
  erewrite bind_returned by reflexivity.
  simpl. change (pollCount (EvSleep d :: trace w)) with (pollCount (trace w)).
  destruct (exaGet env (pollCount (trace w)) rid); reflexivity.
Qed.

Lemma pollLoop_decided rid k d w outcome_ :
  truthyOpt (exaApiKey env) = true →
  decides (exaGet env (pollCount (trace w)) rid) = Some outcome_ →
  pollLoop env rid (S k) d w
  = (outcome_, logged [EvRequest Exa "GET" (pollPath rid); EvSleep d] w).
Proof.
  intros Hkey Hdec. pose proof (attempt_run rid d w Hkey) as Hrun.
  simpl pollLoop. fold (pollPath rid). unfold mbind, M_bind in Hrun |- *.
  change (sleep d w) with (Returned (), logged [EvSleep d] w) in Hrun |- *.
  cbv beta iota in Hrun |- *. rewrite Hrun.
  destruct (exaGet env (pollCount (trace w)) rid) as [r|status text|e]; simpl in Hdec.
  - unfold terminalOutcome in Hdec.
    destruct (gr_status r); simpl in Hdec; try discriminate; by injection Hdec as <-.
  - by injection Hdec as <-.
  - by injection Hdec as <-.
Qed.

(** X1: the first answer that decides ends the loop: when the answers to the
    first [k] polls say pending or running and the next one decides, the
    loop makes exactly [k + 1] polls, sleeps [k + 1] times and ends as that
    answer says. A failed poll is not tried again. *)
Theorem pollLoop_first_decisive_answer rid k budget d w outcome_ :
  truthyOpt (exaApiKey env) = true →
  (k < budget)%nat →
  (∀ i, (i < k)%nat → decides (exaGet env (pollCount (trace w) + i) rid) = None) →
  decides (exaGet env (pollCount (trace w) + k) rid) = Some outcome_ →
  ∃ es, pollLoop env rid budget d w = (outcome_, logged es w)
        ∧ pollCount es = S k
        ∧ sleeps es = backoff d (S k).
Proof.
  intros Hkey. revert budget d w.
  induction k as [|k IH]; intros budget d w Hlt Hrun Hdec.
  - destruct budget as [|budget]; [lia|]. rewrite Nat.add_0_r in Hdec.
    eexists. split; [by apply pollLoop_decided|]. split; reflexivity.
  - destruct budget as [|budget]; [lia|].
    pose proof (Hrun 0%nat ltac:(lia)) as H0. rewrite Nat.add_0_r in H0.
    destruct (exaGet env (pollCount (trace w)) rid) as [r|status text|e] eqn:Hget;
      simpl in H0; try discriminate.
    destruct (keepsPolling (gr_status r)) eqn:Hst; [|discriminate].
    rewrite (pollLoop_continue env rid budget d r w Hkey Hget Hst).
    set (w1 := logged [EvRequest Exa "GET" (pollPath rid); EvSleep d] w).
    assert (Hcount : pollCount (trace w1) = S (pollCount (trace w))) by reflexivity.
    destruct (IH budget (Qmin (d * 1.5) maxDelay) w1) as (es & Hloop & Hpolls & Hsleeps).
    + lia.
    + intros i Hi. rewrite Hcount. replace (S (pollCount (trace w)) + i)%nat
        with (pollCount (trace w) + S i)%nat by lia. apply Hrun. lia.
    + rewrite Hcount. replace (S (pollCount (trace w)) + k)%nat
        with (pollCount (trace w) + S k)%nat by lia. exact Hdec.
    + exists (es ++ [EvRequest Exa "GET" (pollPath rid); EvSleep d]).
      rewrite Hloop. unfold w1. rewrite logged_logged. split; [done|]. split.
      * rewrite pollCount_app, Hpolls. unfold pollCount. simpl. lia.
      * change (es ++ [EvRequest Exa "GET" (pollPath rid); EvSleep d])
          with (es ++ [EvRequest Exa "GET" (pollPath rid)] ++ [EvSleep d]).
        rewrite app_assoc, sleeps_snoc_sleep, sleeps_snoc_request, Hsleeps. done.
Qed.

End ClientFurther.

Lemma pollLoop_first_decisive_answer_witness :
  (ExaClient.pollLoop (envExa [running; failedAnswer]) "r1" ExaClient.maxAttempts
                      ExaClient.initialDelay emptyWorld).1
  = Thrown (JsError "Research failed: quota exceeded").
Proof.
  destruct (pollLoop_first_decisive_answer (envExa [running; failedAnswer]) "r1" 1
              ExaClient.maxAttempts ExaClient.initialDelay emptyWorld
              (Thrown (JsError "Research failed: quota exceeded")))
    as (es & Hrun & _).
  - reflexivity.
  - unfold ExaClient.maxAttempts. lia.
  - intros i Hi. assert (i = 0%nat) as -> by lia. reflexivity.
  - reflexivity.
  - rewrite Hrun. reflexivity.
Defined.

Lemma sleeps_app es1 es2 : sleeps (es1 ++ es2) = sleeps es2 ++ sleeps es1.
Proof. unfold sleeps. by rewrite reverse_app, omap_app. Qed.

Lemma requestCount_app t1 t2 : requestCount (t1 ++ t2) = (requestCount t1 + requestCount t2)%nat.
Proof. unfold requestCount. by rewrite List.filter_app, length_app. Qed.

Section Footprint.
Context (env : Env).
Import ExaClient.
Local Open Scope Q_scope.

Lemma backoff_nonneg d n : 0 <= d → 0 <= totalDelay (backoff d n).
Proof.
  revert d. induction n as [|n IH]; intros d Hd; simpl; [lra|].
  assert (0 <= Qmin (d * 1.5) maxDelay).
  { unfold maxDelay. destruct (Q.min_spec (d * 1.5) 30000) as [[? ->]|[? ->]]; lra. }
  specialize (IH _ H). unfold totalDelay in *. simpl. lra.
Qed.

Lemma backoff_prefix_le d j m :
  0 <= d → totalDelay (backoff d j) <= totalDelay (backoff d (j + m)).
Proof.
  revert d. induction j as [|j IH]; intros d Hd.
  - simpl. by apply backoff_nonneg.
  - assert (0 <= Qmin (d * 1.5) maxDelay).
    { unfold maxDelay. destruct (Q.min_spec (d * 1.5) 30000) as [[? ->]|[? ->]]; lra. }
    specialize (IH _ H). unfold totalDelay in *. simpl. lra.
Qed.

(** The events of a poll loop are sleeps and polls, at most [k] of each. *)
Lemma pollLoop_events rid k d w :
  ∃ es j, (pollLoop env rid k d w).2 = logged es w
          ∧ (pollCount es ≤ k)%nat ∧ requestCount es = pollCount es
          ∧ (j ≤ k)%nat ∧ sleeps es = backoff d j.
Proof.
  revert d w. induction k as [|k IH]; intros d w.
  - exists [], 0%nat. simpl. by rewrite logged_nil.
  - simpl pollLoop. fold (pollPath rid).
    destruct (attempt_cases env rid d w) as [[e Hstep]|[o Hstep]]; simpl in Hstep.
    all: unfold mbind, M_bind in Hstep |- *.
    all: change (sleep d w) with (Returned (), logged [EvSleep d] w) in Hstep |- *.
    all: cbv beta iota in Hstep |- *; rewrite Hstep.
    { exists [EvSleep d], 1%nat. repeat split; try done; unfold pollCount; simpl; lia. }
    set (w1 := logged [EvRequest Exa "GET" (pollPath rid); EvSleep d] w).
    assert (Hstop : ∃ es j, w1 = logged es w ∧ (pollCount es ≤ S k)%nat
                            ∧ requestCount es = pollCount es
                            ∧ (j ≤ S k)%nat ∧ sleeps es = backoff d j).
    { exists [EvRequest Exa "GET" (pollPath rid); EvSleep d], 1%nat.
      repeat split; try done; unfold pollCount; simpl; lia. }
    destruct o as [r|e]; [|exact Hstop].
    destruct (IH (Qmin (d * 1.5) maxDelay) w1) as (es & j & Hw & Hp & Hr & Hj & Hs).
    destruct (gr_status r); simpl; try exact Hstop.
    all: exists (es ++ [EvRequest Exa "GET" (pollPath rid); EvSleep d]), (S j);
      rewrite Hw; unfold w1; rewrite logged_logged; repeat split.
    all: try (rewrite pollCount_app; unfold pollCount at 2; simpl; lia).
    all: try (rewrite requestCount_app, pollCount_app, Hr; reflexivity).
    all: try lia.
    all: change (es ++ [EvRequest Exa "GET" (pollPath rid); EvSleep d])
           with (es ++ [EvRequest Exa "GET" (pollPath rid)] ++ [EvSleep d]).
    all: rewrite app_assoc, sleeps_snoc_sleep, sleeps_snoc_request, Hs; done.
Qed.

(** A request to Exa leaves at most its own event. *)
Lemma makeExaRequest_events {J} endpoint (response : http J) w :
  ∃ es, (makeExaRequest env endpoint response w).2 = logged es w
        ∧ (es = [] ∨ es = [EvRequest Exa "POST" endpoint])
        ∧ ((makeExaRequest env endpoint response w).1 = Thrown noApiKey ∨ es ≠ []).
Proof.
  unfold makeExaRequest, getApiKey, mbind, M_bind.
  destruct (truthyOpt (exaApiKey env)); simpl.
  - exists [EvRequest Exa "POST" endpoint].
    destruct response; simpl; split; try done; split; auto.
  - exists []. rewrite logged_nil. split; [done|]. split; auto.
Qed.

Lemma deepResearch_events query entityType w :
  ∃ es, (deepResearch env query entityType w).2 = logged es w
        ∧ (pollCount es ≤ 30)%nat
        ∧ (requestCount es ≤ 32)%nat
        ∧ totalDelay (sleeps es) <= 754343.75.
Proof.
  assert (Hbound : ∀ j, (j ≤ 30)%nat → totalDelay (backoff initialDelay j) <= 754343.75).
  { intros j Hj.
    eapply Qle_trans; [apply (backoff_prefix_le initialDelay j (30 - j)); by vm_compute|].
    replace (j + (30 - j))%nat with 30%nat by lia. by vm_compute. }
  assert (Hresearch : ∃ es, (research env query entityType w).2 = logged es w
            ∧ (pollCount es ≤ 30)%nat ∧ (requestCount es ≤ 31)%nat
            ∧ totalDelay (sleeps es) <= 754343.75).
  { unfold research.
    destruct (makeExaRequest_events "/research/v1"
                (exaCreate env {| rr_instructions := instructions query entityType;
                                  rr_model := "exa-research-fast" |}) w)
      as (es0 & Hw0 & Hes0 & _).
    unfold mbind, M_bind.
    destruct (makeExaRequest env "/research/v1" _ w) as [[created|e] w0]; simpl in Hw0; subst w0.
    - destruct (pollLoop_events (cr_researchId created) maxAttempts initialDelay (logged es0 w))
        as (es & j & Hw & Hp & Hr & Hj & Hs).
      exists (es ++ es0). rewrite Hw, logged_logged. split; [done|].
      rewrite pollCount_app, requestCount_app, sleeps_app, Hr.
      unfold maxAttempts in *.
      destruct Hes0 as [->| ->]; simpl;
        (split; [unfold pollCount, requestCount in *; simpl; lia|]);
        (split; [unfold pollCount, requestCount in *; simpl; lia|]);
        rewrite Hs; by apply Hbound.
    - exists es0. split; [done|].
      destruct Hes0 as [->| ->]; repeat split; try (by vm_compute);
        unfold pollCount, requestCount; simpl; lia. }
  destruct Hresearch as (es & Hw & Hp & Hr & Hd).
  unfold deepResearch, try_catch.
  destruct (research env query entityType w) as [[report|e] w1]; simpl in Hw; subst w1.
  - exists es. repeat split; try done. lia.
  - unfold fallbackDeepSearch, mbind, M_bind.
    destruct (makeExaRequest_events "/search"
                (exaSearch env (fallbackRequest query entityType)) (logged es w))
      as (es1 & Hw1 & Hes1 & _).
    destruct (makeExaRequest env "/search" _ (logged es w)) as [[response|e1] w1];
      simpl in Hw1; subst w1.
    + exists (es1 ++ es).
      assert (Hend : ∀ text, ((mret text : M string) (logged es1 (logged es w))).2
                             = logged (es1 ++ es) w).
      { intros text. simpl. by rewrite logged_logged. }
      destruct (orEmpty (results response)); rewrite Hend; split; try done;
        rewrite pollCount_app, requestCount_app, sleeps_app;
        destruct Hes1 as [->| ->]; simpl; rewrite ?app_nil_r;
        repeat split; try done; unfold pollCount, requestCount in *; simpl; lia.
    + exists (es1 ++ es). simpl. rewrite logged_logged. split; [done|].
      rewrite pollCount_app, requestCount_app, sleeps_app.
      destruct Hes1 as [->| ->]; simpl; rewrite ?app_nil_r;
        repeat split; try done; unfold pollCount, requestCount in *; simpl; lia.
Qed.

(** X2: what [deepResearch] leaves behind, whatever the collaborators answer:
    events only. It touches neither the store nor the queue nor the clock,
    makes at most 30 polls and 32 requests, and sleeps 754343.75 ms at most
    (the sum of the 30 back-off delays). *)
Theorem deepResearch_footprint query entityType w :
  ∃ es, (deepResearch env query entityType w).2 = logged es w
        ∧ (pollCount es ≤ 30)%nat
        ∧ (requestCount es ≤ 32)%nat
        ∧ totalDelay (sleeps es) <= 754343.75.
Proof. apply deepResearch_events. Qed.

(** X3: without an API key nothing is sent: the research and its fallback both
    stop at [getApiKey], and [deepResearch] throws the configuration error
    in an unchanged world. *)
Theorem deepResearch_without_key query entityType w :
  truthyOpt (exaApiKey env) = false →
  deepResearch env query entityType w = (Thrown noApiKey, w).
Proof.
  intros Hkey.
  unfold deepResearch, try_catch, research, fallbackDeepSearch, makeExaRequest, getApiKey,
    mbind, M_bind.
  rewrite Hkey. reflexivity.
Qed.

End Footprint.

Lemma deepResearch_without_key_witness :
  ExaClient.deepResearch envDown "Acme Corp" company emptyWorld = (Thrown noApiKey, emptyWorld).
Proof. apply deepResearch_without_key. reflexivity. Defined.

(* ===================================================================== *)
(** * Further properties of the page helpers *)
(* ===================================================================== *)

Lemma hasChar_app c (s t : string) : hasChar c (s +:+ t) = hasChar c s || hasChar c t.
Proof.
  induction s as [|d s IH]; [done|].
  rewrite string_app_cons. simpl. by rewrite IH, orb_assoc.
Qed.

(** Replacing a character removes it when the replacement is free of it. *)
Lemma replaceChar_removes c by_ s :
  hasChar c by_ = false → hasChar c (Js.replaceChar c by_ s) = false.
Proof.
  intros Hby. induction s as [|d s IH]; [done|]. simpl.
  unfold Js.isChar at 1. case_bool_decide as Hd.
  - by rewrite hasChar_app, Hby, IH.
  - simpl. rewrite IH, orb_false_r. unfold Js.isChar. by apply bool_decide_eq_false_2.
Qed.

(** Replacing a character brings no other character in that neither the
    text nor the replacement has. *)
Lemma replaceChar_keeps_absent c d by_ s :
  hasChar d s = false → hasChar d by_ = false →
  hasChar d (Js.replaceChar c by_ s) = false.
Proof.
  intros Hs Hby. induction s as [|e s IH]; [done|].
  simpl in Hs. apply orb_false_iff in Hs as [He Hs]. simpl.
  destruct (Js.isChar e c).
  - rewrite hasChar_app, Hby. by apply IH.
  - simpl. rewrite He. by apply IH.
Qed.

Lemma replaceChar_absent c by_ s : hasChar c s = false → Js.replaceChar c by_ s = s.
Proof.
  intros Hs. induction s as [|d s IH]; [done|].
  simpl in Hs. apply orb_false_iff in Hs as [Hd Hs]. simpl.
  rewrite Hd. f_equal. by apply IH.
Qed.

(** X4: [escapeHtml] leaves no character that opens or closes a tag or an
    attribute value, and it leaves text without such characters and
    without ampersand as it is. *)
Theorem escapeHtml_safe text :
  hasChar "<" (ConfluencePages.escapeHtml text) = false
  ∧ hasChar ">" (ConfluencePages.escapeHtml text) = false
  ∧ hasChar "034" (ConfluencePages.escapeHtml text) = false
  ∧ hasChar "'" (ConfluencePages.escapeHtml text) = false
  ∧ (hasChar "&" text = false → hasChar "<" text = false → hasChar ">" text = false →
     hasChar "034" text = false → hasChar "'" text = false →
     ConfluencePages.escapeHtml text = text).
Proof.
  unfold ConfluencePages.escapeHtml. repeat split.
  - do 3 (apply replaceChar_keeps_absent; [|done]). by apply replaceChar_removes.
  - do 2 (apply replaceChar_keeps_absent; [|done]). by apply replaceChar_removes.
  - apply replaceChar_keeps_absent; [|done]. by apply replaceChar_removes.
  - by apply replaceChar_removes.
  - intros Hamp Hlt Hgt Hdq Hsq.
    rewrite (replaceChar_absent "&" _ text Hamp), (replaceChar_absent "<" _ text Hlt),
      (replaceChar_absent ">" _ text Hgt), (replaceChar_absent "034" _ text Hdq),
      (replaceChar_absent "'" _ text Hsq). reflexivity.
Qed.

Lemma escapeHtml_safe_witness :
  ConfluencePages.escapeHtml "Acme Corp" = "Acme Corp".
Proof. apply (escapeHtml_safe "Acme Corp"); reflexivity. Defined.

(** ** Prose passes the conversion as one paragraph *)

Section Prose.
Import Js ConfluencePages.

Lemma isChar_sym c d : isChar c d = isChar d c.
Proof. unfold isChar. apply bool_decide_ext. split; congruence. Qed.

Lemma allChars_hasChar p c s : allChars p s = true → p c = false → hasChar c s = false.
Proof.
  intros Hall Hc. induction s as [|d s IH]; [done|].
  simpl in *. apply andb_true_iff in Hall as [Hd Hall].
  rewrite (IH Hall), orb_false_r. unfold isChar. apply bool_decide_eq_false_2.
  intros ->. congruence.
Qed.

Lemma allChars_impl (p q : ascii → bool) s :
  (∀ c, p c = true → q c = true) → allChars p s = true → allChars q s = true.
Proof.
  intros Hpq. induction s as [|d s IH]; [done|]. simpl.
  intros [Hd Hall]%andb_true_iff. by rewrite (Hpq _ Hd), IH.
Qed.

Lemma prose_not_line_terminator c : isProse c = true → notLineTerminator c = true.
Proof.
  unfold notLineTerminator. destruct (isLineTerminator c) eqn:Hlt; [|done].
  assert (c = "010"%char ∨ c = "013"%char) as [-> | ->]; [|done..].
  destruct c as [[] [] [] [] [] [] [] []]; try discriminate; auto.
Qed.

(** A replacement whose expression needs the character [c] in front does
    nothing to a text without [c]. *)
Lemma replaceFrom_needs_char m c s prev :
  (∀ p t, startsWith (String c "") t = false → m p t = None) →
  hasChar c s = false →
  replaceFrom m 0 prev s = s.
Proof.
  intros Hm. revert prev. induction s as [|d s IH]; intros prev Hs; [done|].
  simpl in Hs. apply orb_false_iff in Hs as [Hd Hs]. simpl.
  rewrite Hm; [by rewrite IH|].
  unfold startsWith. simpl. by rewrite isChar_sym, Hd.
Qed.

(** A replacement whose expression needs the start of a line does nothing
    to a one-line text that does not match at its start. *)
Lemma replaceFrom_needs_line_start m s prev :
  (∀ p t, atLineStart p = false → m p t = None) →
  m prev s = None →
  allChars notLineTerminator s = true →
  replaceFrom m 0 prev s = s.
Proof.
  intros Hm. revert prev. induction s as [|d s IH]; intros prev Hstart Hall; [done|].
  simpl in Hall. apply andb_true_iff in Hall as [Hd Hall]. simpl.
  rewrite Hstart. f_equal. apply IH; [|done].
  apply Hm. simpl. unfold notLineTerminator in Hd. by destruct (isLineTerminator d).
Qed.

Lemma splitBlocks_one_line cur s :
  hasChar "010" s = false → splitBlocks false cur s = [String.rev_app cur s].
Proof.
  revert cur. induction s as [|d s IH]; intros cur Hs; [done|].
  simpl in Hs. apply orb_false_iff in Hs as [Hd Hs]. simpl.
  rewrite Hd. by rewrite IH.
Qed.

Lemma letter_is_not c d : isLetter c = true → isLetter d = false → isChar d c = false.
Proof.
  intros Hc Hd. unfold isChar. apply bool_decide_eq_false_2. intros ->. congruence.
Qed.

Lemma bold_needs_star p t : startsWith "*" t = false → bold p t = None.
Proof.
  destruct t as [|d t]; [done|]. unfold startsWith, bold. simpl.
  destruct (isChar "*" d); [done|reflexivity].
Qed.

Lemma italic_needs_star p t : startsWith "*" t = false → italic p t = None.
Proof.
  unfold italic. destruct (bool_decide (p = Some "*"%char)); [done|].
  destruct t as [|d t]; [done|]. unfold startsWith. simpl.
  destruct (isChar "*" d); [done|reflexivity].
Qed.

Lemma link_needs_bracket p t : startsWith "[" t = false → link p t = None.
Proof.
  destruct t as [|d t]; [done|]. unfold startsWith, link. simpl.
  destruct (isChar "[" d); [done|reflexivity].
Qed.

(** X5: a text of letters, digits, blanks, full stops and commas that starts
    with a letter and has no blank at its ends comes out of the conversion
    as one paragraph, unchanged. *)
Theorem convertContent_prose s :
  allChars isProse s = true →
  startsWithLetter s = true →
  trim s = s →
  convertContent s = "<p>" +:+ s +:+ "</p>".
Proof.
  intros Hprose Hletter Htrim.
  assert (Hline : allChars notLineTerminator s = true)
    by (eapply allChars_impl; [apply prose_not_line_terminator|done]).
  destruct s as [|c s]; [done|]. simpl in Hletter.
  assert (Hnot : ∀ d, isLetter d = false → isChar d c = false)
    by (intros d; by apply letter_is_not).
  assert (Hfree : ∀ d, isProse d = false → hasChar d (String c s) = false)
    by (intros d; by apply allChars_hasChar).
  unfold convertContent, replaceAll. cbv zeta.
  rewrite (replaceFrom_needs_char bold "*");
    [|apply bold_needs_star|by apply Hfree].
  rewrite (replaceFrom_needs_char italic "*");
    [|apply italic_needs_star|by apply Hfree].
  assert (Hhead : ∀ marker tag, startsWith "#" marker = true →
            replaceFrom (heading marker tag) 0 None (String c s) = String c s).
  { intros marker tag Hmarker. apply replaceFrom_needs_line_start; [| |done].
    - intros p t Hp. unfold heading. by rewrite Hp.
    - unfold heading. simpl atLineStart. cbv iota.
      destruct marker as [|m marker]; [done|]. unfold startsWith in Hmarker. simpl in Hmarker.
      rewrite string_app_cons. simpl.
      destruct (isChar "#" m) eqn:Hm; [|done].
      apply bool_decide_eq_true_1 in Hm as <-. by rewrite (Hnot "#"%char). }
  rewrite !Hhead by done.
  rewrite (replaceFrom_needs_line_start (listBlock bulletPrefix "ul")); [| | |done]; cycle 1.
  { intros p t Hp. unfold listBlock. by rewrite Hp. }
  { unfold listBlock. simpl atLineStart. cbv iota.
    assert (Hrun : listRun bulletPrefix (String.length (String c s)) (String c s) = 0%nat).
    { simpl. unfold bulletPrefix, bulletMarkers. simpl.
      by rewrite (Hnot "-"%char), (Hnot "226"%char), (Hnot "195"%char),
        (Hnot "194"%char). }
    by rewrite Hrun. }
  rewrite (replaceFrom_needs_line_start (listBlock numberPrefix "ol")); [| | |done]; cycle 1.
  { intros p t Hp. unfold listBlock. by rewrite Hp. }
  { unfold listBlock. simpl atLineStart. cbv iota.
    assert (Hrun : listRun numberPrefix (String.length (String c s)) (String c s) = 0%nat).
    { simpl. unfold numberPrefix. simpl.
      assert (isDigit c = false) as ->; [|done].
      unfold isLetter in Hletter.
      destruct c as [[] [] [] [] [] [] [] []]; done. }
    by rewrite Hrun. }
  rewrite (replaceFrom_needs_char link "[");
    [|apply link_needs_bracket|by apply Hfree].
  rewrite (replaceFrom_needs_line_start rule); [| | |done]; cycle 1.
  { intros p t Hp. unfold rule. by rewrite Hp. }
  { unfold rule. simpl. by rewrite isChar_sym, (Hnot "-"%char). }
  rewrite splitBlocks_one_line by by apply Hfree.
  simpl String.rev_app. rewrite fmap_cons, fmap_nil.
  assert (Hpar : paragraph (String c s) = "<p>" +:+ String c s +:+ "</p>").
  { unfold paragraph. rewrite Htrim.
    rewrite replaceChar_absent by by apply Hfree.
    unfold startsWith. simpl. by rewrite (Hnot "<"%char). }
  rewrite Hpar. reflexivity.
Qed.

End Prose.

Lemma convertContent_prose_witness :
  ConfluencePages.convertContent "Acme is a robotics company."
  = "<p>Acme is a robotics company.</p>".
Proof. apply (convertContent_prose "Acme is a robotics company."); reflexivity. Defined.

Lemma createPageAsApp_cases env options w :
  let lookupPath :=
    "/wiki/api/v2/spaces?keys=" +:+ ConfluencePages.opt_spaceKey options +:+ "&limit=1" in
  ∃ r es,
    ConfluencePages.createPageAsApp env options w = (Returned r, logged es w)
    ∧ (es = [spaceLookup (ConfluencePages.opt_spaceKey options)]
       ∨ es = [pagePost; spaceLookup (ConfluencePages.opt_spaceKey options)])
    ∧ (es = [pagePost; spaceLookup (ConfluencePages.opt_spaceKey options)] →
       ∃ data space rest,
         confluenceSpaces env ConfluenceAsApp lookupPath = HttpOk data
         ∧ orEmpty (spaces_results data) = space :: rest
         ∧ truthy (sp_id space) = true)
    ∧ (∀ page, r = Some page →
         es = [pagePost; spaceLookup (ConfluencePages.opt_spaceKey options)]
         ∧ ∃ space created,
             confluenceCreatePage env ConfluenceAsApp
               {| pp_spaceId := sp_id space;
                  pp_title := ConfluencePages.opt_title options;
                  pp_body := ConfluencePages.opt_body options;
                  pp_format := ConfluencePages.opt_format options |} = HttpOk created
             ∧ page = {| pageId := pg_id created; pageUrl := pg_webui created;
                         title := pg_title created |}).
Proof.
  intros lookupPath.
  unfold ConfluencePages.createPageAsApp, ConfluencePages.postPage, mbind, M_bind.
  fold lookupPath. simpl.
  destruct (confluenceSpaces env ConfluenceAsApp lookupPath) as [data|status text|e] eqn:Hlookup;
    simpl.
  2,3: exists None, [spaceLookup (ConfluencePages.opt_spaceKey options)];
       repeat split; auto; done.
  destruct (orEmpty (spaces_results data)) as [|space rest] eqn:Hspaces; simpl.
  { exists None, [spaceLookup (ConfluencePages.opt_spaceKey options)].
    repeat split; auto; done. }
  destruct (truthy (sp_id space)) eqn:Hid; simpl.
  2:{ exists None, [spaceLookup (ConfluencePages.opt_spaceKey options)].
      repeat split; auto; done. }
  destruct (confluenceCreatePage env ConfluenceAsApp _) as [created|status text|e] eqn:Hpost;
    simpl.
  - eexists _, [pagePost; spaceLookup (ConfluencePages.opt_spaceKey options)].
    split; [reflexivity|]. split; [by right|]. split; [intros _; by exists data, space, rest|].
    intros page [= <-]. split; [done|]. by exists space, created.
  - exists None, [pagePost; spaceLookup (ConfluencePages.opt_spaceKey options)].
    split; [reflexivity|]. split; [by right|]. split; [intros _; by exists data, space, rest|]. done.
  - exists None, [pagePost; spaceLookup (ConfluencePages.opt_spaceKey options)].
    split; [reflexivity|]. split; [by right|]. split; [intros _; by exists data, space, rest|]. done.
Qed.

(** X6: [createPageAsApp] never throws. It looks the space up and posts the page
    only when the lookup found a space with an identifier; a page comes back
    only from an accepted post, with the relative URL Confluence gave. *)
Theorem createPageAsApp_guarded env options w :
  let lookupPath :=
    "/wiki/api/v2/spaces?keys=" +:+ ConfluencePages.opt_spaceKey options +:+ "&limit=1" in
  ∃ r es,
    ConfluencePages.createPageAsApp env options w = (Returned r, logged es w)
    ∧ (es = [spaceLookup (ConfluencePages.opt_spaceKey options)]
       ∨ es = [pagePost; spaceLookup (ConfluencePages.opt_spaceKey options)])
    ∧ (es = [pagePost; spaceLookup (ConfluencePages.opt_spaceKey options)] →
       ∃ data space rest,
         confluenceSpaces env ConfluenceAsApp lookupPath = HttpOk data
         ∧ orEmpty (spaces_results data) = space :: rest
         ∧ truthy (sp_id space) = true)
    ∧ (∀ page, r = Some page →
         es = [pagePost; spaceLookup (ConfluencePages.opt_spaceKey options)]
         ∧ ∃ space created,
             confluenceCreatePage env ConfluenceAsApp
               {| pp_spaceId := sp_id space;
                  pp_title := ConfluencePages.opt_title options;
                  pp_body := ConfluencePages.opt_body options;
                  pp_format := ConfluencePages.opt_format options |} = HttpOk created
             ∧ page = {| pageId := pg_id created; pageUrl := pg_webui created;
                         title := pg_title created |}).
Proof. apply createPageAsApp_cases. Qed.

(* ===================================================================== *)
(** * Computations that keep the store, computations that return *)
(* ===================================================================== *)

Lemma sameStore_refl w : sameStore w w.
Proof. by split. Qed.

Lemma sameStore_trans w1 w2 w3 : sameStore w1 w2 → sameStore w2 w3 → sameStore w1 w3.
Proof. intros [? ?] [? ?]. split; congruence. Qed.

Lemma sameStore_logged es w : sameStore w (logged es w).
Proof. by split. Qed.

Lemma keepsStore_ret {A} (a : A) : keepsStore (mret a : M A).
Proof. intros w. apply sameStore_refl. Qed.

Lemma keepsStore_throw {A} e : keepsStore (throw e : M A).
Proof. intros w. apply sameStore_refl. Qed.

Lemma keepsStore_emit e : keepsStore (emit e).
Proof. intros w. by split. Qed.

Lemma keepsStore_tick : keepsStore tick.
Proof. intros w. by split. Qed.

Lemma keepsStore_kvs_get key : keepsStore (kvs_get key).
Proof. intros w. by split. Qed.

Lemma keepsStore_bind {A B} (m : M A) (f : A → M B) :
  keepsStore m → (∀ a, keepsStore (f a)) → keepsStore (m ≫= f).
Proof.
  intros Hm Hf w. specialize (Hm w). unfold mbind, M_bind.
  destruct (m w) as [[a|e] w1]; simpl in *; [|done].
  eapply sameStore_trans; [exact Hm|apply Hf].
Qed.

Lemma keepsStore_try_catch {A} (m : M A) (h : thrown → M A) :
  keepsStore m → (∀ e, keepsStore (h e)) → keepsStore (try_catch m h).
Proof.
  intros Hm Hh w. specialize (Hm w). unfold try_catch.
  destruct (m w) as [[a|e] w1]; simpl in *; [done|].
  eapply sameStore_trans; [exact Hm|apply Hh].
Qed.

Lemma neverThrows_ret {A} (a : A) : neverThrows (mret a : M A).
Proof. intros w. by exists a, w. Qed.

Lemma neverThrows_bind {A B} (m : M A) (f : A → M B) :
  neverThrows m → (∀ a, neverThrows (f a)) → neverThrows (m ≫= f).
Proof.
  intros Hm Hf w. destruct (Hm w) as (a & w1 & Hrun).
  erewrite bind_returned by exact Hrun. apply Hf.
Qed.

Lemma neverThrows_try_catch {A} (m : M A) (h : thrown → M A) :
  (∀ e, neverThrows (h e)) → neverThrows (try_catch m h).
Proof.
  intros Hh w. unfold try_catch. destruct (m w) as [[a|e] w1]; [by eauto|apply Hh].
Qed.

Lemma neverThrows_emit e : neverThrows (emit e).
Proof. intros w. by eexists _, _. Qed.

Lemma neverThrows_tick : neverThrows tick.
Proof. intros w. by eexists _, _. Qed.

Lemma neverThrows_kvs_get key : neverThrows (kvs_get key).
Proof. intros w. by eexists _, _. Qed.

Lemma neverThrows_kvs_set key v : neverThrows (kvs_set key v).
Proof. intros w. by eexists _, _. Qed.

Create HintDb effects.
#[export] Hint Resolve keepsStore_ret keepsStore_throw keepsStore_emit keepsStore_tick
  keepsStore_kvs_get neverThrows_ret neverThrows_emit neverThrows_tick
  neverThrows_kvs_get neverThrows_kvs_set : effects.

(** Splits a computation along its binds and case distinctions. *)
Ltac effects :=
  repeat first
    [ progress intros
    | solve [auto with effects]
    | match goal with
      | |- keepsStore (_ ≫= _) => apply keepsStore_bind
      | |- neverThrows (_ ≫= _) => apply neverThrows_bind
      | |- keepsStore (try_catch _ _) => apply keepsStore_try_catch
      | |- neverThrows (try_catch _ _) => apply neverThrows_try_catch
      | |- keepsStore (let _ := _ in _) => cbv zeta
      | |- neverThrows (let _ := _ in _) => cbv zeta
      | |- keepsStore (if ?b then _ else _) => destruct b
      | |- neverThrows (if ?b then _ else _) => destruct b
      | |- keepsStore (match ?x with _ => _ end) => destruct x
      | |- neverThrows (match ?x with _ => _ end) => destruct x
      end ].

Section Effects.
Context (env : Env).
Import ConfluencePages.

Lemma keepsStore_deepResearch query entityType :
  keepsStore (ExaClient.deepResearch env query entityType).
Proof.
  intros w. destruct (deepResearch_events env query entityType w) as (es & -> & _).
  apply sameStore_logged.
Qed.
#[local] Hint Resolve keepsStore_deepResearch : effects.

Lemma keepsStore_newDate : keepsStore (newDate env).
Proof. unfold newDate. effects. Qed.
#[local] Hint Resolve keepsStore_newDate : effects.

Lemma keepsStore_nowISO : keepsStore (Consumer.nowISO env).
Proof. unfold Consumer.nowISO. effects. Qed.
#[local] Hint Resolve keepsStore_nowISO : effects.

Lemma keepsStore_getSpacesAs who : keepsStore (getSpacesAs env who).
Proof. unfold getSpacesAs. effects. Qed.
#[local] Hint Resolve keepsStore_getSpacesAs : effects.

Lemma keepsStore_postPage who options : keepsStore (postPage env who options).
Proof. unfold postPage. effects. Qed.
#[local] Hint Resolve keepsStore_postPage : effects.

Lemma keepsStore_createPageAsApp options : keepsStore (createPageAsApp env options).
Proof. unfold createPageAsApp. effects. Qed.
#[local] Hint Resolve keepsStore_createPageAsApp : effects.

Lemma keepsStore_getConfluenceBaseUrl : keepsStore (getConfluenceBaseUrl env).
Proof. unfold getConfluenceBaseUrl. effects. Qed.
#[local] Hint Resolve keepsStore_getConfluenceBaseUrl : effects.

Lemma keepsStore_createPage options : keepsStore (createPage env options).
Proof.
  unfold createPage. effects.
Qed.
#[local] Hint Resolve keepsStore_createPage : effects.

Lemma keepsStore_targetSpace spaceKey : keepsStore (Consumer.targetSpace env spaceKey).
Proof.
  unfold Consumer.targetSpace, getDefaultSpaceKeyAsApp, getSpacesAsApp.
  effects.
Qed.
#[local] Hint Resolve keepsStore_targetSpace : effects.

Lemma neverThrows_newDate : neverThrows (newDate env).
Proof. unfold newDate. effects. Qed.
#[local] Hint Resolve neverThrows_newDate : effects.

Lemma neverThrows_getSpacesAs who : neverThrows (getSpacesAs env who).
Proof. unfold getSpacesAs. effects. Qed.
#[local] Hint Resolve neverThrows_getSpacesAs : effects.

Lemma neverThrows_postPage who options : neverThrows (postPage env who options).
Proof. unfold postPage. effects. Qed.
#[local] Hint Resolve neverThrows_postPage : effects.

Lemma neverThrows_createPage options : neverThrows (createPage env options).
Proof.
  unfold createPage, getConfluenceBaseUrl. effects.
Qed.
#[local] Hint Resolve neverThrows_createPage : effects.

End Effects.

(* ===================================================================== *)
(** * The consumer: what one delivery changes *)
(* ===================================================================== *)

Lemma keeps_cases {A} (m : M A) w :
  keepsStore m →
  (∃ a w1, m w = (Returned a, w1) ∧ sameStore w w1)
  ∨ (∃ e w1, m w = (Thrown e, w1) ∧ sameStore w w1).
Proof.
  intros Hm. specialize (Hm w). destruct (m w) as [[a|e] w1]; simpl in Hm; [left|right]; eauto.
Qed.

Section ConsumerStore.
Context (env : Env).
Import ConfluencePages Consumer.

Lemma process_store payload w :
  match process env payload w with
  | (Returned page, w') =>
      ∃ t1 t2,
        kvs w' = <[jobKey (ev_researchId payload) := VJob (completedJob payload page t2)]>
                   (<[resultKey (ev_researchId payload) :=
                        VResult (completedResultRecord payload page t1)]> (kvs w))
        ∧ queue w' = queue w
  | (Thrown _, w') => sameStore w w'
  end.
Proof.
  unfold process.
  destruct (keeps_cases (ExaClient.deepResearch env (ev_query payload) (ev_entityType payload)) w
              (keepsStore_deepResearch env _ _))
    as [(out & w1 & E1 & S1)|(e & w1 & E1 & S1)];
    [erewrite bind_returned by exact E1|by erewrite bind_thrown by exact E1].
  destruct (keeps_cases (targetSpace env (ev_spaceKey payload)) w1 (keepsStore_targetSpace env _))
    as [(key & w2 & E2 & S2)|(e & w2 & E2 & S2)];
    [erewrite bind_returned by exact E2
    |erewrite bind_thrown by exact E2; by eapply sameStore_trans].
  destruct (keeps_cases (newDate env) w2 (keepsStore_newDate env))
    as [(today & w3 & E3 & S3)|(e & w3 & E3 & S3)];
    [erewrite bind_returned by exact E3
    |erewrite bind_thrown by exact E3; eauto using sameStore_trans].
  match goal with
  | |- context [createPageAsApp env ?o] =>
      destruct (keeps_cases (createPageAsApp env o) w3 (keepsStore_createPageAsApp env _))
        as [(page & w4 & E4 & S4)|(e & w4 & E4 & S4)]
  end;
    [erewrite bind_returned by exact E4
    |erewrite bind_thrown by exact E4; eauto using sameStore_trans].
  assert (sameStore w w4) as [Hkvs Hqueue] by eauto using sameStore_trans.
  destruct page as [page|]; [|by split].
  do 2 eexists. simpl. rewrite Hkvs, Hqueue. split; reflexivity.
Qed.

Lemma recordFailure_store payload error w :
  ∃ t1 t2,
    (recordFailure env payload error w).1 = Returned ()
    ∧ kvs (recordFailure env payload error w).2
      = <[jobKey (ev_researchId payload) := VJob (failedJob payload error t2)]>
          (<[resultKey (ev_researchId payload) :=
               VResult (failedResultRecord payload error t1)]> (kvs w))
    ∧ queue (recordFailure env payload error w).2 = queue w.
Proof. do 2 eexists. repeat split; reflexivity. Qed.

Lemma handler_store payload w :
  ∃ res job,
    kvs (handler env payload w).2
    = <[jobKey (ev_researchId payload) := VJob job]>
        (<[resultKey (ev_researchId payload) := VResult res]> (kvs w))
    ∧ queue (handler env payload w).2 = queue w
    ∧ (rr_jobId res = ev_researchId payload
       ∧ rr_query res = ev_query payload
       ∧ rr_entityType res = ev_entityType payload
       ∧ job_userId job = ev_userId payload
       ∧ job_cloudId job = ev_cloudId payload)
    ∧ sameOutcome res job
    ∧ isTerminal (job_status job) = true
    ∧ job_createdAt job = None
    ∧ job_jobId job = None.
Proof.
  unfold handler, try_catch.
  pose proof (process_store payload w) as Hstore.
  destruct (process env payload w) as [[page|error] w1] eqn:Hprocess.
  - erewrite bind_returned by exact Hprocess. simpl.
    destruct Hstore as (t1 & t2 & -> & ->).
    exists (completedResultRecord payload page t1), (completedJob payload page t2).
    unfold sameOutcome. simpl. repeat split; eauto; done.
  - erewrite bind_thrown by exact Hprocess.
    destruct Hstore as [Hkvs Hqueue].
    destruct (recordFailure_store payload error w1) as (t1 & t2 & _ & -> & ->).
    exists (failedResultRecord payload error t1), (failedJob payload error t2).
    rewrite Hkvs, Hqueue. unfold sameOutcome. simpl.
    repeat split; eauto; done.
Qed.

(** X7: one delivery changes the store at two keys and nowhere else, whatever
    the collaborators answer: it writes a result record under
    [research-result-<id>] and a job record under [research-job-<id>], both
    over the store as the delivery found it, and leaves the queue alone.
    The records take the identifier, the query, the entity type, the user
    and the cloud from the message, and they agree on the outcome, the page
    and the error; success goes with a page URL and no error, failure with
    an error and no page. The job record is terminal and has neither the
    [createdAt] nor the [jobId] the dispatcher stored. *)
Theorem handler_writes_two_records payload w :
  let researchId := ev_researchId payload in
  let w' := (handler env payload w).2 in
  ∃ res job,
    kvs w' = <[jobKey researchId := VJob job]> (<[resultKey researchId := VResult res]> (kvs w))
    ∧ queue w' = queue w
    ∧ (rr_jobId res = researchId
       ∧ rr_query res = ev_query payload
       ∧ rr_entityType res = ev_entityType payload
       ∧ job_userId job = ev_userId payload
       ∧ job_cloudId job = ev_cloudId payload)
    ∧ sameOutcome res job
    ∧ isTerminal (job_status job) = true
    ∧ job_createdAt job = None
    ∧ job_jobId job = None.
Proof. intros researchId w'. apply handler_store. Qed.

End ConsumerStore.

(* ===================================================================== *)
(** * From the dispatch to the delivery *)
(* ===================================================================== *)

Section DispatchThenConsume.
Context (env : Env).
Import Consumer.

(** X8: the dispatcher and the consumer fit together. After a valid dispatch
    the last message of the queue names a job that is stored as queued;
    delivering that message (to a consumer that may see other collaborators
    than the dispatcher did) leaves the job terminal, with the query, the
    entity type and the cloud of the dispatch. The terminal record replaces
    the queued one: the creation time and the queue's job identifier are
    gone. Apart from the job and the result of this research, the store is
    as it was before the dispatch. *)
Theorem queued_job_becomes_terminal (env' : Env) payload query entityType w :
  p_query payload = Some query →
  truthy (Js.trim query) = true →
  parseEntityType (p_entityType payload) = Some entityType →
  let w1 := (DeepResearchQueueAction.deepResearch env payload w).2 in
  ∃ message,
    last (queue w1) = Some message
    ∧ (∃ queued, storedJob w1 (ev_researchId message) = Some queued
                 ∧ job_status queued = js_queued
                 ∧ is_Some (job_createdAt queued) ∧ is_Some (job_jobId queued))
    ∧ let w2 := (handler env' message w1).2 in
      (∃ job, storedJob w2 (ev_researchId message) = Some job
              ∧ isTerminal (job_status job) = true
              ∧ job_query job = query
              ∧ job_entityType job = entityType
              ∧ job_cloudId job = orElse (p_cloudId payload) "unknown"
              ∧ job_createdAt job = None
              ∧ job_jobId job = None)
      ∧ (∀ key, key ≠ jobKey (ev_researchId message) →
                key ≠ resultKey (ev_researchId message) →
                kvs w2 !! key = kvs w !! key).
Proof.
  intros Hquery Hvalid Htype w1.
  destruct (dispatch_effect env payload query entityType w Hquery Hvalid Htype) as [Hqueue Hkvs].
  fold w1 in Hqueue, Hkvs.
  set (rid := DeepResearchQueueAction.makeResearchId _ _) in *.
  set (message := Build_DeepResearchEventPayload _ _ _ _ _ _) in *.
  exists message. change (ev_researchId message) with rid.
  split; [rewrite Hqueue; apply last_snoc|]. split.
  - eexists. unfold storedJob. rewrite Hkvs. rewrite lookup_insert_eq.
    repeat split; by eexists.
  - intros w2. subst w2.
    destruct (handler_store env' message w1)
      as (res & job & Hkvs2 & _ & (_ & Hq & Het & _ & Hcloud) & Hsame & Hterm & Hcreated & Hjob).
    destruct Hsame as (Hq' & Het' & _).
    change (ev_researchId message) with rid in Hkvs2.
    split.
    + exists job. unfold storedJob. rewrite Hkvs2. rewrite lookup_insert_eq.
      repeat split; try done; simpl in *; congruence.
    + intros key Hkey1 Hkey2. rewrite Hkvs2.
      rewrite lookup_insert_ne, lookup_insert_ne by done.
      rewrite Hkvs. by rewrite lookup_insert_ne.
Qed.

End DispatchThenConsume.

Lemma queued_job_becomes_terminal_witness :
  let w1 := (DeepResearchQueueAction.deepResearch (envUp []) acmePayload emptyWorld).2 in
  ∃ message,
    last (queue w1) = Some message
    ∧ job_status <$> Consumer.storedJob (Consumer.handler envDown message w1).2 (ev_researchId message)
      = Some js_failed.
Proof.
  intros w1.
  destruct (queued_job_becomes_terminal (envUp []) envDown acmePayload "Acme Corp" company
              emptyWorld) as (message & Hlast & _ & _); try reflexivity.
  exists message. split; [exact Hlast|].
  vm_compute in Hlast. injection Hlast as <-. vm_compute. reflexivity.
Defined.

(* ===================================================================== *)
(** * The entry points: what they never do *)
(* ===================================================================== *)

Lemma returns_ret {A} (P : A → Prop) (a : A) : P a → returns P (mret a : M A).
Proof. intros HP w a' w' H. injection H as <- _. exact HP. Qed.

Lemma returns_bind {A B} (P : B → Prop) (m : M A) (f : A → M B) :
  (∀ a, returns P (f a)) → returns P (m ≫= f).
Proof.
  intros Hf w b w' H. apply bind_returned_inv in H as (a & w1 & _ & H). by eapply Hf.
Qed.

Lemma returns_bind_with {A B} (Q : A → Prop) (P : B → Prop) (m : M A) (f : A → M B) :
  returns Q m → (∀ a, Q a → returns P (f a)) → returns P (m ≫= f).
Proof.
  intros Hm Hf w b w' H. apply bind_returned_inv in H as (a & w1 & Ha & H).
  eapply Hf; [by eapply Hm|exact H].
Qed.

Lemma returns_try_catch {A} (P : A → Prop) (m : M A) (h : thrown → M A) :
  returns P m → (∀ e, returns P (h e)) → returns P (try_catch m h).
Proof.
  intros Hm Hh w a w'. unfold try_catch. specialize (Hm w).
  destruct (m w) as [[a1|e] w1]; [intros H; injection H as <- <-; by eapply Hm|apply Hh].
Qed.

Lemma keepsStore_mapM {A B} (f : A → M B) l :
  (∀ a, keepsStore (f a)) → keepsStore (mapM f l).
Proof. intros Hf. induction l as [|x l IH]; simpl; effects. Qed.

Lemma neverThrows_mapM {A B} (f : A → M B) l :
  (∀ a, neverThrows (f a)) → neverThrows (mapM f l).
Proof. intros Hf. induction l as [|x l IH]; simpl; effects. Qed.

#[export] Hint Resolve keepsStore_deepResearch keepsStore_newDate keepsStore_nowISO
  keepsStore_getSpacesAs keepsStore_postPage keepsStore_createPageAsApp
  keepsStore_getConfluenceBaseUrl keepsStore_createPage keepsStore_targetSpace
  neverThrows_newDate neverThrows_getSpacesAs neverThrows_postPage
  neverThrows_createPage keepsStore_mapM neverThrows_mapM : effects.

Section EntryPoints.
Context (env : Env) (publishedDate : ExaSearchResult → option string).
Import IssueDeepResearch.

Lemma neverThrows_nowISO : neverThrows (Consumer.nowISO env).
Proof. unfold Consumer.nowISO. effects. Qed.

Lemma neverThrows_saveSearchToHistory searchType query resultCount :
  neverThrows (Persistence.saveSearchToHistory env searchType query resultCount).
Proof. unfold Persistence.saveSearchToHistory. effects. Qed.

Lemma neverThrows_getSpaceKey : neverThrows (getSpaceKey env).
Proof.
  unfold getSpaceKey, ConfluencePages.getDefaultSpaceKey, ConfluencePages.getSpaces. effects.
Qed.

Lemma keepsStore_getSpaceKey : keepsStore (getSpaceKey env).
Proof.
  unfold getSpaceKey, ConfluencePages.getDefaultSpaceKey, ConfluencePages.getSpaces. effects.
Qed.

Lemma neverThrows_getIssueDetails issueKey : neverThrows (getIssueDetails env issueKey).
Proof. unfold getIssueDetails. effects. Qed.

Lemma neverThrows_addResearchLinkComment issueKey :
  neverThrows (addResearchLinkComment env issueKey).
Proof. unfold addResearchLinkComment. effects. Qed.

Lemma neverThrows_performDeepResearch issueKey : neverThrows (performDeepResearch env issueKey).
Proof.
  pose proof neverThrows_getSpaceKey. pose proof neverThrows_getIssueDetails.
  pose proof neverThrows_addResearchLinkComment.
  unfold performDeepResearch, researchLead. effects.
Qed.

Lemma keepsStore_performDeepResearch issueKey : keepsStore (performDeepResearch env issueKey).
Proof.
  pose proof keepsStore_getSpaceKey.
  unfold performDeepResearch, researchLead, getIssueDetails, addResearchLinkComment. effects.
Qed.

Lemma returns_coherent issueKey : returns coherent (performDeepResearch env issueKey).
Proof.
  assert (∀ message, coherent (failure message)) as Hfailure.
  { intros message. split; split; simpl; try done; by intros [? ?]. }
  unfold performDeepResearch, researchLead.
  repeat first
    [ progress intros
    | apply returns_ret; [solve [apply Hfailure | assumption | split; split; simpl; eauto]]
    | match goal with
      | |- returns _ (try_catch _ _ ≫= _) =>
          apply (returns_bind_with
                   (λ research, match research with
                                | inl _ => True
                                | inr response => coherent response
                                end));
          [apply returns_try_catch;
           [apply returns_bind; intros; by apply returns_ret
           |intros; apply returns_ret, Hfailure]
          |intros [?|?] ?]
      | |- returns _ (_ ≫= _) => apply returns_bind
      | |- returns _ (let _ := _ in _) => cbv zeta
      | |- returns _ (if ?b then _ else _) => destruct b
      | |- returns _ (match ?x with _ => _ end) => destruct x
      end ].
Qed.

Lemma neverThrows_researchLead key issue : neverThrows (researchLead env key issue).
Proof.
  pose proof neverThrows_getSpaceKey. pose proof neverThrows_addResearchLinkComment.
  unfold researchLead. effects.
Qed.

Lemma keepsStore_researchLead key issue : keepsStore (researchLead env key issue).
Proof.
  pose proof keepsStore_getSpaceKey.
  unfold researchLead, addResearchLinkComment. effects.
Qed.

Lemma researchLead_coherent key issue : returns coherent (researchLead env key issue).
Proof.
  assert (∀ message, coherent (failure message)) as Hfailure.
  { intros message. split; split; simpl; try done; by intros [? ?]. }
  unfold researchLead.
  repeat first
    [ progress intros
    | apply returns_ret; [solve [apply Hfailure | assumption | split; split; simpl; eauto]]
    | match goal with
      | |- returns _ (try_catch _ _ ≫= _) =>
          apply (returns_bind_with
                   (λ research, match research with
                                | inl _ => True
                                | inr response => coherent response
                                end));
          [apply returns_try_catch;
           [apply returns_bind; intros; by apply returns_ret
           |intros; apply returns_ret, Hfailure]
          |intros [?|?] ?]
      | |- returns _ (_ ≫= _) => apply returns_bind
      | |- returns _ (let _ := _ in _) => cbv zeta
      | |- returns _ (if ?b then _ else _) => destruct b
      | |- returns _ (match ?x with _ => _ end) => destruct x
      end ].
Qed.

(** The resolver over the bodies Jira may answer with, case by case. *)
Lemma performDeepResearchOn_cases jiraBody issueKey w :
  let run := performDeepResearchOn env jiraBody issueKey w in
  (∃ message, run = (Returned (failure message), w))
  ∨ ∃ key, issueKey = Some key ∧ truthy key = true
      ∧ ((∃ message, run = (Returned (failure message), logged [issueLookup key] w)
                     ∧ ∀ how, jiraBody key ≠ HttpOk (BodyWithoutFields how))
         ∨ (∃ how, jiraBody key = HttpOk (BodyWithoutFields how)
                   ∧ run = (Thrown (missingFields how), logged [issueLookup key] w))
         ∨ (∃ issue, jiraBody key = HttpOk (BodyWithFields issue)
                     ∧ run = researchLead env key issue (logged [issueLookup key] w))).
Proof.
  unfold performDeepResearchOn.
  destruct issueKey as [key|]; [|left; by eexists].
  change (truthyOpt (Some key)) with (truthy key).
  destruct (truthy key) eqn:Hkey; [|left; by eexists].
  change (negb true) with false. cbv iota zeta.
  assert (orElse (Some key) "" = key) as -> by (simpl; by rewrite Hkey).
  right. exists key. split; [done|]. split; [done|].
  unfold getIssueBody, mbind, M_bind, emit. fold (issueLookup key).
  destruct (jiraBody key) as [[|how|issue]| |] eqn:Hbody.
  - left. eexists. split; [reflexivity|done].
  - right; left. by exists how.
  - right; right. by exists issue.
  - left. eexists. split; [reflexivity|done].
  - left. eexists. split; [reflexivity|done].
Qed.

(** X9: the issue resolver answers unless Jira's body has no fields. For an
    issue of the declared type, whatever Jira, Exa and Confluence do,
    [performDeepResearch] returns a response and throws nothing. But the
    body of an ok answer is not checked: over the bodies of
    [JiraIssueBody] (null, a truthy value without [fields], an issue whose
    fields have the declared types) the resolver throws exactly when the
    payload names an issue and the body of the ok answer is a truthy value
    whose [fields] is undefined or null; it then throws the [TypeError] of
    reading [labels], after the one request for the issue, and no [catch]
    turns it into a response. In
    every case it writes nothing to the store or the queue, and a response
    it returns is a success exactly when it carries the URL and the title
    of a page. *)
Theorem performDeepResearch_throws_only_without_fields issueKey w :
  (∃ response w',
     performDeepResearch env issueKey w = (Returned response, w')
     ∧ kvs w' = kvs w ∧ queue w' = queue w
     ∧ (success response = true ↔ is_Some (res_pageUrl response))
     ∧ (success response = true ↔ is_Some (res_pageTitle response)))
  ∧ ∀ jiraBody,
      let run := performDeepResearchOn env jiraBody issueKey w in
      kvs run.2 = kvs w ∧ queue run.2 = queue w
      ∧ (∀ response, run.1 = Returned response →
           (success response = true ↔ is_Some (res_pageUrl response))
           ∧ (success response = true ↔ is_Some (res_pageTitle response)))
      ∧ (∀ error, run.1 = Thrown error
           ↔ ∃ key how, issueKey = Some key ∧ truthy key = true
                        ∧ jiraBody key = HttpOk (BodyWithoutFields how)
                        ∧ error = missingFields how)
      ∧ (∀ key how, issueKey = Some key → truthy key = true →
           jiraBody key = HttpOk (BodyWithoutFields how) →
           run = (Thrown (JsError ("Cannot read properties of " +:+
                                   match how with
                                   | fieldsUndefined => "undefined"
                                   | fieldsNull => "null"
                                   end +:+ " (reading 'labels')")),
                  logged [issueLookup key] w))
      ∧ ((∀ key, jiraBody key = declaredBody (jiraIssue env key)) →
         run = performDeepResearch env issueKey w).
Proof.
  split.
  { destruct (neverThrows_performDeepResearch issueKey w) as (response & w' & Hrun).
    exists response, w'. split; [exact Hrun|].
    pose proof (keepsStore_performDeepResearch issueKey w) as [Hkvs Hqueue].
    rewrite Hrun in Hkvs, Hqueue.
    pose proof (returns_coherent issueKey w response w' Hrun) as [Hurl Htitle].
    done. }
  intros jiraBody run.
  assert (Hfailure : ∀ message, coherent (failure message)).
  { intros message. split; split; simpl; try done; by intros [? ?]. }
  pose proof (performDeepResearchOn_cases jiraBody issueKey w) as Hcases.
  cbv zeta in Hcases. fold run in Hcases.
  split; [|split; [|split; [|split; [|split]]]].
  - destruct Hcases as [[message ->]|(key & _ & _ & [(message & -> & _)
                         |[(how & _ & ->)|(issue & _ & ->)]])]; try done.
    by destruct (keepsStore_researchLead key issue (logged [issueLookup key] w)).
  - destruct Hcases as [[message ->]|(key & _ & _ & [(message & -> & _)
                         |[(how & _ & ->)|(issue & _ & ->)]])]; try done.
    by destruct (keepsStore_researchLead key issue (logged [issueLookup key] w)).
  - intros response Hresponse.
    destruct Hcases as [[message Hrun]|(key & _ & _ & [(message & Hrun & _)
                         |[(how & _ & Hrun)|(issue & _ & Hrun)]])];
      rewrite Hrun in Hresponse.
    + injection Hresponse as <-. apply Hfailure.
    + injection Hresponse as <-. apply Hfailure.
    + discriminate.
    + destruct (researchLead env key issue (logged [issueLookup key] w))
        as [outcome_ w'] eqn:Hlead.
      simpl in Hresponse. subst outcome_. by eapply researchLead_coherent.
  - intros error. split.
    + intros Hthrown.
      destruct Hcases as [[message Hrun]|(key & Hkey & Htruthy & [(message & Hrun & _)
                           |[(how & Hbody & Hrun)|(issue & _ & Hrun)]])];
        rewrite Hrun in Hthrown; try discriminate.
      * injection Hthrown as <-. by exists key, how.
      * destruct (neverThrows_researchLead key issue (logged [issueLookup key] w))
          as (response & w' & Hlead).
        rewrite Hlead in Hthrown. discriminate.
    + intros (key & how & -> & Htruthy & Hbody & ->).
      destruct Hcases as [[message Hrun]|(key' & [= <-] & _ & [(message & _ & Hnot)
                           |[(how' & Hbody' & Hrun)|(issue & Hbody' & _)]])].
      * exfalso. revert Hrun. unfold run, performDeepResearchOn.
        change (truthyOpt (Some key)) with (truthy key). rewrite Htruthy.
        change (negb true) with false. cbv iota zeta.
        assert (orElse (Some key) "" = key) as -> by (simpl; by rewrite Htruthy).
        unfold getIssueBody, mbind, M_bind, emit. rewrite Hbody. discriminate.
      * by destruct (Hnot how).
      * rewrite Hbody in Hbody'. injection Hbody' as <-. by rewrite Hrun.
      * rewrite Hbody in Hbody'. discriminate.
  - intros key how -> Htruthy Hbody.
    destruct Hcases as [[message Hrun]|(key' & [= <-] & _ & [(message & _ & Hnot)
                         |[(how' & Hbody' & Hrun)|(issue & Hbody' & _)]])].
    + exfalso. revert Hrun. unfold run, performDeepResearchOn.
      change (truthyOpt (Some key)) with (truthy key). rewrite Htruthy.
      change (negb true) with false. cbv iota zeta.
      assert (orElse (Some key) "" = key) as -> by (simpl; by rewrite Htruthy).
      unfold getIssueBody, mbind, M_bind, emit. rewrite Hbody. discriminate.
    + by destruct (Hnot how).
    + rewrite Hbody in Hbody'. injection Hbody' as <-. exact Hrun.
    + rewrite Hbody in Hbody'. discriminate.
  - intros Hdeclared. unfold run, performDeepResearchOn, performDeepResearch.
    destruct (negb (truthyOpt issueKey)); [done|]. cbv zeta.
    unfold getIssueBody, getIssueDetails, mbind, M_bind, emit.
    rewrite Hdeclared. by destruct (jiraIssue env (orElse issueKey "")).
Qed.

(** X10: the four Rovo actions answer with a text whatever their collaborators
    do: every exception of the Exa client is turned into a message. (The
    client itself can throw, for instance without an API key.) *)
Theorem actions_never_throw :
  (∀ payload, neverThrows (DeepResearchAction.deepResearch env payload))
  ∧ (∀ payload, neverThrows (DeepResearchQueueAction.deepResearch env payload))
  ∧ (∀ payload, neverThrows (SearchActions.searchPeople env publishedDate payload))
  ∧ (∀ payload, neverThrows (SearchActions.searchCompanies env publishedDate payload)).
Proof.
  repeat split; intros payload.
  - unfold DeepResearchAction.deepResearch. effects.
  - unfold DeepResearchQueueAction.deepResearch. effects.
  - unfold SearchActions.searchPeople. effects.
  - unfold SearchActions.searchCompanies. effects.
Qed.

End EntryPoints.

Lemma performDeepResearch_throws_only_without_fields_witness :
  (IssueDeepResearch.performDeepResearchOn (envUp []) bodyWithoutFields (Some "LEAD-7")
                                           emptyWorld).1
  = Thrown (JsError "Cannot read properties of undefined (reading 'labels')").
Proof.
  destruct (performDeepResearch_throws_only_without_fields (envUp []) (Some "LEAD-7")
              emptyWorld) as [_ Hraw].
  destruct (Hraw bodyWithoutFields) as (_ & _ & _ & _ & Hthrow & _).
  rewrite (Hthrow "LEAD-7" IssueDeepResearch.fieldsUndefined); reflexivity.
Defined.

Section ResolverGuards.
Context (env : Env).
Import IssueDeepResearch.


End ResolverGuards.

(** X12: both deep-research actions validate before they act, and alike: a
    payload with a blank query (missing, empty or white space only) or with
    an entity type other than "person" and "company" gets the same prompt
    from the synchronous and from the queueing action, and the world is as
    it was: no request, no message on the queue, no job record, no clock
    reading. The query is tested first. *)
Theorem invalid_research_payload_is_rejected env payload w :
  invalidResearch payload →
  ∃ prompt,
    DeepResearchAction.deepResearch env payload w = (Returned prompt, w)
    ∧ DeepResearchQueueAction.deepResearch env payload w = (Returned prompt, w)
    ∧ prompt = (if truthy (Js.trim (orElse (p_query payload) ""))
                then DeepResearchAction.specifyType
                else DeepResearchAction.provideName).
Proof.
  unfold invalidResearch, hasQuery, DeepResearchAction.deepResearch,
    DeepResearchQueueAction.deepResearch.
  intros Hinvalid.
  destruct (truthy (Js.trim (orElse (p_query payload) ""))) eqn:Hquery.
  - destruct Hinvalid as [Hblank| ->]; [done|].
    change (negb true) with false. cbv iota. by eexists.
  - change (negb false) with true. cbv iota. by eexists.
Qed.

Lemma invalid_research_payload_is_rejected_witness :
  (DeepResearchQueueAction.deepResearch (envUp []) personOfNoName emptyWorld
   = (Returned DeepResearchAction.provideName, emptyWorld))
  ∧ (DeepResearchAction.deepResearch (envUp []) acmeThePlace emptyWorld
     = (Returned DeepResearchAction.specifyType, emptyWorld)).
Proof.
  split.
  - destruct (invalid_research_payload_is_rejected (envUp []) personOfNoName emptyWorld)
      as (prompt & _ & Hqueue & ->); [left; vm_compute; discriminate|exact Hqueue].
  - destruct (invalid_research_payload_is_rejected (envUp []) acmeThePlace emptyWorld)
      as (prompt & Hsync & _ & ->); [right; reflexivity|exact Hsync].
Defined.

(* ===================================================================== *)
(** * From the board back to the research: titles and labels *)
(* ===================================================================== *)

Section BoardRoundTrip.
Import IssueDeepResearch AddToBoard.

Lemma substring_0_length s : String.substring 0 (String.length s) s = s.
Proof. induction s as [|c s IH]; simpl; [done|by rewrite IH]. Qed.

Lemma substring_app_drop p r :
  String.substring (String.length p) (String.length (p +:+ r) - String.length p) (p +:+ r) = r.
Proof.
  induction p as [|c p IH].
  - rewrite string_app_nil_l. simpl String.length. rewrite Nat.sub_0_r.
    apply substring_0_length.
  - rewrite string_app_cons. simpl. exact IH.
Qed.

Lemma toLowerCase_app p r : Js.toLowerCase (p +:+ r) = Js.toLowerCase p +:+ Js.toLowerCase r.
Proof.
  induction p as [|c p IH]; [by rewrite !string_app_nil_l|].
  rewrite string_app_cons. simpl. by rewrite IH, string_app_cons.
Qed.

Lemma dropPrefix_present p r :
  dropPrefixIgnoringCase p (p +:+ r) = Js.trimStart r.
Proof.
  unfold dropPrefixIgnoringCase.
  by rewrite toLowerCase_app, startsWith_app, substring_app_drop.
Qed.

Lemma lowerChar_bracket c : Js.isChar "[" c = false → Js.isChar "[" (Js.lowerChar c) = false.
Proof. destruct c as [[] [] [] [] [] [] [] []]; vm_compute; congruence. Qed.

Lemma dropPrefix_absent p name :
  Js.startsWith "[" name = false →
  dropPrefixIgnoringCase (String "[" p) name = name.
Proof.
  unfold dropPrefixIgnoringCase, Js.startsWith. intros Hname.
  destruct name as [|c name]; [done|]. simpl in *.
  destruct (Js.isChar "[" c) eqn:Hc; [done|]. by rewrite lowerChar_bracket.
Qed.

(** X13: what [addToBoard] writes, the issue resolver reads back. For a name
    that is not empty, has no white space at its ends and does not start
    with a bracket, the summary [addToBoard] gives the issue yields the
    name again in [extractLeadName]; the labels it gives carry [tofu-lead]
    and yield the entity type again in [determineEntityType]. *)
Theorem board_issue_round_trip entityType name :
  truthy name = true →
  Js.trimStart name = name →
  Js.trimEnd name = name →
  Js.startsWith "[" name = false →
  hasLabel "tofu-lead" (issueLabels entityType) = true
  ∧ determineEntityType (issueLabels entityType) = Some entityType
  ∧ extractLeadName (issueTitle entityType name) = name.
Proof.
  intros Hname Hstart Hend Hbracket.
  split; [by destruct entityType|]. split; [by destruct entityType|].
  unfold extractLeadName, issueTitle.
  assert (Js.trimStart (String " " name) = name) as Hspace by (simpl; exact Hstart).
  destruct entityType.
  - change ("[Lead] " +:+ name) with ("[Lead]" +:+ String " " name).
    rewrite dropPrefix_present, Hspace.
    rewrite !(dropPrefix_absent _ name) by exact Hbracket.
    unfold Js.trim. by rewrite Hstart, Hend, Hname.
  - assert (dropPrefixIgnoringCase "[Lead]" ("[Company Lead] " +:+ name)
            = "[Company Lead]" +:+ String " " name) as -> by reflexivity.
    rewrite dropPrefix_present, Hspace.
    rewrite (dropPrefix_absent _ name) by exact Hbracket.
    unfold Js.trim. by rewrite Hstart, Hend, Hname.
Qed.

Lemma board_issue_round_trip_witness :
  extractLeadName (issueTitle company "Acme Corp") = "Acme Corp"
  ∧ determineEntityType (issueLabels company) = Some company.
Proof.
  destruct (board_issue_round_trip company "Acme Corp") as (_ & Htype & Hname);
    try reflexivity.
  by split.
Defined.

(** X14: how [determineEntityType] reads labels: a label "person" decides for a
    person; a label "company" decides for a company when no label is
    "person", whatever else the labels contain; the answer is [null]
    exactly when no label contains "person" or "company" in any case of
    letters. *)
Theorem determineEntityType_reads_labels labels :
  ("person" ∈ labels → determineEntityType labels = Some person)
  ∧ ("company" ∈ labels → "person" ∉ labels → determineEntityType labels = Some company)
  ∧ (determineEntityType labels = None
     ↔ ∀ label, label ∈ labels →
         Js.includes "person" (Js.toLowerCase label) = false
         ∧ Js.includes "company" (Js.toLowerCase label) = false).
Proof.
  unfold determineEntityType, hasLabel.
  split; [|split].
  - intros H. by rewrite bool_decide_eq_true_2.
  - intros H1 H2. by rewrite bool_decide_eq_false_2, bool_decide_eq_true_2.
  - split.
    + intros H label Hlabel.
      destruct (bool_decide ("person" ∈ labels)); [done|].
      destruct (bool_decide ("company" ∈ labels)); [done|].
      destruct (existsb _ labels) eqn:Hperson in H; [done|].
      destruct (existsb _ labels) eqn:Hcompany in H; [done|].
      apply list_elem_of_In in Hlabel.
      split; apply not_true_is_false; intros Hin.
      * apply not_true_iff_false in Hperson. apply Hperson, existsb_exists. eauto.
      * apply not_true_iff_false in Hcompany. apply Hcompany, existsb_exists. eauto.
    + intros H.
      assert (existsb (λ l, Js.includes "person" (Js.toLowerCase l)) labels = false) as Hperson.
      { apply not_true_is_false. intros (l & Hl & Hin)%existsb_exists.
        apply list_elem_of_In, H in Hl as [Hl _]. congruence. }
      assert (existsb (λ l, Js.includes "company" (Js.toLowerCase l)) labels = false)
        as Hcompany.
      { apply not_true_is_false. intros (l & Hl & Hin)%existsb_exists.
        apply list_elem_of_In, H in Hl as [_ Hl]. congruence. }
      rewrite Hperson, Hcompany.
      rewrite bool_decide_eq_false_2, bool_decide_eq_false_2; [done| |].
      * intros Hin. by apply H in Hin as [_ Hin].
      * intros Hin. by apply H in Hin as [Hin _].
Qed.

End BoardRoundTrip.

(* ===================================================================== *)
(** * The search actions: what a search leaves in the store *)
(* ===================================================================== *)

Section SearchOutcome.
Context (env : Env) (publishedDate : ExaSearchResult → option string).
Import Persistence SearchActions.

Lemma search_world category query numResults w :
  let run := ExaClient.makeExaRequest env "/search"
               (exaSearch env (ExaSearch.searchRequest category query numResults)) w in
  kvs run.2 = kvs w ∧ queue run.2 = queue w ∧ ticks run.2 = ticks w.
Proof.
  intros run. subst run.
  destruct (makeExaRequest_events env "/search"
              (exaSearch env (ExaSearch.searchRequest category query numResults)) w)
    as (es & -> & _).
  done.
Qed.

Lemma searchPeople_world query numResults w :
  let run := ExaSearch.searchPeople env query numResults w in
  kvs run.2 = kvs w ∧ queue run.2 = queue w ∧ ticks run.2 = ticks w.
Proof.
  intros run. subst run. unfold ExaSearch.searchPeople, mbind, M_bind.
  pose proof (search_world "people" query numResults w) as H. cbv zeta in H.
  by destruct (ExaClient.makeExaRequest env "/search" _ w) as [[response|e] w1].
Qed.

Lemma searchCompanies_world query numResults w :
  let run := ExaSearch.searchCompanies env query numResults w in
  kvs run.2 = kvs w ∧ queue run.2 = queue w ∧ ticks run.2 = ticks w.
Proof.
  intros run. subst run. unfold ExaSearch.searchCompanies, mbind, M_bind.
  pose proof (search_world "company" query numResults w) as H. cbv zeta in H.
  by destruct (ExaClient.makeExaRequest env "/search" _ w) as [[response|e] w1].
Qed.

Lemma resultToPersonLead_run result w :
  ∃ lead w', resultToPersonLead env result w = (Returned lead, w')
             ∧ personLeadOf result lead
             ∧ kvs w' = kvs w ∧ queue w' = queue w ∧ trace w' = trace w.
Proof.
  unfold resultToPersonLead, leadId, personLeadOf.
  destruct (truthy (esr_id result)) eqn:Hid;
    do 2 eexists; (split; [reflexivity|]); simpl; repeat split; done.
Qed.

Lemma resultToCompanyLead_run result w :
  ∃ lead w', resultToCompanyLead env result w = (Returned lead, w')
             ∧ companyLeadOf result lead
             ∧ kvs w' = kvs w ∧ queue w' = queue w ∧ trace w' = trace w.
Proof.
  unfold resultToCompanyLead, leadId, companyLeadOf.
  destruct (truthy (esr_id result)) eqn:Hid;
    do 2 eexists; (split; [reflexivity|]); simpl; repeat split; done.
Qed.

Lemma mapM_run {A B} (f : A → M B) (R : A → B → Prop) l w :
  (∀ a w, ∃ b w', f a w = (Returned b, w')
                  ∧ R a b ∧ kvs w' = kvs w ∧ queue w' = queue w ∧ trace w' = trace w) →
  ∃ bs w', mapM f l w = (Returned bs, w')
           ∧ Forall2 R l bs ∧ kvs w' = kvs w ∧ queue w' = queue w ∧ trace w' = trace w.
Proof.
  intros Hf. revert w. induction l as [|a l IH]; intros w; simpl.
  - exists [], w. by repeat split.
  - destruct (Hf a w) as (b & w1 & Hrun & HR & Hkvs & Hqueue & Htrace).
    destruct (IH w1) as (bs & w2 & Hrest & HF & Hkvs2 & Hqueue2 & Htrace2).
    exists (b :: bs), w2.
    erewrite bind_returned by exact Hrun.
    erewrite bind_returned by exact Hrest.
    repeat split; [by constructor|congruence..].
Qed.

Lemma saveSearchToHistory_run searchType query resultCount w :
  saveSearchToHistory env searchType query resultCount w
  = (Returned (),
     {| kvs := <["search-history" :=
                  VHistory (pushHistory (historyItemAt env (ticks w)
                                           (searchType, query, resultCount))
                                        (storedHistory w))]> (kvs w);
        queue := queue w; trace := trace w; ticks := S (S (ticks w)) |}).
Proof. reflexivity. Qed.

Lemma savePersonLeads_run leads w :
  savePersonLeadsToStorage leads w
  = (Returned (),
     {| kvs := <["pending-leads" :=
                  VPersonLeads (mergeLeads profileUrl leads (storedPersonLeads w))]> (kvs w);
        queue := queue w; trace := trace w; ticks := ticks w |}).
Proof. reflexivity. Qed.

Lemma saveCompanyLeads_run leads w :
  saveCompanyLeadsToStorage leads w
  = (Returned (),
     {| kvs := <["pending-company-leads" :=
                  VCompanyLeads (mergeLeads website leads (storedCompanyLeads w))]> (kvs w);
        queue := queue w; trace := trace w; ticks := ticks w |}).
Proof. reflexivity. Qed.

Lemma searchPeople_outcome payload query w :
  s_query payload = Some query →
  truthy (Js.trim query) = true →
  let run := searchPeople env publishedDate payload w in
  match (ExaSearch.searchPeople env query (default 10%nat (s_numResults payload)) w).1 with
  | Thrown error =>
      run.1 = Returned (searchApology "people" error)
      ∧ kvs run.2 = kvs w ∧ ticks run.2 = ticks w
  | Returned found =>
      run.1 = Returned (ExaSearch.formatResultsForAgent publishedDate found person
                        +:+ peopleFollowUp (nonEmpty found))
      ∧ storedHistory run.2
        = pushHistory (historyItemAt env (ticks w) (people, query, length found))
                      (storedHistory w)
      ∧ (∃ leads, Forall2 personLeadOf found leads
                  ∧ storedPersonLeads run.2
                    = if nonEmpty found
                      then mergeLeads profileUrl leads (storedPersonLeads w)
                      else storedPersonLeads w)
      ∧ storedCompanyLeads run.2 = storedCompanyLeads w
  end.
Proof.
  intros Hquery Hvalid run. subst run.
  assert (Hq : orElse (Some query) "" = query) by by destruct query.
  unfold searchPeople. rewrite Hquery, Hq, Hvalid. change (negb true) with false.
  cbv iota. unfold try_catch, searchAndSavePeople.
  pose proof (searchPeople_world query (default 10%nat (s_numResults payload)) w) as Hworld.
  cbv zeta in Hworld.
  destruct (ExaSearch.searchPeople env query (default 10%nat (s_numResults payload)) w)
    as [[found|error] w1] eqn:Hsearch; simpl in Hworld; destruct Hworld as (Hkvs & _ & Hticks).
  - erewrite bind_returned by exact Hsearch.
    erewrite bind_returned by apply saveSearchToHistory_run.
    assert (storedHistory w1 = storedHistory w) as Hhistory
      by (unfold storedHistory; by rewrite Hkvs).
    rewrite Hhistory, Hticks, Hkvs.
    destruct found as [|first rest].
    + cbv beta iota zeta delta [mbind M_bind mret M_ret nonEmpty fst snd].
      unfold storedHistory, storedPersonLeads, storedCompanyLeads.
      cbn [kvs]. repeat (rewrite lookup_insert_eq || rewrite lookup_insert_ne by done).
      split; [done|]. split; [done|]. split; [|done].
      exists []. split; [constructor|done].
    + match goal with
      | |- context [mapM _ _ ≫= _] =>
          match goal with
          | |- context [(?m ≫= ?f) ?w2] =>
              destruct (mapM_run (resultToPersonLead env) personLeadOf (first :: rest) w2
                          resultToPersonLead_run)
                as (leads & w3 & Hmap & Hleads & Hkvs3 & _ & _)
          end
      end.
      simpl nonEmpty. cbv iota.
      erewrite (bind_returned (mapM _ _ ≫= _)); cycle 1.
      { erewrite bind_returned by exact Hmap. apply savePersonLeads_run. }
      cbn [kvs] in Hkvs3.
      cbv beta iota zeta delta [mbind M_bind mret M_ret nonEmpty fst snd].
      unfold storedHistory, storedPersonLeads, storedCompanyLeads. cbn [kvs]. rewrite Hkvs3.
      repeat (rewrite lookup_insert_eq || rewrite lookup_insert_ne by done).
      split; [done|]. split; [done|]. split; [|done].
      by exists leads.
  - erewrite bind_thrown by exact Hsearch. simpl. done.
Qed.

Lemma searchCompanies_outcome payload query w :
  s_query payload = Some query →
  truthy (Js.trim query) = true →
  let run := searchCompanies env publishedDate payload w in
  match (ExaSearch.searchCompanies env query (default 10%nat (s_numResults payload)) w).1 with
  | Thrown error =>
      run.1 = Returned (searchApology "companies" error)
      ∧ kvs run.2 = kvs w ∧ ticks run.2 = ticks w
  | Returned found =>
      run.1 = Returned (ExaSearch.formatResultsForAgent publishedDate found company
                        +:+ companiesFollowUp (nonEmpty found))
      ∧ storedHistory run.2
        = pushHistory (historyItemAt env (ticks w) (companies, query, length found))
                      (storedHistory w)
      ∧ (∃ leads, Forall2 companyLeadOf found leads
                  ∧ storedCompanyLeads run.2
                    = if nonEmpty found
                      then mergeLeads website leads (storedCompanyLeads w)
                      else storedCompanyLeads w)
      ∧ storedPersonLeads run.2 = storedPersonLeads w
  end.
Proof.
  intros Hquery Hvalid run. subst run.
  assert (Hq : orElse (Some query) "" = query) by by destruct query.
  unfold searchCompanies. rewrite Hquery, Hq, Hvalid. change (negb true) with false.
  cbv iota. unfold try_catch, searchAndSaveCompanies.
  pose proof (searchCompanies_world query (default 10%nat (s_numResults payload)) w) as Hworld.
  cbv zeta in Hworld.
  destruct (ExaSearch.searchCompanies env query (default 10%nat (s_numResults payload)) w)
    as [[found|error] w1] eqn:Hsearch; simpl in Hworld; destruct Hworld as (Hkvs & _ & Hticks).
  - erewrite bind_returned by exact Hsearch.
    erewrite bind_returned by apply saveSearchToHistory_run.
    assert (storedHistory w1 = storedHistory w) as Hhistory
      by (unfold storedHistory; by rewrite Hkvs).
    rewrite Hhistory, Hticks, Hkvs.
    destruct found as [|first rest].
    + cbv beta iota zeta delta [mbind M_bind mret M_ret nonEmpty fst snd].
      unfold storedHistory, storedCompanyLeads, storedPersonLeads.
      cbn [kvs]. repeat (rewrite lookup_insert_eq || rewrite lookup_insert_ne by done).
      split; [done|]. split; [done|]. split; [|done].
      exists []. split; [constructor|done].
    + match goal with
      | |- context [mapM _ _ ≫= _] =>
          match goal with
          | |- context [(?m ≫= ?f) ?w2] =>
              destruct (mapM_run (resultToCompanyLead env) companyLeadOf (first :: rest) w2
                          resultToCompanyLead_run)
                as (leads & w3 & Hmap & Hleads & Hkvs3 & _ & _)
          end
      end.
      simpl nonEmpty. cbv iota.
      erewrite (bind_returned (mapM _ _ ≫= _)); cycle 1.
      { erewrite bind_returned by exact Hmap. apply saveCompanyLeads_run. }
      cbn [kvs] in Hkvs3.
      cbv beta iota zeta delta [mbind M_bind mret M_ret nonEmpty fst snd].
      unfold storedHistory, storedCompanyLeads, storedPersonLeads. cbn [kvs]. rewrite Hkvs3.
      repeat (rewrite lookup_insert_eq || rewrite lookup_insert_ne by done).
      split; [done|]. split; [done|]. split; [|done].
      by exists leads.
  - erewrite bind_thrown by exact Hsearch. simpl. done.
Qed.


Lemma mergeLeads_covers {L} (key : L → option string) (leads existingLeads : list L) :
  (length leads + length existingLeads ≤ leadCap)%nat →
  (∀ l, l ∈ leads → key l ∈ key <$> mergeLeads key leads existingLeads)
  ∧ (length (mergeLeads key leads existingLeads) ≤ leadCap)%nat.
Proof.
  intros Hroom. unfold mergeLeads. split.
  - intros l Hl. rewrite take_ge.
    + rewrite fmap_app, elem_of_app.
      destruct (decide (key l ∈ key <$> existingLeads)) as [Hknown|Hnew]; [by right|left].
      apply list_elem_of_fmap_2, list_elem_of_filter. split; [|done].
      by rewrite elem_of_list_to_set.
    + rewrite length_app. pose proof (length_filter (λ l, key l ∉ (list_to_set (key <$> existingLeads) : gset (option string))) leads). lia.
  - rewrite length_take. lia.
Qed.



End SearchOutcome.



(** ** Searching again *)

Lemma Forall2_keys {A L} (R : A → L → Prop) (k : L → option string)
    (f : A → option string) xs ls :
  (∀ a l, R a l → k l = f a) → Forall2 R xs ls → k <$> ls = f <$> xs.
Proof.
  intros HR HF. induction HF as [|a l xs ls Hal HF IH]; [done|].
  rewrite !fmap_cons, (HR _ _ Hal). f_equal. exact IH.
Qed.

(** Merging changes the stored leads exactly when a key is new. *)
Lemma mergeLeads_unchanged_iff {L} (key : L → option string) (leads existingLeads : list L) :
  (length existingLeads ≤ Persistence.leadCap)%nat →
  Persistence.mergeLeads key leads existingLeads = existingLeads
  ↔ key <$> leads ⊆ key <$> existingLeads.
Proof.
  intros Hcap. split.
  - intros Hsame k Hk. apply list_elem_of_fmap in Hk as (l & -> & Hl).
    destruct (decide (key l ∈ key <$> existingLeads)) as [|Hnew]; [done|exfalso].
    unfold Persistence.mergeLeads in Hsame.
    assert (Hin : l ∈ filter (λ l, key l ∉ (list_to_set (key <$> existingLeads)
                                             : gset (option string))) leads).
    { apply list_elem_of_filter. split; [|done]. by rewrite elem_of_list_to_set. }
    destruct (filter _ leads) as [|l0 rest] eqn:Hfilter; [by apply elem_of_nil in Hin|].
    assert (Hl0 : l0 ∈ filter (λ l, key l ∉ (list_to_set (key <$> existingLeads)
                                               : gset (option string))) leads)
      by (rewrite Hfilter; by left).
    apply list_elem_of_filter in Hl0 as [Hl0 _]. apply Hl0.
    rewrite elem_of_list_to_set. apply list_elem_of_fmap_2.
    rewrite <- Hsame. unfold Persistence.leadCap. simpl. by left.
  - intros Hknown. apply mergeLeads_all_known; [|done].
    intros l Hl. by apply Hknown, list_elem_of_fmap_2.
Qed.

Section SearchAgain.
Context (env env' : Env) (publishedDate : ExaSearchResult → option string).
Import Persistence SearchActions.

(** The second search may be answered otherwise than the first: [env] are
    the collaborators of the first run, [env'] those of the second. *)
Lemma searchPeople_then payload query w found :
  s_query payload = Some query →
  truthy (Js.trim query) = true →
  let numResults := default 10%nat (s_numResults payload) in
  let w1 := (searchPeople env publishedDate payload w).2 in
  let w2 := (searchPeople env' publishedDate payload w1).2 in
  (ExaSearch.searchPeople env query numResults w).1 = Returned found →
  (length found + length (storedPersonLeads w) ≤ leadCap)%nat →
  urlsOf found ⊆ profileUrl <$> storedPersonLeads w1
  ∧ match (ExaSearch.searchPeople env' query numResults w1).1 with
    | Returned found' =>
        storedPersonLeads w2 = storedPersonLeads w1
        ↔ urlsOf found' ⊆ profileUrl <$> storedPersonLeads w1
    | Thrown _ => storedPersonLeads w2 = storedPersonLeads w1
    end.
Proof.
  intros Hquery Hvalid numResults w1 w2 Hfound Hroom.
  pose proof (searchPeople_outcome env publishedDate payload query w Hquery Hvalid) as Hfirst.
  pose proof (searchPeople_outcome env' publishedDate payload query w1 Hquery Hvalid)
    as Hsecond.
  cbv zeta in Hfirst, Hsecond. fold numResults w1 in Hfirst. fold numResults w2 in Hsecond.
  rewrite Hfound in Hfirst. destruct Hfirst as (_ & _ & (leads & Hleads & Hstored) & _).
  assert (Hkeys : profileUrl <$> leads = urlsOf found)
    by (eapply Forall2_keys; [|exact Hleads]; by intros a l [? ?]).
  assert (Hafter : urlsOf found ⊆ profileUrl <$> storedPersonLeads w1
                   ∧ (length (storedPersonLeads w1) ≤ leadCap)%nat).
  { rewrite Hstored. destruct found as [|first rest].
    - split; [by intros k Hk%elem_of_nil|]. simpl in *. lia.
    - simpl nonEmpty. cbv iota.
      assert (length leads = length (first :: rest)) as Hlength
        by (symmetry; by eapply Forall2_length).
      rewrite <- Hlength in Hroom.
      destruct (mergeLeads_covers profileUrl leads (storedPersonLeads w) Hroom)
        as [Hcover Hcap].
      split; [|exact Hcap]. rewrite <- Hkeys.
      intros k (l & -> & Hl)%list_elem_of_fmap. by apply Hcover. }
  destruct Hafter as [Hknown Hcap]. split; [exact Hknown|].
  destruct (ExaSearch.searchPeople env' query numResults w1).1 as [found'|error].
  - destruct Hsecond as (_ & _ & (leads' & Hleads' & ->) & _).
    assert (Hkeys' : profileUrl <$> leads' = urlsOf found')
      by (eapply Forall2_keys; [|exact Hleads']; by intros a l [? ?]).
    destruct found' as [|first rest];
      [split; [intros _ k Hk; by apply elem_of_nil in Hk|done]|].
    simpl nonEmpty. cbv iota. rewrite <- Hkeys'.
    by apply mergeLeads_unchanged_iff.
  - destruct Hsecond as (_ & Hkvs & _). unfold storedPersonLeads. by rewrite Hkvs.
Qed.

Lemma searchCompanies_then payload query w found :
  s_query payload = Some query →
  truthy (Js.trim query) = true →
  let numResults := default 10%nat (s_numResults payload) in
  let w1 := (searchCompanies env publishedDate payload w).2 in
  let w2 := (searchCompanies env' publishedDate payload w1).2 in
  (ExaSearch.searchCompanies env query numResults w).1 = Returned found →
  (length found + length (storedCompanyLeads w) ≤ leadCap)%nat →
  urlsOf found ⊆ website <$> storedCompanyLeads w1
  ∧ match (ExaSearch.searchCompanies env' query numResults w1).1 with
    | Returned found' =>
        storedCompanyLeads w2 = storedCompanyLeads w1
        ↔ urlsOf found' ⊆ website <$> storedCompanyLeads w1
    | Thrown _ => storedCompanyLeads w2 = storedCompanyLeads w1
    end.
Proof.
  intros Hquery Hvalid numResults w1 w2 Hfound Hroom.
  pose proof (searchCompanies_outcome env publishedDate payload query w Hquery Hvalid)
    as Hfirst.
  pose proof (searchCompanies_outcome env' publishedDate payload query w1 Hquery Hvalid)
    as Hsecond.
  cbv zeta in Hfirst, Hsecond. fold numResults w1 in Hfirst. fold numResults w2 in Hsecond.
  rewrite Hfound in Hfirst. destruct Hfirst as (_ & _ & (leads & Hleads & Hstored) & _).
  assert (Hkeys : website <$> leads = urlsOf found)
    by (eapply Forall2_keys; [|exact Hleads]; by intros a l [? ?]).
  assert (Hafter : urlsOf found ⊆ website <$> storedCompanyLeads w1
                   ∧ (length (storedCompanyLeads w1) ≤ leadCap)%nat).
  { rewrite Hstored. destruct found as [|first rest].
    - split; [by intros k Hk%elem_of_nil|]. simpl in *. lia.
    - simpl nonEmpty. cbv iota.
      assert (length leads = length (first :: rest)) as Hlength
        by (symmetry; by eapply Forall2_length).
      rewrite <- Hlength in Hroom.
      destruct (mergeLeads_covers website leads (storedCompanyLeads w) Hroom)
        as [Hcover Hcap].
      split; [|exact Hcap]. rewrite <- Hkeys.
      intros k (l & -> & Hl)%list_elem_of_fmap. by apply Hcover. }
  destruct Hafter as [Hknown Hcap]. split; [exact Hknown|].
  destruct (ExaSearch.searchCompanies env' query numResults w1).1 as [found'|error].
  - destruct Hsecond as (_ & _ & (leads' & Hleads' & ->) & _).
    assert (Hkeys' : website <$> leads' = urlsOf found')
      by (eapply Forall2_keys; [|exact Hleads']; by intros a l [? ?]).
    destruct found' as [|first rest];
      [split; [intros _ k Hk; by apply elem_of_nil in Hk|done]|].
    simpl nonEmpty. cbv iota. rewrite <- Hkeys'.
    by apply mergeLeads_unchanged_iff.
  - destruct Hsecond as (_ & Hkvs & _). unfold storedCompanyLeads. by rewrite Hkvs.
Qed.

(** X17: a search run again adds a lead exactly when Exa answers it with an
    address that is not stored. The two runs may be answered differently
    (each sends its own request). When the results of the first run and the
    stored leads fit under the cap of 200 together, every address the first
    run found is stored after it; the second run then leaves the stored
    leads exactly as they were if and only if every address of its own
    answer is stored already, and also when its request fails. So an answer
    made of addresses the first run found adds nothing, although new lead
    objects are built for it, and an answer with a new address does add a
    lead. This holds for people and for companies. *)
Theorem repeated_search_adds_no_leads payload query w :
  s_query payload = Some query →
  truthy (Js.trim query) = true →
  let numResults := default 10%nat (s_numResults payload) in
  (∀ found,
     let w1 := (searchPeople env publishedDate payload w).2 in
     let w2 := (searchPeople env' publishedDate payload w1).2 in
     (ExaSearch.searchPeople env query numResults w).1 = Returned found →
     (length found + length (storedPersonLeads w) ≤ leadCap)%nat →
     urlsOf found ⊆ profileUrl <$> storedPersonLeads w1
     ∧ (∀ found',
          (ExaSearch.searchPeople env' query numResults w1).1 = Returned found' →
          (storedPersonLeads w2 = storedPersonLeads w1
           ↔ urlsOf found' ⊆ profileUrl <$> storedPersonLeads w1)
          ∧ (urlsOf found' ⊆ urlsOf found → storedPersonLeads w2 = storedPersonLeads w1))
     ∧ (∀ error,
          (ExaSearch.searchPeople env' query numResults w1).1 = Thrown error →
          storedPersonLeads w2 = storedPersonLeads w1))
  ∧ (∀ found,
       let w1 := (searchCompanies env publishedDate payload w).2 in
       let w2 := (searchCompanies env' publishedDate payload w1).2 in
       (ExaSearch.searchCompanies env query numResults w).1 = Returned found →
       (length found + length (storedCompanyLeads w) ≤ leadCap)%nat →
       urlsOf found ⊆ website <$> storedCompanyLeads w1
       ∧ (∀ found',
            (ExaSearch.searchCompanies env' query numResults w1).1 = Returned found' →
            (storedCompanyLeads w2 = storedCompanyLeads w1
             ↔ urlsOf found' ⊆ website <$> storedCompanyLeads w1)
            ∧ (urlsOf found' ⊆ urlsOf found →
               storedCompanyLeads w2 = storedCompanyLeads w1))
       ∧ (∀ error,
            (ExaSearch.searchCompanies env' query numResults w1).1 = Thrown error →
            storedCompanyLeads w2 = storedCompanyLeads w1)).
Proof.
  intros Hquery Hvalid numResults. split.
  - intros found w1 w2 Hfound Hroom.
    destruct (searchPeople_then payload query w found Hquery Hvalid Hfound Hroom)
      as [Hknown Hsecond].
    fold numResults w1 w2 in Hknown, Hsecond.
    split; [exact Hknown|]. split.
    + intros found' Hfound'. rewrite Hfound' in Hsecond. split; [exact Hsecond|].
      intros Hsub. apply Hsecond. by etrans.
    + intros error Herror. by rewrite Herror in Hsecond.
  - intros found w1 w2 Hfound Hroom.
    destruct (searchCompanies_then payload query w found Hquery Hvalid Hfound Hroom)
      as [Hknown Hsecond].
    fold numResults w1 w2 in Hknown, Hsecond.
    split; [exact Hknown|]. split.
    + intros found' Hfound'. rewrite Hfound' in Hsecond. split; [exact Hsecond|].
      intros Hsub. apply Hsecond. by etrans.
    + intros error Herror. by rewrite Herror in Hsecond.
Qed.

End SearchAgain.

Lemma repeated_search_adds_no_leads_witness :
  let w1 := (SearchActions.searchPeople envSearch noDate engineersPayload emptyWorld).2 in
  Persistence.storedPersonLeads
    (SearchActions.searchPeople envSearch noDate engineersPayload w1).2
  = Persistence.storedPersonLeads w1
  ∧ Persistence.storedPersonLeads
      (SearchActions.searchPeople envSearchLater noDate engineersPayload w1).2
    ≠ Persistence.storedPersonLeads w1.
Proof.
  intros w1. split.
  - destruct (repeated_search_adds_no_leads envSearch envSearch noDate engineersPayload
                "staff engineers" emptyWorld eq_refl eq_refl) as [Hpeople _].
    destruct (Hpeople twoResults) as (_ & Hsecond & _);
      [reflexivity|vm_compute; lia|].
    destruct (Hsecond twoResults) as [_ Hsame]; [reflexivity|].
    by apply Hsame.
  - destruct (repeated_search_adds_no_leads envSearch envSearchLater noDate engineersPayload
                "staff engineers" emptyWorld eq_refl eq_refl) as [Hpeople _].
    destruct (Hpeople twoResults) as (_ & Hsecond & _);
      [reflexivity|vm_compute; lia|].
    destruct (Hsecond [maryResult]) as [Hiff _]; [reflexivity|].
    intros Hsame. apply Hiff in Hsame.
    specialize (Hsame (Some "https://linkedin.example/in/mary-major")).
    assert (Hin : Some "https://linkedin.example/in/mary-major" ∈ urlsOf [maryResult])
      by (by left).
    apply Hsame in Hin. vm_compute in Hin.
    apply list_elem_of_In in Hin. simpl in Hin.
    destruct Hin as [Hin|[Hin|[]]]; discriminate.
Defined.

(* ===================================================================== *)
(** * The dashboard resolver: history pages and saved leads *)
(* ===================================================================== *)

Section Dashboard.
Import Persistence GlobalPage.

Lemma updateLead_person leadId newStatus leads :
  Forall2 (λ old new,
             personButStatus old new
             ∧ pl_status new = if bool_decide (pl_id old = leadId)
                               then newStatus else pl_status old)
          leads (updatePerson leadId newStatus <$> leads).
Proof.
  induction leads as [|lead leads IH]; simpl; constructor; [|exact IH].
  unfold updatePerson, personButStatus. by destruct (bool_decide (pl_id lead = leadId)).
Qed.

Lemma updateLead_company leadId newStatus leads :
  Forall2 (λ old new,
             companyButStatus old new
             ∧ cl_status new = if bool_decide (cl_id old = leadId)
                               then newStatus else cl_status old)
          leads (updateCompany leadId newStatus <$> leads).
Proof.
  induction leads as [|lead leads IH]; simpl; constructor; [|exact IH].
  unfold updateCompany, companyButStatus. by destruct (bool_decide (cl_id lead = leadId)).
Qed.

(** X18: [updateLeadStatus] changes the status and nothing else. With a lead
    identifier, a lead type and a status given, it answers success (also
    when no lead has the identifier), and the stored list of the type is,
    position by position, the old one: each lead keeps identifier, name,
    URL, summary, time and source; the leads with the identifier get the
    new status, the others keep theirs. The list of the other type and the
    history are untouched. Every lead type other than "person" addresses
    the company leads. *)
Theorem updateLeadStatus_changes_status_only leadId leadType newStatus w :
  truthy leadId = true →
  truthy leadType = true →
  let run := updateLeadStatus (Some leadId) (Some leadType) (Some newStatus) w in
  run.1 = Returned true
  ∧ storedHistory run.2 = storedHistory w
  ∧ (leadType = "person" →
     Forall2 (λ old new,
                personButStatus old new
                ∧ pl_status new = if bool_decide (pl_id old = leadId)
                                  then newStatus else pl_status old)
             (storedPersonLeads w) (storedPersonLeads run.2)
     ∧ storedCompanyLeads run.2 = storedCompanyLeads w)
  ∧ (leadType ≠ "person" →
     Forall2 (λ old new,
                companyButStatus old new
                ∧ cl_status new = if bool_decide (cl_id old = leadId)
                                  then newStatus else cl_status old)
             (storedCompanyLeads w) (storedCompanyLeads run.2)
     ∧ storedPersonLeads run.2 = storedPersonLeads w).
Proof.
  intros Hid Htype run. subst run. unfold updateLeadStatus.
  change (truthyOpt (Some leadId)) with (truthy leadId).
  change (truthyOpt (Some leadType)) with (truthy leadType).
  rewrite Hid, Htype. cbn [andb].
  assert (orElse (Some leadId) "" = leadId) as -> by (simpl; by rewrite Hid).
  unfold try_catch.
  destruct (bool_decide (Some leadType = Some "person")) eqn:Hperson.
  - apply bool_decide_eq_true_1 in Hperson. injection Hperson as ->.
    cbv beta iota zeta delta [mbind M_bind mret M_ret loadPersonLeads kvs_set fst snd].
    unfold storedHistory, storedCompanyLeads, storedPersonLeads. cbn [kvs].
    repeat (rewrite lookup_insert_eq || rewrite lookup_insert_ne by done).
    split; [done|]. split; [done|]. split; [|done].
    intros _. split; [apply updateLead_person|done].
  - apply bool_decide_eq_false_1 in Hperson.
    cbv beta iota zeta delta [mbind M_bind mret M_ret loadCompanyLeads kvs_set fst snd].
    unfold storedHistory, storedCompanyLeads, storedPersonLeads. cbn [kvs].
    repeat (rewrite lookup_insert_eq || rewrite lookup_insert_ne by done).
    split; [done|]. split; [done|]. split; [intros ->; by destruct Hperson|].
    intros _. split; [apply updateLead_company|done].
Qed.

Lemma updateLeadStatus_changes_status_only_witness :
  pl_status <$> storedPersonLeads
                  (updateLeadStatus (Some "b") (Some "person") (Some ls_contacted)
                                    threeLeads).2
  = [ls_pending; ls_contacted; ls_pending].
Proof.
  destruct (updateLeadStatus_changes_status_only "b" "person" ls_contacted threeLeads)
    as (_ & _ & _ & _); try reflexivity.
Defined.

(** X19: [deleteLead] removes the leads with the identifier and keeps the rest
    in order. With a lead identifier and a lead type given, it answers
    success; afterwards a lead is stored exactly if it was stored before
    and has another identifier, the stored list is a sublist of the old
    one, and deleting again changes nothing. The list of the other type is
    untouched; every lead type other than "person" addresses the company
    leads. *)
Theorem deleteLead_removes_by_id leadId leadType w :
  truthy leadId = true →
  truthy leadType = true →
  let run := deleteLead (Some leadId) (Some leadType) w in
  run.1 = Returned true
  ∧ (leadType = "person" →
     (∀ lead, lead ∈ storedPersonLeads run.2
              ↔ lead ∈ storedPersonLeads w ∧ pl_id lead ≠ leadId)
     ∧ storedPersonLeads run.2 `sublist_of` storedPersonLeads w
     ∧ storedCompanyLeads run.2 = storedCompanyLeads w)
  ∧ (leadType ≠ "person" →
     (∀ lead, lead ∈ storedCompanyLeads run.2
              ↔ lead ∈ storedCompanyLeads w ∧ cl_id lead ≠ leadId)
     ∧ storedCompanyLeads run.2 `sublist_of` storedCompanyLeads w
     ∧ storedPersonLeads run.2 = storedPersonLeads w)
  ∧ kvs (deleteLead (Some leadId) (Some leadType) run.2).2 = kvs run.2.
Proof.
  intros Hid Htype run. subst run. unfold deleteLead.
  change (truthyOpt (Some leadId)) with (truthy leadId).
  change (truthyOpt (Some leadType)) with (truthy leadType).
  rewrite Hid, Htype. cbn [andb].
  assert (orElse (Some leadId) "" = leadId) as -> by (simpl; by rewrite Hid).
  unfold try_catch.
  destruct (bool_decide (Some leadType = Some "person")) eqn:Hperson.
  - apply bool_decide_eq_true_1 in Hperson. injection Hperson as ->.
    cbv beta iota zeta delta [mbind M_bind mret M_ret loadPersonLeads kvs_set fst snd].
    unfold storedHistory, storedCompanyLeads, storedPersonLeads. cbn [kvs].
    repeat (rewrite lookup_insert_eq || rewrite lookup_insert_ne by done).
    split; [done|]. split; [|split; [done|]].
    + intros _. split; [|split; [apply sublist_filter|done]].
      intros lead. rewrite list_elem_of_filter. tauto.
    + rewrite insert_insert_eq. do 2 f_equal.
      apply list_filter_filter_l. done.
  - apply bool_decide_eq_false_1 in Hperson.
    cbv beta iota zeta delta [mbind M_bind mret M_ret loadCompanyLeads kvs_set fst snd].
    unfold storedHistory, storedCompanyLeads, storedPersonLeads. cbn [kvs].
    repeat (rewrite lookup_insert_eq || rewrite lookup_insert_ne by done).
    split; [done|]. split; [intros ->; by destruct Hperson|]. split.
    + intros _. split; [|split; [apply sublist_filter|done]].
      intros lead. rewrite list_elem_of_filter. tauto.
    + rewrite insert_insert_eq. do 2 f_equal.
      apply list_filter_filter_l. done.
Qed.

Lemma deleteLead_removes_by_id_witness :
  pl_id <$> storedPersonLeads (deleteLead (Some "b") (Some "person") threeLeads).2
  = ["a"; "c"].
Proof.
  destruct (deleteLead_removes_by_id "b" "person" threeLeads) as (_ & _ & _ & _);
    try reflexivity.
Defined.

Lemma slice_lookup {A} (offset limit i : nat) (l : list A) :
  (i < limit)%nat → slice offset limit l !! i = l !! (offset + i)%nat.
Proof. intros Hi. unfold slice. by rewrite lookup_take_lt, lookup_drop. Qed.

Lemma slice_length {A} (offset limit : nat) (l : list A) :
  length (slice offset limit l) = (limit `min` (length l - offset))%nat.
Proof. unfold slice. by rewrite length_take, length_drop. Qed.

Lemma slice_tiles {A} (offset limit limit' : nat) (l : list A) :
  slice offset limit l ++ slice (offset + limit) limit' l = slice offset (limit + limit') l.
Proof.
  unfold slice. rewrite <- drop_drop.
  apply take_take_drop.
Qed.

(** X20: the pages of [getSearchHistory]. Reading a page leaves the world as it
    is; [total] is the length of the stored history whatever page is asked
    for; entry [i] of the page at [offset] is entry [offset + i] of the
    history, so the page has [min limit (total - offset)] entries; two
    adjacent pages together are the page of their joint size; a missing
    offset is 0 and a missing limit 20. After [clearSearchHistory], which
    answers success, every page is empty and the total is 0. *)
Theorem history_pages offset limit w :
  let history := storedHistory w in
  let page := {| items := slice offset limit history; total := length history |} in
  getSearchHistory (Some offset) (Some limit) w = (Returned page, w)
  ∧ (∀ i, (i < limit)%nat → items page !! i = history !! (offset + i)%nat)
  ∧ length (items page) = (limit `min` (length history - offset))%nat
  ∧ (∀ limit' next,
       (getSearchHistory (Some (offset + limit)%nat) (Some limit') w).1 = Returned next →
       ∃ both, (getSearchHistory (Some offset) (Some (limit + limit')%nat) w).1
               = Returned both
               ∧ items both = items page ++ items next)
  ∧ getSearchHistory None None w = getSearchHistory (Some 0%nat) (Some 20%nat) w
  ∧ (clearSearchHistory w).1 = Returned true
  ∧ (getSearchHistory (Some offset) (Some limit) (clearSearchHistory w).2).1
    = Returned {| items := []; total := 0%nat |}.
Proof.
  intros history page. subst page history.
  split; [reflexivity|]. split; [intros i Hi; by apply slice_lookup|].
  split; [apply slice_length|]. split; [|split; [reflexivity|split; [reflexivity|]]].
  - intros limit' next Hnext. injection Hnext as <-.
    eexists. split; [reflexivity|]. cbn [items]. by rewrite slice_tiles.
  - unfold getSearchHistory, clearSearchHistory, try_catch.
    cbv beta iota zeta delta [mbind M_bind mret M_ret loadHistory kvs_set fst snd default].
    unfold storedHistory. cbn [kvs]. rewrite lookup_insert_eq.
    unfold slice. by rewrite drop_nil, take_nil.
Qed.

Section Sorting.
Context (getTime : string → Z).

Lemma insertByRecency_perm lead leads : insertByRecency getTime lead leads ≡ₚ lead :: leads.
Proof.
  induction leads as [|other rest IH]; simpl; [done|].
  destruct (getTime (lead_foundAt lead) <? getTime (lead_foundAt other))%Z; [|done].
  rewrite IH. apply Permutation_swap.
Qed.

Lemma sortByRecency_perm leads : sortByRecency getTime leads ≡ₚ leads.
Proof.
  induction leads as [|lead leads IH]; simpl; [done|].
  unfold sortByRecency in *. simpl. by rewrite insertByRecency_perm, IH.
Qed.

Lemma insertByRecency_sorted lead leads :
  recentFirst getTime leads → recentFirst getTime (insertByRecency getTime lead leads).
Proof.
  induction leads as [|other rest IH]; simpl; [done|].
  intros [Hother Hrest].
  destruct (getTime (lead_foundAt lead) <? getTime (lead_foundAt other))%Z eqn:Hcmp.
  - apply Z.ltb_lt in Hcmp. simpl. split; [|by apply IH].
    rewrite insertByRecency_perm. constructor; [unfold notOlder; lia|done].
  - apply Z.ltb_ge in Hcmp. simpl. split; [|done].
    constructor; [exact Hcmp|].
    eapply Forall_impl; [exact Hother|]. unfold notOlder. intros l Hl. lia.
Qed.

Lemma sortByRecency_sorted leads : recentFirst getTime (sortByRecency getTime leads).
Proof.
  induction leads as [|lead leads IH]; simpl; [done|].
  by apply insertByRecency_sorted.
Qed.

Lemma filter_people_only (people : list PersonLead) (companies : list CompanyLead) :
  filter (λ l : Lead, match l with inl _ => true | inr _ => false end = true)
         ((inl <$> people) ++ (inr <$> companies)) = inl <$> people.
Proof.
  induction people as [|p people IH].
  - rewrite fmap_nil, app_nil_l.
    induction companies as [|c companies IH]; [done|].
    rewrite fmap_cons, filter_cons_False by done. exact IH.
  - rewrite !fmap_cons, <- app_comm_cons, filter_cons_True by done. f_equal. exact IH.
Qed.

Lemma filter_companies_only (people : list PersonLead) (companies : list CompanyLead) :
  filter (λ l : Lead, match l with inl _ => false | inr _ => true end = true)
         ((inl <$> people) ++ (inr <$> companies)) = inr <$> companies.
Proof.
  induction people as [|p people IH].
  - rewrite fmap_nil, app_nil_l.
    induction companies as [|c companies IH]; [done|].
    rewrite !fmap_cons, filter_cons_True by done. f_equal. exact IH.
  - rewrite fmap_cons, <- app_comm_cons, filter_cons_False by done. exact IH.
Qed.

Lemma filter_everything {A} (P : A → Prop) `{!∀ x, Decision (P x)} (l : list A) :
  (∀ x, P x) → filter P l = l.
Proof.
  intros HP. induction l as [|x l IH]; [done|].
  rewrite filter_cons_True by done. by rewrite IH.
Qed.

(** X21: the page of [getSavedLeads]. Reading it leaves the world as it is. The
    page is cut from a list that holds exactly the stored leads asked for,
    each as often as it is stored: people first and then companies when
    both are asked for, only people for the type "person", only companies
    for "company", and only the leads of the status asked for unless that
    is missing, empty or "all". The list is ordered by the time the leads
    were found, the most recent first; [total] is its length, [items] its
    entries from [offset] on, [limit] at most (0 and 20 when missing). *)
Theorem getSavedLeads_page type status offset limit w :
  ∃ sorted,
    getSavedLeads getTime type status offset limit w
    = (Returned {| items := slice (default 0%nat offset) (default 20%nat limit) sorted;
                   total := length sorted |}, w)
    ∧ sorted ≡ₚ filter (λ l, wantedStatus status l = true)
                  (filter (λ l, wantedType type l = true) (allStoredLeads w))
    ∧ recentFirst getTime sorted.
Proof.
  unfold getSavedLeads, try_catch.
  cbv beta iota zeta delta [mbind M_bind mret M_ret loadPersonLeads loadCompanyLeads fst snd].
  eexists. split; [reflexivity|]. split; [|apply sortByRecency_sorted].
  rewrite sortByRecency_perm.
  assert (∀ X Y : list Lead, X = Y → X ≡ₚ Y) as Heq by (by intros X Y ->).
  apply Heq. clear Heq.
  assert ((if bool_decide (type = Some "person") then inl <$> storedPersonLeads w
           else if bool_decide (type = Some "company") then inr <$> storedCompanyLeads w
                else (inl <$> storedPersonLeads w) ++ (inr <$> storedCompanyLeads w))
          = filter (λ l, wantedType type l = true) (allStoredLeads w)) as Htype.
  { unfold wantedType, allStoredLeads.
    destruct (bool_decide (type = Some "person")); [symmetry; apply filter_people_only|].
    destruct (bool_decide (type = Some "company")); [symmetry; apply filter_companies_only|].
    symmetry. by apply filter_everything. }
  unfold wantedStatus.
  destruct (truthyOpt status && negb (bool_decide (status = Some "all"))).
  - etrans; [|apply (list_filter_iff (λ l : Lead, Some (statusName (lead_status l)) = status))].
    + f_equal. exact Htype.
    + intros l. by rewrite bool_decide_eq_true.
  - etrans; [exact Htype|]. symmetry. by apply filter_everything.
Qed.

End Sorting.

Lemma getSavedLeads_page_witness :
  ∃ sorted,
    getSavedLeads dayOfMonth (Some "person") (Some "pending") None (Some 1%nat) threeLeads
    = (Returned {| items := slice 0 1 sorted; total := length sorted |}, threeLeads)
    ∧ sorted ≡ₚ [inl (leadFoundOn "a" "05" ls_pending); inl (leadFoundOn "c" "07" ls_pending)]
    ∧ recentFirst dayOfMonth sorted.
Proof.
  destruct (getSavedLeads_page dayOfMonth (Some "person") (Some "pending") None (Some 1%nat)
              threeLeads) as (sorted & Hrun & Hperm & Hsorted).
  exists sorted. split; [exact Hrun|]. split; [exact Hperm|exact Hsorted].
Defined.

End Dashboard.

(* ===================================================================== *)
(** * The issue type of a new lead ([getIssueTypeId]) *)
(* ===================================================================== *)

Section IssueType.
Import JiraIssues.

(** X22: the issue type [getIssueTypeId] chooses is never a sub-task type. It
    answers [null] exactly when the project has no standard type (all its
    types are sub-task types, or it has none). Otherwise it answers the
    identifier of a standard type of the project: one whose name is the
    preferred name ("Task" when none is given) without regard to case, or,
    when no standard type has that name, the first standard type. *)
Theorem chooseIssueTypeId_standard issueTypes preferredType :
  let standardTypes := List.filter (λ t, negb (it_subtask t)) (orEmpty issueTypes) in
  let named t := String.eqb (Js.toLowerCase (it_name t))
                            (Js.toLowerCase (orElse preferredType "Task")) in
  match chooseIssueTypeId issueTypes preferredType with
  | None => ∀ t, In t (orEmpty issueTypes) → it_subtask t = true
  | Some id =>
      ∃ t, In t (orEmpty issueTypes) ∧ it_subtask t = false ∧ it_id t = id
           ∧ (named t = true
              ∨ (∀ t', In t' standardTypes → named t' = false)
                ∧ ∃ rest, standardTypes = t :: rest)
  end.
Proof.
  intros standardTypes named. unfold chooseIssueTypeId. fold standardTypes.
  destruct standardTypes as [|fallbackType rest] eqn:Hstandard.
  - intros t Ht. destruct (it_subtask t) eqn:Hsub; [done|].
    assert (In t standardTypes) as Hin
      by (apply List.filter_In; split; [done|by rewrite Hsub]).
    by rewrite Hstandard in Hin.
  - rewrite <- Hstandard.
    destruct (List.find _ standardTypes) as [preferredMatch|] eqn:Hfind.
    + apply List.find_some in Hfind as [Hin Hnamed].
      apply List.filter_In in Hin as [Hin Hsub]. apply negb_true_iff in Hsub.
      exists preferredMatch. repeat split; try done. by left.
    + assert (In fallbackType standardTypes) as Hin by (rewrite Hstandard; by left).
      apply List.filter_In in Hin as [Hin Hsub]. apply negb_true_iff in Hsub.
      exists fallbackType. repeat split; try done. right. split; [|by exists rest].
      intros t' Ht'. by eapply List.find_none in Hfind.
Qed.

End IssueType.

(* ===================================================================== *)
(** * The Q&A store ([qandaUtil.js]) *)
(* ===================================================================== *)

Section Hash.
Import Qanda.
Local Open Scope Z_scope.

Lemma toInt32_range z : - 2 ^ 31 ≤ toInt32 z < 2 ^ 31.
Proof. unfold toInt32. pose proof (Z.mod_pos_bound (z + 2 ^ 31) (2 ^ 32)). lia. Qed.

Lemma toInt32_congr a b : a `mod` 2 ^ 32 = b `mod` 2 ^ 32 → toInt32 a = toInt32 b.
Proof.
  intros H. unfold toInt32. f_equal.
  rewrite (Z.add_mod a), (Z.add_mod b) by lia. by rewrite H.
Qed.

Lemma toInt32_mod z : toInt32 z `mod` 2 ^ 32 = z `mod` 2 ^ 32.
Proof.
  unfold toInt32.
  rewrite Zminus_mod, Z.mod_mod by lia.
  rewrite <- Zminus_mod. f_equal. lia.
Qed.

Lemma hashStep_spec h c : hashStep h c = toInt32 (31 * h + Z.of_nat (nat_of_ascii c)).
Proof.
  unfold hashStep. rewrite Z.lor_0_r, Z.shiftl_mul_pow2 by lia.
  apply toInt32_congr.
  rewrite Z.add_mod, Zminus_mod, toInt32_mod by lia.
  rewrite <- Zminus_mod, <- Z.add_mod by lia. f_equal. lia.
Qed.

Lemma polynomial31_congr a b text :
  a `mod` 2 ^ 32 = b `mod` 2 ^ 32 →
  polynomial31 a text `mod` 2 ^ 32 = polynomial31 b text `mod` 2 ^ 32.
Proof.
  revert a b. induction text as [|c rest IH]; intros a b H; simpl; [done|].
  apply IH.
  rewrite (Z.add_mod (31 * a)), (Z.add_mod (31 * b)) by lia.
  rewrite (Z.mul_mod 31 a), (Z.mul_mod 31 b) by lia. by rewrite H.
Qed.

Lemma hashFrom_spec h text :
  hashFrom h text = match text with "" => h | _ => toInt32 (polynomial31 h text) end.
Proof.
  revert h. induction text as [|c rest IH]; intros h; [done|].
  simpl hashFrom. rewrite IH, hashStep_spec.
  destruct rest as [|c' rest']; [done|].
  set (r := String c' rest').
  change (polynomial31 h (String c r))
    with (polynomial31 (31 * h + Z.of_nat (nat_of_ascii c)) r).
  apply toInt32_congr, polynomial31_congr, toInt32_mod.
Qed.

(** X23: [hashString] is the polynomial hash in base 31 (the [hashCode] of a
    Java string) wrapped to a signed 32-bit integer: the shift, the
    subtraction and the [|= 0] of every turn of the loop add up to
    [31 * hash + chr] modulo 2^32, and wrapping at every turn is wrapping
    once at the end. The hash therefore lies between -2^31 and 2^31 - 1,
    and the hash of a text with one more character is got from the hash
    of the text. *)
Theorem hashString_is_polynomial text :
  hashString text = toInt32 (polynomial31 0 text)
  ∧ - 2 ^ 31 ≤ hashString text < 2 ^ 31
  ∧ ∀ c, hashString (text +:+ String c "")
         = toInt32 (31 * hashString text + Z.of_nat (nat_of_ascii c)).
Proof.
  assert (∀ t, hashString t = toInt32 (polynomial31 0 t)) as Hhash.
  { intros t. unfold hashString. rewrite hashFrom_spec. by destruct t. }
  split; [apply Hhash|]. split; [rewrite Hhash; apply toInt32_range|].
  intros c. rewrite !Hhash. apply toInt32_congr.
  assert (∀ acc t, polynomial31 acc (t +:+ String c "")
                   = 31 * polynomial31 acc t + Z.of_nat (nat_of_ascii c)) as Hsnoc.
  { intros acc t. revert acc. induction t as [|d t IH]; intros acc; [done|].
    rewrite string_app_cons. simpl. apply IH. }
  rewrite Hsnoc.
  rewrite (Z.add_mod (31 * _)), (Z.add_mod (31 * toInt32 _)) by lia.
  rewrite (Z.mul_mod 31 (polynomial31 _ _)), (Z.mul_mod 31 (toInt32 _)) by lia.
  by rewrite toInt32_mod.
Qed.

End Hash.

Section QandaStore.
Import Qanda.
Context (parse : string → outcome QandA) (stringify : QandA → string)
        (resourceTypeToContentType : string → string).

Lemma find_app question_ ps rest :
  findContentPropertyByQuestion parse question_ ps = Returned None →
  findContentPropertyByQuestion parse question_ (ps ++ rest)
  = findContentPropertyByQuestion parse question_ rest.
Proof.
  induction ps as [|p ps IH]; [done|]. simpl.
  destruct (Js.startsWith propertKeyPrefix (cp_key p)); [|exact IH].
  destruct (parse (cp_value p)) as [value|e]; [|done].
  destruct (bool_decide (question value = Some question_)); [done|exact IH].
Qed.

Lemma retrieve_app ps rest qandas more :
  retrieveQandas parse ps = Returned qandas →
  retrieveQandas parse rest = Returned more →
  retrieveQandas parse (ps ++ rest) = Returned (qandas ++ more).
Proof.
  intros Hps Hrest. revert qandas Hps.
  induction ps as [|p ps IH]; intros qandas Hps; simpl in *.
  - by injection Hps as <-.
  - destruct (Js.startsWith propertKeyPrefix (cp_key p)); [|by apply IH].
    destruct (parse (cp_value p)) as [value|e]; [|done].
    destruct (retrieveQandas parse ps) as [found|e]; [|done].
    injection Hps as <-. by rewrite (IH found eq_refl).
Qed.

Lemma written_is_recognised question_ value p :
  writtenAs (propertyKeyFromQuestion question_) value p →
  Js.startsWith propertKeyPrefix (cp_key p) = true.
Proof. intros [-> _]. apply startsWith_app. Qed.

(** X24: what [storeQanda] writes, the readers find. For a page or a blog post
    whose properties hold no entry for the question, [storeQanda] asks for
    a new property under [qanda-<hash of the question>]. Once the
    properties hold what was asked for (and [JSON.parse] gives back what
    [JSON.stringify] was given), [findContentPropertyByQuestion] finds that
    property, so that storing the question again, with any answer, updates
    it under the same key with the next version number instead of making a
    second one; and [retrieveQandas] returns the question and its answer
    after the ones it returned before. *)
Theorem stored_question_is_found contentId resourceType question_ answer_ again ps p :
  resourceType = "page" ∨ resourceType = "blog" →
  parse (stringify {| question := Some question_; answer := Some answer_ |})
  = Returned {| question := Some question_; answer := Some answer_ |} →
  findContentPropertyByQuestion parse question_ ps = Returned None →
  writtenAs (propertyKeyFromQuestion question_)
            (stringify {| question := Some question_; answer := Some answer_ |}) p →
  let contentType := resourceTypeToContentType resourceType in
  let store := storeQanda parse stringify resourceTypeToContentType contentId resourceType in
  store question_ answer_ ps
  = Returned (Some (CreateContentProperty contentId contentType
                      (propertyKeyFromQuestion question_)
                      (stringify {| question := Some question_; answer := Some answer_ |})))
  ∧ findContentPropertyByQuestion parse question_ (ps ++ [p]) = Returned (Some p)
  ∧ store question_ again (ps ++ [p])
    = Returned (Some (UpdateContentProperty contentId contentType (cp_id p)
                        (propertyKeyFromQuestion question_)
                        (stringify {| question := Some question_; answer := Some again |})
                        (cp_version p + 1)))
  ∧ (∀ qandas,
       retrieveQandas parse ps = Returned qandas →
       retrieveQandas parse (ps ++ [p])
       = Returned (qandas ++ [{| question := Some question_; answer := Some answer_ |}])).
Proof.
  intros Htype Hjson Hnew Hwritten contentType store. subst store contentType.
  assert (bool_decide (resourceType = "page") || bool_decide (resourceType = "blog") = true)
    as Hsupported.
  { destruct Htype as [-> | ->]; reflexivity. }
  assert (findContentPropertyByQuestion parse question_ [p] = Returned (Some p)) as Hone.
  { simpl. rewrite (written_is_recognised _ _ _ Hwritten).
    destruct Hwritten as [_ ->]. rewrite Hjson. simpl.
    by rewrite bool_decide_eq_true_2. }
  assert (findContentPropertyByQuestion parse question_ (ps ++ [p]) = Returned (Some p))
    as Hfound by (by rewrite find_app).
  unfold storeQanda. rewrite Hsupported, Hnew, Hfound.
  repeat split; try done.
  intros qandas Hqandas. apply retrieve_app; [done|].
  simpl. rewrite (written_is_recognised _ _ _ Hwritten).
  destruct Hwritten as [_ ->]. by rewrite Hjson.
Qed.

(** X25: the key of a property is the hash of the question, and the search for
    an existing property compares questions: when a property is stored for
    one question and another question with the same hash is stored,
    [storeQanda] does not find the property and asks for a new one under
    the key that is already in use. *)
Theorem same_hash_same_key contentId resourceType q1 a1 q2 a2 p :
  resourceType = "page" ∨ resourceType = "blog" →
  parse (stringify {| question := Some q1; answer := Some a1 |})
  = Returned {| question := Some q1; answer := Some a1 |} →
  writtenAs (propertyKeyFromQuestion q1)
            (stringify {| question := Some q1; answer := Some a1 |}) p →
  hashString q1 = hashString q2 →
  q1 ≠ q2 →
  storeQanda parse stringify resourceTypeToContentType contentId resourceType q2 a2 [p]
  = Returned (Some (CreateContentProperty contentId (resourceTypeToContentType resourceType)
                      (cp_key p)
                      (stringify {| question := Some q2; answer := Some a2 |}))).
Proof.
  intros Htype Hjson Hwritten Hhash Hdifferent.
  assert (bool_decide (resourceType = "page") || bool_decide (resourceType = "blog") = true)
    as Hsupported.
  { destruct Htype as [-> | ->]; reflexivity. }
  unfold storeQanda. rewrite Hsupported. simpl.
  rewrite (written_is_recognised _ _ _ Hwritten).
  destruct Hwritten as [Hkey ->]. rewrite Hjson. simpl.
  rewrite bool_decide_eq_false_2 by congruence.
  rewrite Hkey. unfold propertyKeyFromQuestion. by rewrite Hhash.
Qed.

End QandaStore.

Lemma stored_question_is_found_witness :
  let p := {| Qanda.cp_id := "7"; Qanda.cp_key := "qanda-2112";
              Qanda.cp_value := "Aa|yes"; Qanda.cp_version := 1 |} in
  Qanda.retrieveQandas quizParse [p]
  = Returned [{| Qanda.question := Some "Aa"; Qanda.answer := Some "yes" |}].
Proof.
  intros p.
  destruct (stored_question_is_found quizParse quizStringify (λ t, t) "123" "page"
              "Aa" "yes" "no" [] p) as (_ & _ & _ & Hretrieve);
    [by left|reflexivity|reflexivity|by split|].
  exact (Hretrieve [] eq_refl).
Defined.

Lemma same_hash_same_key_witness :
  let p := {| Qanda.cp_id := "7"; Qanda.cp_key := "qanda-2112";
              Qanda.cp_value := "Aa|yes"; Qanda.cp_version := 1 |} in
  Qanda.storeQanda quizParse quizStringify (λ t, t) "123" "page" "BB" "no" [p]
  = Returned (Some (Qanda.CreateContentProperty "123" "page" "qanda-2112" "BB|no")).
Proof.
  intros p.
  apply (same_hash_same_key quizParse quizStringify (λ t, t) "123" "page" "Aa" "yes" "BB" "no" p);
    [by left|reflexivity|by split|reflexivity|discriminate].
Defined.

(* ===================================================================== *)
(** * The space of the page, and the comment on the issue *)
(* ===================================================================== *)

Section SpaceAndComment.
Context (env : Env).
Import ConfluencePages IssueDeepResearch.

Lemma getSpacesAsApp_run w :
  getSpacesAsApp env w = (Returned (listedSpaces env), logged [listSpaces] w).
Proof.
  unfold getSpacesAsApp, getSpacesAs, listedSpaces, mbind, M_bind. simpl.
  by destruct (confluenceSpaces env ConfluenceAsApp _).
Qed.

Lemma targetSpace_cases spaceKey w :
  match Consumer.targetSpace env spaceKey w with
  | (Returned key, w') =>
      (truthyOpt spaceKey = true ∧ Some key = spaceKey ∧ w' = w)
      ∨ (truthyOpt spaceKey = false
         ∧ ∃ space rest, listedSpaces env = space :: rest ∧ key = sp_key space
                         ∧ w' = logged (if truthy (sp_key space)
                                        then [listSpaces] else [listSpaces; listSpaces]) w)
  | (Thrown error, w') =>
      truthyOpt spaceKey = false
      ∧ listedSpaces env = []
      ∧ error = JsError "No Confluence spaces available. Please create a space first."
      ∧ w' = logged [listSpaces; listSpaces] w
  end.
Proof.
  unfold Consumer.targetSpace.
  destruct (truthyOpt spaceKey) eqn:Hkey.
  - left. destruct spaceKey as [key|]; [|done]. simpl in *. by rewrite Hkey.
  - unfold getDefaultSpaceKeyAsApp.
    erewrite bind_returned; [|erewrite bind_returned by apply getSpacesAsApp_run; reflexivity].
    destruct (listedSpaces env) as [|space rest] eqn:Hlisted.
    + change (truthyOpt (firstSpaceKey [])) with false. cbv iota.
      erewrite bind_returned by apply getSpacesAsApp_run.
      rewrite Hlisted, logged_logged. done.
    + change (firstSpaceKey (space :: rest)) with (Some (sp_key space)).
      change (truthyOpt (Some (sp_key space))) with (truthy (sp_key space)).
      destruct (truthy (sp_key space)) eqn:Hspace.
      * right. split; [done|]. exists space, rest. repeat split.
        -- simpl. by rewrite Hspace.
        -- by rewrite Hspace.
      * erewrite bind_returned by apply getSpacesAsApp_run.
        rewrite Hlisted, logged_logged. right. split; [done|]. exists space, rest.
        rewrite Hspace. done.
Qed.


Lemma bind_cong {A B} (m : M A) (f g : A → M B) w :
  (∀ a w', f a w' = g a w') → (m ≫= f) w = (m ≫= g) w.
Proof. intros H. unfold mbind, M_bind. by destruct (m w) as [[a|e] w']. Qed.

Lemma pollLoop_ignores_comment comment :
  ExaClient.pollLoop (withComment env comment) = ExaClient.pollLoop env.
Proof. reflexivity. Qed.

Lemma research_ignores_comment comment :
  ExaClient.deepResearch (withComment env comment) = ExaClient.deepResearch env.
Proof.
  unfold ExaClient.deepResearch, ExaClient.research, ExaClient.fallbackDeepSearch.
  rewrite pollLoop_ignores_comment. reflexivity.
Qed.

Lemma getIssueDetails_ignores_comment comment :
  getIssueDetails (withComment env comment) = getIssueDetails env.
Proof. reflexivity. Qed.

Lemma getSpaceKey_ignores_comment comment :
  getSpaceKey (withComment env comment) = getSpaceKey env.
Proof. reflexivity. Qed.

Lemma newDate_ignores_comment comment : newDate (withComment env comment) = newDate env.
Proof. reflexivity. Qed.

Lemma createPage_ignores_comment comment :
  createPage (withComment env comment) = createPage env.
Proof. reflexivity. Qed.

(** X27: whether the comment that links the page to the issue could be added
    makes no difference: [performDeepResearch] returns the same response
    and leaves the same world whatever Jira answers to the comment. A
    research whose page was created is reported as a success also when
    the issue got no link to it. *)
Theorem comment_failure_is_ignored comment issueKey w :
  performDeepResearch (withComment env comment) issueKey w
  = performDeepResearch env issueKey w.
Proof.
  unfold performDeepResearch, researchLead.
  rewrite getIssueDetails_ignores_comment, research_ignores_comment,
    getSpaceKey_ignores_comment, newDate_ignores_comment, createPage_ignores_comment.
  change (toLocaleDateString (withComment env comment)) with (toLocaleDateString env).
  destruct (negb (truthyOpt issueKey)); [done|].
  apply bind_cong. intros [issue|] w1; [|done].
  destruct (negb (hasLabel "tofu-lead" (orEmpty (iss_labels issue)))); [done|].
  destruct (determineEntityType (orEmpty (iss_labels issue))) as [entityType|]; [|done].
  apply bind_cong. intros [researchOutput|response] w2; [|done].
  destruct (negb (truthy researchOutput) || Js.includes _ researchOutput); [done|].
  apply bind_cong. intros spaceKey w3.
  destruct (negb (truthyOpt spaceKey)); [done|].
  apply bind_cong. intros today w4.
  apply bind_cong. intros [pageResult|] w5; [|done].
  unfold addResearchLinkComment, mbind, M_bind, emit.
  change (jiraComment (withComment env comment)) with comment.
  by destruct (comment (orElse issueKey "")), (jiraComment env (orElse issueKey "")).
Qed.

End SpaceAndComment.

(* ===================================================================== *)
(** * The consumer: what one delivery sends *)
(* ===================================================================== *)

Section ConsumerFootprint.
Context (env : Env).
Import ConfluencePages Consumer.
Local Open Scope Q_scope.

Lemma targetSpace_events spaceKey w :
  ∃ es, (targetSpace env spaceKey w).2 = logged es w
        ∧ forallb toConfluenceAsApp es = true ∧ (length es ≤ 2)%nat.
Proof.
  pose proof (targetSpace_cases env spaceKey w) as H.
  destruct (targetSpace env spaceKey w) as [[key|error] w'].
  - destruct H as [(_ & _ & ->)|(_ & space & rest & _ & _ & ->)].
    + exists []. rewrite logged_nil. split; [done|]. split; [done|simpl; lia].
    + eexists. split; [reflexivity|].
      destruct (truthy (sp_key space)); simpl; (split; [done|lia]).
  - destruct H as (_ & _ & _ & ->). eexists. split; [reflexivity|]. simpl. split; [done|lia].
Qed.

Lemma createPageAsApp_events options w :
  ∃ r es, createPageAsApp env options w = (Returned r, logged es w)
          ∧ forallb toConfluenceAsApp es = true ∧ (length es ≤ 2)%nat.
Proof.
  destruct (createPageAsApp_cases env options w) as (r & es & Hrun & [-> | ->] & _);
    exists r; eexists; (split; [exact Hrun|]); simpl; split; done || lia.
Qed.

Lemma process_events payload w :
  ∃ exa conf,
    (ExaClient.deepResearch env (ev_query payload) (ev_entityType payload) w).2 = logged exa w
    ∧ trace (process env payload w).2 = conf ++ exa ++ trace w
    ∧ forallb toConfluenceAsApp conf = true
    ∧ (length conf ≤ 4)%nat
    ∧ ((∃ error, (ExaClient.deepResearch env (ev_query payload) (ev_entityType payload) w).1
                 = Thrown error) → conf = [])
    ∧ match (process env payload w).1 with
      | Returned _ => ticks (process env payload w).2 = (ticks w + 3)%nat
      | Thrown _ => (ticks (process env payload w).2 ≤ ticks w + 1)%nat
      end.
Proof.
  destruct (deepResearch_events env (ev_query payload) (ev_entityType payload) w)
    as (exa & Hexa & _).
  exists exa. unfold process.
  destruct (ExaClient.deepResearch env (ev_query payload) (ev_entityType payload) w)
    as [[researchOutput|error] w1] eqn:Hresearch; simpl in Hexa; subst w1.
  2:{ exists []. erewrite bind_thrown by exact Hresearch. simpl. repeat split; lia. }
  erewrite bind_returned by exact Hresearch.
  destruct (targetSpace_events (ev_spaceKey payload) (logged exa w))
    as (c1 & Hspace & Hc1 & Hlen1).
  destruct (targetSpace env (ev_spaceKey payload) (logged exa w))
    as [[targetSpaceKey|error] w2] eqn:Htarget; simpl in Hspace; subst w2.
  2:{ exists c1. erewrite bind_thrown by exact Htarget. simpl.
      repeat split; try done; try lia; by intros [? ?]. }
  erewrite bind_returned by exact Htarget.
  erewrite bind_returned by reflexivity.
  match goal with
  | |- context [(createPageAsApp env ?options ≫= _) ?w3] =>
      destruct (createPageAsApp_events options w3) as (r & c2 & Hpage & Hc2 & Hlen2)
  end.
  exists (c2 ++ c1).
  erewrite bind_returned by exact Hpage.
  assert (forallb toConfluenceAsApp (c2 ++ c1) = true) as Hconf
    by (rewrite forallb_app; by rewrite Hc1, Hc2).
  assert (length (c2 ++ c1) ≤ 4)%nat as Hlen by (rewrite length_app; lia).
  destruct r as [page|]; simpl; rewrite <- !app_assoc;
    repeat split; try done; try lia; by intros [? ?].
Qed.

(** X28: what one delivery sends, end to end. The trace a delivery adds is
    the events of the research (the requests to Exa and the sleeps between
    the polls: at most 32 requests, at most 754343.75 ms of sleep) followed
    by at most four requests the app makes to Confluence (the space list,
    at most twice; the lookup of the space; the post of the page), and
    nothing else. Confluence is not contacted when the research throws.
    The clock is read three times at most: for the date on the page and
    for the two completion times. *)
Theorem handler_footprint payload w :
  ∃ exa conf,
    (ExaClient.deepResearch env (ev_query payload) (ev_entityType payload) w).2 = logged exa w
    ∧ trace (handler env payload w).2 = conf ++ exa ++ trace w
    ∧ (requestCount exa ≤ 32)%nat
    ∧ totalDelay (sleeps exa) <= 754343.75
    ∧ forallb toConfluenceAsApp conf = true
    ∧ (length conf ≤ 4)%nat
    ∧ ((∃ error, (ExaClient.deepResearch env (ev_query payload) (ev_entityType payload) w).1
                 = Thrown error) → conf = [])
    ∧ (ticks (handler env payload w).2 ≤ ticks w + 3)%nat.
Proof.
  destruct (process_events payload w) as (exa & conf & Hexa & Htrace & Hconf & Hlen & Hnone & Hticks).
  destruct (deepResearch_events env (ev_query payload) (ev_entityType payload) w)
    as (exa' & Hexa' & _ & Hrequests & Hsleep).
  assert (exa' = exa) as ->.
  { rewrite Hexa in Hexa'. apply (f_equal trace) in Hexa'. simpl in Hexa'.
    by apply app_inv_tail in Hexa'. }
  exists exa, conf. split; [exact Hexa|].
  unfold handler, try_catch.
  destruct (process env payload w) as [[page|error] w1] eqn:Hprocess; simpl in Htrace, Hticks.
  - erewrite bind_returned by exact Hprocess. simpl. repeat split; try done. lia.
  - erewrite bind_thrown by exact Hprocess. simpl. repeat split; try done. lia.
Qed.

End ConsumerFootprint.

(* ===================================================================== *)
(** * The consumer never looks at the store *)
(* ===================================================================== *)

Lemma alike_refl w : alike w w.
Proof. by repeat split. Qed.

Lemma alike_sym w1 w2 : alike w1 w2 → alike w2 w1.
Proof. intros (? & ? & ?). by repeat split. Qed.

Lemma ignoresStore_ret {A} (a : A) : ignoresStore (mret a : M A).
Proof. intros w1 w2 H. by split. Qed.

Lemma ignoresStore_throw {A} e : ignoresStore (throw e : M A).
Proof. intros w1 w2 H. by split. Qed.

Lemma ignoresStore_emit e : ignoresStore (emit e).
Proof. intros w1 w2 (Hq & Ht & Hn). repeat split; simpl; congruence. Qed.

Lemma ignoresStore_tick : ignoresStore tick.
Proof. intros w1 w2 (Hq & Ht & Hn). repeat split; simpl; congruence. Qed.

Lemma ignoresStore_kvs_set key v : ignoresStore (kvs_set key v).
Proof. intros w1 w2 (Hq & Ht & Hn). repeat split; simpl; congruence. Qed.

Lemma ignoresStore_pollsSoFar : ignoresStore ExaClient.pollsSoFar.
Proof.
  intros w1 w2 (Hq & Ht & Hn). unfold ExaClient.pollsSoFar. simpl.
  repeat split; congruence.
Qed.

Lemma ignoresStore_bind {A B} (m : M A) (f : A → M B) :
  ignoresStore m → (∀ a, ignoresStore (f a)) → ignoresStore (m ≫= f).
Proof.
  intros Hm Hf w1 w2 H. destruct (Hm w1 w2 H) as [Hout Hlike].
  unfold mbind, M_bind.
  destruct (m w1) as [[a1|e1] w1'], (m w2) as [[a2|e2] w2']; simpl in *; try discriminate.
  - injection Hout as ->. by apply Hf.
  - injection Hout as ->. by split.
Qed.

Lemma ignoresStore_try_catch {A} (m : M A) (h : thrown → M A) :
  ignoresStore m → (∀ e, ignoresStore (h e)) → ignoresStore (try_catch m h).
Proof.
  intros Hm Hh w1 w2 H. destruct (Hm w1 w2 H) as [Hout Hlike].
  unfold try_catch.
  destruct (m w1) as [[a1|e1] w1'], (m w2) as [[a2|e2] w2']; simpl in *; try discriminate.
  - injection Hout as ->. by split.
  - injection Hout as ->. by apply Hh.
Qed.

Create HintDb blind.
#[export] Hint Resolve ignoresStore_ret ignoresStore_throw ignoresStore_emit
  ignoresStore_tick ignoresStore_kvs_set ignoresStore_pollsSoFar : blind.

(** Splits a computation along its binds and case distinctions. *)
Ltac blind :=
  repeat first
    [ progress intros
    | solve [auto with blind]
    | match goal with
      | |- ignoresStore (_ ≫= _) => apply ignoresStore_bind
      | |- ignoresStore (try_catch _ _) => apply ignoresStore_try_catch
      | |- ignoresStore (let _ := _ in _) => cbv zeta
      | |- ignoresStore (if ?b then _ else _) => destruct b
      | |- ignoresStore (match ?x with _ => _ end) => destruct x
      end ].

Section Blind.
Context (env : Env).
Import ConfluencePages.

Lemma ignoresStore_getApiKey : ignoresStore (ExaClient.getApiKey env).
Proof. unfold ExaClient.getApiKey. blind. Qed.
#[local] Hint Resolve ignoresStore_getApiKey : blind.

Lemma ignoresStore_readResponse {J} (response : http J) :
  ignoresStore (ExaClient.readResponse response).
Proof. unfold ExaClient.readResponse. blind. Qed.
#[local] Hint Resolve ignoresStore_readResponse : blind.

Lemma ignoresStore_makeExaRequest {J} endpoint (response : http J) :
  ignoresStore (ExaClient.makeExaRequest env endpoint response).
Proof. unfold ExaClient.makeExaRequest. blind. Qed.
#[local] Hint Resolve ignoresStore_makeExaRequest : blind.

Lemma ignoresStore_makeExaGetRequest {J} endpoint (response : nat → http J) :
  ignoresStore (ExaClient.makeExaGetRequest env endpoint response).
Proof. unfold ExaClient.makeExaGetRequest. blind. Qed.
#[local] Hint Resolve ignoresStore_makeExaGetRequest : blind.

Lemma ignoresStore_sleep ms : ignoresStore (ExaClient.sleep ms).
Proof. unfold ExaClient.sleep. blind. Qed.
#[local] Hint Resolve ignoresStore_sleep : blind.

Lemma ignoresStore_pollLoop rid k d : ignoresStore (ExaClient.pollLoop env rid k d).
Proof.
  revert d. induction k as [|k IH]; intros d; simpl ExaClient.pollLoop; blind.
Qed.
#[local] Hint Resolve ignoresStore_pollLoop : blind.

Lemma ignoresStore_research query entityType :
  ignoresStore (ExaClient.research env query entityType).
Proof. unfold ExaClient.research. blind. Qed.
#[local] Hint Resolve ignoresStore_research : blind.

Lemma ignoresStore_fallbackDeepSearch query entityType :
  ignoresStore (ExaClient.fallbackDeepSearch env query entityType).
Proof. unfold ExaClient.fallbackDeepSearch. blind. Qed.
#[local] Hint Resolve ignoresStore_fallbackDeepSearch : blind.

Lemma ignoresStore_deepResearch query entityType :
  ignoresStore (ExaClient.deepResearch env query entityType).
Proof. unfold ExaClient.deepResearch. blind. Qed.
#[local] Hint Resolve ignoresStore_deepResearch : blind.

Lemma ignoresStore_newDate : ignoresStore (newDate env).
Proof. unfold newDate. blind. Qed.
#[local] Hint Resolve ignoresStore_newDate : blind.

Lemma ignoresStore_nowISO : ignoresStore (Consumer.nowISO env).
Proof. unfold Consumer.nowISO. blind. Qed.
#[local] Hint Resolve ignoresStore_nowISO : blind.

Lemma ignoresStore_getSpacesAs who : ignoresStore (getSpacesAs env who).
Proof. unfold getSpacesAs. blind. Qed.
#[local] Hint Resolve ignoresStore_getSpacesAs : blind.

Lemma ignoresStore_postPage who options : ignoresStore (postPage env who options).
Proof. unfold postPage. blind. Qed.
#[local] Hint Resolve ignoresStore_postPage : blind.

Lemma ignoresStore_createPageAsApp options : ignoresStore (createPageAsApp env options).
Proof. unfold createPageAsApp. blind. Qed.
#[local] Hint Resolve ignoresStore_createPageAsApp : blind.

Lemma ignoresStore_targetSpace spaceKey : ignoresStore (Consumer.targetSpace env spaceKey).
Proof.
  unfold Consumer.targetSpace, getDefaultSpaceKeyAsApp, getSpacesAsApp. blind.
Qed.
#[local] Hint Resolve ignoresStore_targetSpace : blind.

Lemma ignoresStore_process payload : ignoresStore (Consumer.process env payload).
Proof. unfold Consumer.process. blind. Qed.

Lemma ignoresStore_recordFailure payload error :
  ignoresStore (Consumer.recordFailure env payload error).
Proof. unfold Consumer.recordFailure. blind. Qed.

Lemma ignoresStore_handler payload : ignoresStore (Consumer.handler env payload).
Proof.
  unfold Consumer.handler.
  pose proof ignoresStore_process. pose proof ignoresStore_recordFailure. blind.
Qed.

End Blind.

Section LastWriteWins.
Context (env : Env).
Import ConfluencePages Consumer.

(** How the [try] block ends, step by step. *)
Lemma process_cases payload w :
  match (process env payload w).1 with
  | Returned page => stepsSucceed env payload w page
  | Thrown error => stepFails env payload w error
  end.
Proof.
  unfold process, stepsSucceed, stepFails.
  destruct (ExaClient.deepResearch env (ev_query payload) (ev_entityType payload) w)
    as [[researchOutput|error] w1] eqn:E1;
    [erewrite bind_returned by exact E1
    |erewrite bind_thrown by exact E1; simpl; by eauto].
  destruct (targetSpace env (ev_spaceKey payload) w1) as [[targetSpaceKey|error] w2] eqn:E2;
    [erewrite bind_returned by exact E2
    |erewrite bind_thrown by exact E2; simpl; right; left; by eauto 10].
  erewrite bind_returned by reflexivity.
  fold (pageOptions env payload researchOutput targetSpaceKey (dateNow env (ticks w2))).
  destruct (createPageAsApp_cases env
              (pageOptions env payload researchOutput targetSpaceKey (dateNow env (ticks w2)))
              (newDate env w2).2) as (r & es & E4 & _).
  erewrite bind_returned by exact E4.
  destruct r as [page|]; simpl.
  - exists researchOutput, w1, targetSpaceKey, w2. eexists. repeat split; [done|exact E4].
  - right; right. exists researchOutput, w1, targetSpaceKey, w2. eexists.
    repeat split; [done|exact E4].
Qed.

Lemma stepsSucceed_returned payload w page :
  stepsSucceed env payload w page → (process env payload w).1 = Returned page.
Proof.
  intros (researchOutput & w1 & targetSpaceKey & w2 & w3 & E1 & E2 & E3).
  by eapply process_succeeds.
Qed.

Lemma stepFails_thrown payload w error :
  stepFails env payload w error → (process env payload w).1 = Thrown error.
Proof.
  intros [(w1 & E1)|[(researchOutput & w1 & w2 & E1 & E2)
                    |(researchOutput & w1 & targetSpaceKey & w2 & w3 & E1 & E2 & E3 & ->)]].
  - by erewrite process_research_throws.
  - by erewrite process_no_space.
  - by erewrite process_no_page.
Qed.

(** The two writes of a delivery, with the records spelled out. *)
Lemma handler_writes payload w :
  let w' := (handler env payload w).2 in
  (handler env payload w).1 = Returned ()
  ∧ kvs w'
    = <[jobKey (ev_researchId payload) :=
          VJob (jobRecordOf env payload (process env payload w).1 (ticks w'))]>
        (<[resultKey (ev_researchId payload) :=
             VResult (resultRecordOf env payload (process env payload w).1 (ticks w'))]>
           (kvs w)).
Proof.
  unfold handler, try_catch.
  pose proof (process_store env payload w) as Hstore.
  destruct (process env payload w) as [[page|error] w1] eqn:Hprocess.
  - erewrite bind_returned by exact Hprocess.
    change ((mret () : M unit) w1) with (Returned (), w1). cbn [fst snd]. split; [done|].
    clear Hstore. unfold process in Hprocess.
    apply bind_returned_inv in Hprocess as (researchOutput & w2 & E1 & H).
    apply bind_returned_inv in H as (targetSpaceKey & w3 & E2 & H).
    apply bind_returned_inv in H as (today & w4 & E3 & H).
    apply bind_returned_inv in H as ([pageResult|] & w5 & E4 & H); [|discriminate].
    apply bind_returned_inv in H as (completedAt & w6 & Hnow1 & H).
    apply bind_returned_inv in H as ([] & w7 & Hset1 & H).
    apply bind_returned_inv in H as (completedAt' & w8 & Hnow2 & H).
    apply bind_returned_inv in H as ([] & w9 & Hset2 & H).
    injection H as <- <-. injection Hset2 as <-. injection Hnow2 as <- <-.
    injection Hset1 as <-. injection Hnow1 as <- <-.
    pose proof (keepsStore_deepResearch env (ev_query payload) (ev_entityType payload) w)
      as [K1 _]. rewrite E1 in K1.
    pose proof (keepsStore_targetSpace env (ev_spaceKey payload) w2) as [K2 _].
    rewrite E2 in K2.
    pose proof (keepsStore_newDate env w3) as [K3 _]. rewrite E3 in K3.
    match type of E4 with
    | createPageAsApp env ?o w4 = _ =>
        pose proof (keepsStore_createPageAsApp env o w4) as [K4 _]; rewrite E4 in K4
    end.
    cbn [fst snd] in *. cbn [kvs ticks jobRecordOf resultRecordOf].
    change (S (S (ticks w5)) - 1)%nat with (S (ticks w5) - 0)%nat.
    change (S (S (ticks w5)) - 2)%nat with (ticks w5 - 0)%nat.
    rewrite !Nat.sub_0_r, K4, K3, K2, K1. reflexivity.
  - erewrite bind_thrown by exact Hprocess. cbn [fst snd].
    destruct Hstore as [Hkvs _]. split; [reflexivity|].
    simpl. rewrite Hkvs, ?Nat.sub_0_r. reflexivity.
Qed.

End LastWriteWins.

(** C1, as the code has it: every delivery ends with a terminal status
    stored for the research identifier, and that status tells how this
    delivery went, whatever was stored before: completed when the research,
    the space lookup and the page creation succeeded, failed otherwise. The
    handler never reads the store: from any other content of the store, a
    stored terminal job included, the same delivery returns, sends the same
    requests and writes the same two records over what was there. The
    status is completed exactly when the research of this delivery returned
    a report, its space lookup a space and its page creation a page, whose
    address and title the record then carries; it is failed exactly when one
    of the three did not. *)
Theorem handler_status_is_last_outcome env payload w :
  ∃ job res,
    Consumer.storedJob (Consumer.handler env payload w).2 (ev_researchId payload) = Some job
    ∧ Consumer.isTerminal (job_status job) = true
    ∧ job_status job = match (Consumer.process env payload w).1 with
                       | Returned _ => js_completed
                       | Thrown _ => js_failed
                       end
    ∧ (∀ w0, alike w0 w →
         (Consumer.handler env payload w0).1 = Returned ()
         ∧ alike (Consumer.handler env payload w0).2 (Consumer.handler env payload w).2
         ∧ kvs (Consumer.handler env payload w0).2
           = <[Consumer.jobKey (ev_researchId payload) := VJob job]>
               (<[Consumer.resultKey (ev_researchId payload) := VResult res]> (kvs w0)))
    ∧ (job_status job = js_completed ↔ ∃ page, stepsSucceed env payload w page)
    ∧ (∀ page, stepsSucceed env payload w page →
         job_pageUrl job = Some (pageUrl page)
         ∧ job_pageTitle job = Some (title page)
         ∧ job_error job = None)
    ∧ (job_status job = js_failed ↔ ∃ error, stepFails env payload w error)
    ∧ (∀ error, stepFails env payload w error →
         job_pageUrl job = None ∧ job_pageTitle job = None ∧ is_Some (job_error job)).
Proof.
  pose proof (handler_writes env payload w) as [Hret Hkvs].
  pose proof (process_cases env payload w) as Hcases.
  set (readings := ticks (Consumer.handler env payload w).2) in *.
  exists (jobRecordOf env payload (Consumer.process env payload w).1 readings),
         (resultRecordOf env payload (Consumer.process env payload w).1 readings).
  split; [|split; [|split; [|split; [|split; [|split; [|split]]]]]].
  - unfold Consumer.storedJob. rewrite Hkvs, lookup_insert_eq. reflexivity.
  - by destruct (Consumer.process env payload w).1.
  - by destruct (Consumer.process env payload w).1.
  - intros w0 Hlike.
    pose proof (handler_writes env payload w0) as [Hret0 Hkvs0].
    destruct (ignoresStore_handler env payload w0 w Hlike) as [_ Hafter].
    destruct (ignoresStore_process env payload w0 w Hlike) as [Hsame _].
    split; [exact Hret0|]. split; [exact Hafter|].
    rewrite Hkvs0, Hsame. destruct Hafter as (_ & _ & ->). reflexivity.
  - split.
    + intros Hstatus. destruct (Consumer.process env payload w).1 as [page|error];
        [by exists page|discriminate].
    + intros [page Hpage]. by rewrite (stepsSucceed_returned env payload w page Hpage).
  - intros page Hpage. by rewrite (stepsSucceed_returned env payload w page Hpage).
  - split.
    + intros Hstatus. destruct (Consumer.process env payload w).1 as [page|error];
        [discriminate|by exists error].
    + intros [error Herror]. by rewrite (stepFails_thrown env payload w error Herror).
  - intros error Herror. rewrite (stepFails_thrown env payload w error Herror).
    simpl. repeat split; eauto.
Qed.

Lemma handler_status_is_last_outcome_witness :
  job_status <$> Consumer.storedJob storedCompleted (ev_researchId delivery)
    = Some js_completed
  ∧ job_status <$> Consumer.storedJob (Consumer.handler envDown delivery storedCompleted).2
                                      (ev_researchId delivery)
    = Some js_failed.
Proof.
  split; [vm_compute; reflexivity|].
  destruct (handler_status_is_last_outcome envDown delivery emptyWorld)
    as (job & res & _ & _ & Hstatus & Hblind & _).
  destruct (Hblind storedCompleted) as (_ & _ & Hkvs); [by repeat split|].
  unfold Consumer.storedJob. rewrite Hkvs, lookup_insert_eq. simpl.
  rewrite Hstatus. vm_compute. reflexivity.
Defined.
